(** * Guild chat backend: permission gates, invite redemption, broadcasts

    A shallow embedding of the Express/Mongoose route handlers of the
    backend (models/Guild.js, models/Invite.js, models/Channel.js,
    models/Message.js and the guild, channel, message, conversation and
    invite routers).

    Conventions of the embedding:
    - an ObjectId is the string that [toString()] gives; Mongoose array
      [includes] and the handlers' [toString()] comparisons are equality of
      these strings;
    - a collection is the list of its documents in insertion order
      ([findOne] returns the first match); [_id] carries a unique index, so
      inserting a second document with a stored [_id] throws;
    - a handler runs in a small monad that threads the store and the list
      of socket emissions and stops at the first [res.json];
    - a handler is modelled from the point where [authenticate] has set
      [req.user] and [validationResult] is empty; the ids of a request are
      given as the stored ids are written, except the userId of a kick,
      which the handler uses both raw and cast and whose cast is modelled;
      [populate] only decorates the response and is left out; timestamps
      are left out. *)

From Stdlib Require Import List String Bool ZArith Lia Arith.
Import ListNotations.
Open Scope string_scope.
Open Scope list_scope.
Open Scope bool_scope.

Arguments String.eqb : simpl never.

Definition ObjectId := string.

(** [array.includes(x)] on an array of ObjectIds or of strings. *)
Definition includes (l : list string) (x : string) : bool :=
  existsb (String.eqb x) l.

(** ** Collections *)

Section Collection.
Context {D : Type}.
Variable key : D -> ObjectId.

Definition findById (id : ObjectId) (l : list D) : option D :=
  find (fun d => key d =? id) l.

(** [insertOne]: [None] is the duplicate-key error of the unique index
    on [_id]. *)
Definition insertOne (d : D) (l : list D) : option (list D) :=
  if existsb (fun d' => key d' =? key d) l then None else Some (l ++ [d]).

(** [updateOne(filter, update)]: the first match is rewritten. *)
Fixpoint updateOne (p : D -> bool) (f : D -> D) (l : list D) : list D :=
  match l with
  | [] => []
  | d :: l' => if p d then f d :: l' else d :: updateOne p f l'
  end.

(** [updateMany(filter, update)]. *)
Definition updateMany (p : D -> bool) (f : D -> D) (l : list D) : list D :=
  map (fun d => if p d then f d else d) l.

(** [document.save()] of a stored document: written back under its
    [_id]. *)
Definition saveDoc (d : D) (l : list D) : list D :=
  updateOne (fun d' => key d' =? key d) (fun _ => d) l.

Definition deleteMany (p : D -> bool) (l : list D) : list D :=
  filter (fun d => negb (p d)) l.

Fixpoint deleteOne (p : D -> bool) (l : list D) : list D :=
  match l with
  | [] => []
  | d :: l' => if p d then l' else d :: deleteOne p l'
  end.

Definition countDocuments (p : D -> bool) (l : list D) : nat :=
  List.length (filter p l).
End Collection.

(** ** models/Guild.js *)

Module Role.
Record t := mk {
  name : string;
  color : string;
  permissions : list string;
  position : nat;
  members : list ObjectId
}.

Definition pushMember (u : ObjectId) (r : t) : t :=
  mk (name r) (color r) (permissions r) (position r) (members r ++ [u]).

Definition pullMember (u : ObjectId) (r : t) : t :=
  mk (name r) (color r) (permissions r) (position r)
     (filter (fun m => negb (m =? u)) (members r)).
End Role.

Module Guild.
Record t := mk {
  _id : ObjectId;
  name : string;
  icon : option string;
  owner : ObjectId;
  members : list ObjectId;
  roles : list Role.t
}.

Definition setMembers (ms : list ObjectId) (g : t) : t :=
  mk (_id g) (name g) (icon g) (owner g) ms (roles g).

Definition setRoles (rs : list Role.t) (g : t) : t :=
  mk (_id g) (name g) (icon g) (owner g) (members g) rs.

(** [guildSchema.pre('save')]: the two default roles of a new guild. *)
Definition preSave (isNew : bool) (this : t) : t :=
  if isNew then
    let this1 :=
      setRoles (roles this ++
        [Role.mk "@everyone" "#99AAB5"
           ["VIEW_CHANNELS"; "SEND_MESSAGES"; "READ_MESSAGE_HISTORY"]
           0 (members this)]) this in
    setRoles (roles this1 ++
      [Role.mk "Admin" "#F04747" ["ADMINISTRATOR"] 1 [owner this1]]) this1
  else this.
End Guild.

(** The check every guild-scoped handler but one repeats:
    [guild.owner.toString() === userId.toString() ||
     guild.roles.some(role => role.permissions.includes('ADMINISTRATOR') &&
                              role.members.includes(userId))]. *)
Definition isAdmin (guild : Guild.t) (userId : ObjectId) : bool :=
  (Guild.owner guild =? userId) ||
  existsb (fun role => includes (Role.permissions role) "ADMINISTRATOR" &&
                       includes (Role.members role) userId)
          (Guild.roles guild).

(** [isAdmin || guild.roles.some(role =>
      role.permissions.includes(perm) && role.members.includes(userId))],
    the shape of canManageChannels, canKickMembers, canManageRoles,
    canCreateInvites, canManageGuild and canManageMessages. *)
Definition canDo (perm : string) (guild : Guild.t) (userId : ObjectId) : bool :=
  isAdmin guild userId ||
  existsb (fun role => includes (Role.permissions role) perm &&
                       includes (Role.members role) userId)
          (Guild.roles guild).

(** The check of POST /channels/:id/messages:
    [guild.roles.some(role => role.members.includes(userId) &&
                              role.permissions.includes('SEND_MESSAGES'))]. *)
Definition canSendMessages (guild : Guild.t) (userId : ObjectId) : bool :=
  existsb (fun role => includes (Role.members role) userId &&
                       includes (Role.permissions role) "SEND_MESSAGES")
          (Guild.roles guild).

(** ** models/Channel.js, models/Message.js, conversations and users *)

Module Channel.
Inductive kind := text | voice.

Record t := mk {
  _id : ObjectId;
  name : string;
  topic : string;
  guild : ObjectId;
  category : string;
  type : kind
}.
End Channel.

Module Message.
Record t := mk {
  _id : ObjectId;
  content : string;
  author : ObjectId;
  channel : option ObjectId;
  conversationId : option ObjectId
}.
End Message.

(** [conversationSchema], the model that the conversation router
    requires: participants, creator and lastMessage (default [null]).  The
    schema declares no validator on the participants. *)
Module Conversation.
Record t := mk {
  _id : ObjectId;
  participants : list ObjectId;
  creator : ObjectId;
  lastMessage : option ObjectId
}.

Definition setLastMessage (m : ObjectId) (c : t) : t :=
  mk (_id c) (participants c) (creator c) (Some m).
End Conversation.

(** Modelled from the spec: models/User.js is not among the sources; of a
    user the handlers here only look up the id. *)
Module User.
Record t := mk {
  _id : ObjectId;
  username : string
}.
End User.

(** ** models/Invite.js *)

Module Invite.
Record t := mk {
  _id : ObjectId;
  code : string;
  guild : ObjectId;
  creator : ObjectId;
  uses : Z;
  maxUses : Z;
  expiresAt : option Z
}.

(** [if (!this.expiresAt) return false; return this.expiresAt < new Date()] *)
Definition isExpired (now : Z) (this : t) : bool :=
  match expiresAt this with
  | None => false
  | Some e => (e <? now)%Z
  end.

(** [if (this.maxUses === 0) return false; return this.uses >= this.maxUses] *)
Definition isMaxUsesReached (this : t) : bool :=
  if (maxUses this =? 0)%Z then false else (maxUses this <=? uses this)%Z.

Definition setUses (n : Z) (i : t) : t :=
  mk (_id i) (code i) (guild i) (creator i) n (maxUses i) (expiresAt i).

(** The schema defaults of a new invite: no use yet, unlimited, expiry
    seven days ahead. *)
Definition create (id : ObjectId) (c : string) (g u : ObjectId) (now : Z) : t :=
  mk id c g u 0 0 (Some (now + 7 * 24 * 60 * 60 * 1000)%Z).
End Invite.

(** ** The store and the socket server *)

Record Store := mkStore {
  users : list User.t;
  guilds : list Guild.t;
  channels : list Channel.t;
  messages : list Message.t;
  conversations : list Conversation.t;
  invites : list Invite.t
}.

Inductive Payload :=
| PGuild (g : Guild.t)
| PGuildId (id : ObjectId)
| PChannel (c : Channel.t)
| PMessage (m : Message.t)
| PMessageRef (id : ObjectId) (channel conversationId : option ObjectId)
| PConversation (c : Conversation.t)
| PRole (guildId : ObjectId) (role : option Role.t)
| PMember (guildId userId : ObjectId)
| PKicked (guildId : ObjectId) (name : string).

(** [io.to(room).emit(event, payload)] *)
Record Emit := mkEmit {
  room : string;
  event : string;
  payload : Payload
}.

Record World := mkWorld {
  db : Store;
  io : list Emit
}.

(** ** Responses *)

Inductive Body :=
| BMessage (message : string)
| BGuild (g : option Guild.t)
| BChannel (c : Channel.t)
| BRole (r : option Role.t)
| BMsg (m : Message.t)
| BConversation (c : Conversation.t)
| BInvite (i : Invite.t).

Record Response := mkResponse {
  status : nat;
  body : Body
}.

(** The error taxonomy of the specification (section 7), read off a
    response: the status decides, and status 400 is told apart by the
    message the handler sends. *)
Inductive ErrorKind :=
| NotFound | Forbidden | Unauthenticated | Conflict | Expired | Exhausted
| ValidationFailed | InternalFailure.

Definition errorKind (r : Response) : option ErrorKind :=
  match status r with
  | 404 => Some NotFound
  | 403 => Some Forbidden
  | 401 => Some Unauthenticated
  | 500 => Some InternalFailure
  | 400 =>
      match body r with
      | BMessage m =>
          if m =? "Invite has expired" then Some Expired
          else if m =? "Invite has reached maximum uses" then Some Exhausted
          else if m =? "You are already a member of this guild" then Some Conflict
          else if m =? "Cannot delete the last channel in a guild" then Some Conflict
          else Some ValidationFailed
      | _ => Some ValidationFailed
      end
  | _ => None
  end.

(** ** The handler monad *)

Inductive Step (A : Type) :=
| Next (a : A)
| Sent (r : Response).
Arguments Next {A} a.
Arguments Sent {A} r.

Definition Handler (A : Type) := World -> Step A * World.

Definition ret {A} (a : A) : Handler A := fun w => (Next a, w).

Definition bind {A B} (m : Handler A) (k : A -> Handler B) : Handler B :=
  fun w =>
    match m w with
    | (Next a, w') => k a w'
    | (Sent r, w') => (Sent r, w')
    end.

Notation "x <- m ;; k" := (bind m (fun x => k))
  (at level 61, m at next level, right associativity).
Notation "m ;;; k" := (bind m (fun _ => k))
  (at level 61, right associativity).

(** [return res.status(s).json({ message })] *)
Definition send {A} (s : nat) (b : Body) : Handler A :=
  fun w => (Sent (mkResponse s b), w).

Definition fail {A} (s : nat) (m : string) : Handler A := send s (BMessage m).

(** An exception reaches the handler's [catch]: status 500. *)
Definition throw {A} : Handler A := fail 500 "Server error".

(** [const x = await Model.find...(); if (!x) return res.status(s)...] *)
Definition orFail {A} (o : option A) (s : nat) (m : string) : Handler A :=
  match o with
  | Some a => ret a
  | None => fail s m
  end.

(** A value whose properties are read next: [null] throws a TypeError. *)
Definition orThrow {A} (o : option A) : Handler A :=
  match o with
  | Some a => ret a
  | None => throw
  end.

(** [if (c) return res.status(s).json({ message })] *)
Definition failIf (c : bool) (s : nat) (m : string) : Handler unit :=
  if c then fail s m else ret tt.

Definition getDb : Handler Store := fun w => (Next (db w), w).

Definition putDb (s : Store) : Handler unit :=
  fun w => (Next tt, mkWorld s (io w)).

Definition emit (r e : string) (p : Payload) : Handler unit :=
  fun w => (Next tt, mkWorld (db w) (io w ++ [mkEmit r e p])).

(** A route handler always ends in a response. *)
Definition Route := Handler Empty_set.

Definition run (h : Route) (w : World) : Response * World :=
  match h w with
  | (Sent r, w') => (r, w')
  | (Next e, _) => match e with end
  end.

Definition setGuilds (gs : list Guild.t) (s : Store) : Store :=
  mkStore (users s) gs (channels s) (messages s) (conversations s) (invites s).
Definition setChannels (cs : list Channel.t) (s : Store) : Store :=
  mkStore (users s) (guilds s) cs (messages s) (conversations s) (invites s).
Definition setMessages (ms : list Message.t) (s : Store) : Store :=
  mkStore (users s) (guilds s) (channels s) ms (conversations s) (invites s).
Definition setConversations (cs : list Conversation.t) (s : Store) : Store :=
  mkStore (users s) (guilds s) (channels s) (messages s) cs (invites s).
Definition setInvites (ivs : list Invite.t) (s : Store) : Store :=
  mkStore (users s) (guilds s) (channels s) (messages s) (conversations s) ivs.

(** ** routes/invites.js *)

Definition isEveryone (role : Role.t) : bool := Role.name role =? "@everyone".

(** [guild.members.push(userId)], then
    [everyoneRole = guild.roles.find(role => role.name === '@everyone');
     if (everyoneRole) everyoneRole.members.push(userId)]. *)
Definition addMember (userId : ObjectId) (guild : Guild.t) : Guild.t :=
  let guild1 := Guild.setMembers (Guild.members guild ++ [userId]) guild in
  Guild.setRoles (updateOne isEveryone (Role.pushMember userId)
                            (Guild.roles guild1)) guild1.

(** POST /invites/join *)
Definition joinGuild (now : Z) (userId : ObjectId) (inviteCode : string) : Route :=
  s <- getDb ;;
  invite <- orFail (find (fun i => Invite.code i =? inviteCode) (invites s))
                   404 "Invalid invite code" ;;
  failIf (Invite.isExpired now invite) 400 "Invite has expired" ;;;
  failIf (Invite.isMaxUsesReached invite) 400 "Invite has reached maximum uses" ;;;
  guild <- orFail (findById Guild._id (Invite.guild invite) (guilds s))
                  404 "Guild not found" ;;
  failIf (includes (Guild.members guild) userId)
         400 "You are already a member of this guild" ;;;
  putDb (setGuilds (saveDoc Guild._id (addMember userId guild) (guilds s)) s) ;;;
  s1 <- getDb ;;
  putDb (setInvites
           (saveDoc Invite._id (Invite.setUses (Invite.uses invite + 1) invite)
                    (invites s1)) s1) ;;;
  emit ("guild:" ++ Guild._id guild)%string "memberJoin"
       (PMember (Guild._id guild) userId) ;;;
  s2 <- getDb ;;
  send 200 (BGuild (findById Guild._id (Guild._id guild) (guilds s2))).

(** POST /invites/guilds/:guildId.  [inviteId], [code] and [now] stand for
    the fresh ObjectId, the [nanoid(6)] code and [Date.now()]; [code]
    carries a unique index as [_id] does. *)
Definition createInvite (userId guildId inviteId : ObjectId) (code : string)
    (now : Z) : Route :=
  s <- getDb ;;
  guild <- orFail (findById Guild._id guildId (guilds s)) 404 "Guild not found" ;;
  failIf (negb (includes (Guild.members guild) userId))
         403 "You are not a member of this guild" ;;;
  failIf (negb (canDo "CREATE_INVITE" guild userId))
         403 "You do not have permission to create invites" ;;;
  let invite := Invite.create inviteId code guildId userId now in
  failIf (existsb (fun i => Invite.code i =? code) (invites s))
         500 "Server error" ;;;
  ivs <- orThrow (insertOne Invite._id invite (invites s)) ;;
  putDb (setInvites ivs s) ;;;
  send 201 (BInvite invite).

(** ** routes/guilds.js *)

(** POST /guilds.  [guildId] and [channelId] stand for the ObjectIds that
    [new Guild] and [new Channel] draw; [file] is [req.file.path]. *)
Definition createGuild (userId : ObjectId) (name : string)
    (file : option string) (guildId channelId : ObjectId) : Route :=
  let guild :=
    Guild.mk guildId name (option_map (fun p => "/" ++ p)%string file)
             userId [userId] [] in
  s <- getDb ;;
  gs <- orThrow (insertOne Guild._id (Guild.preSave true guild) (guilds s)) ;;
  putDb (setGuilds gs s) ;;;
  let generalChannel :=
    Channel.mk channelId "general" "" guildId "Text Channels" Channel.text in
  s1 <- getDb ;;
  cs <- orThrow (insertOne Channel._id generalChannel (channels s1)) ;;
  putDb (setChannels cs s1) ;;;
  s2 <- getDb ;;
  send 201 (BGuild (findById Guild._id guildId (guilds s2))).

(** DELETE /guilds/:id *)
Definition deleteGuild (userId guildId : ObjectId) : Route :=
  s <- getDb ;;
  guild <- orFail (findById Guild._id guildId (guilds s)) 404 "Guild not found" ;;
  failIf (negb (Guild.owner guild =? userId))
         403 "Only the guild owner can delete the guild" ;;;
  putDb (setChannels
           (deleteMany (fun c => Channel.guild c =? guildId) (channels s)) s) ;;;
  s1 <- getDb ;;
  putDb (setGuilds (deleteOne (fun g => Guild._id g =? guildId) (guilds s1)) s1) ;;;
  emit ("guild:" ++ guildId)%string "guildDelete" (PGuildId guildId) ;;;
  send 200 (BMessage "Guild deleted successfully").

(** POST /guilds/:id/channels *)
Definition createChannel (userId guildId : ObjectId) (name topic : string)
    (type : Channel.kind) (category : string) (channelId : ObjectId) : Route :=
  s <- getDb ;;
  guild <- orFail (findById Guild._id guildId (guilds s)) 404 "Guild not found" ;;
  failIf (negb (canDo "MANAGE_CHANNELS" guild userId))
         403 "You do not have permission to create channels" ;;;
  let channel := Channel.mk channelId name topic guildId category type in
  cs <- orThrow (insertOne Channel._id channel (channels s)) ;;
  putDb (setChannels cs s) ;;;
  emit ("guild:" ++ guildId)%string "newChannel" (PChannel channel) ;;;
  send 201 (BChannel channel).

(** [$pull: { members: userId }], for the ObjectId that the update casts
    the request's userId to. *)
Definition pullMember (userId : ObjectId) (g : Guild.t) : Guild.t :=
  Guild.setMembers (filter (fun m => negb (m =? userId)) (Guild.members g)) g.

(** [$pull: { 'roles.$[].members': userId }], for the ObjectId that the
    update casts the request's userId to. *)
Definition pullFromRoles (userId : ObjectId) (g : Guild.t) : Guild.t :=
  Guild.setRoles (map (Role.pullMember userId) (Guild.roles g)) g.

(** DELETE /guilds/:id/members/:userId, requested by [actor].  [userId] is
    the raw string of the URL.  The owner test compares it, as a string,
    with [guild.owner.toString()]; the room key and the payloads carry it
    as it is; the two updates cast it to an ObjectId before they pull.
    [cast] is that cast of Mongoose, a function of the driver, giving the
    id as the stored ids are written; a string it refuses makes the first
    update throw a CastError. *)
Definition removeMember (cast : string -> option ObjectId)
    (actor guildId : ObjectId) (userId : string) : Route :=
  s <- getDb ;;
  guild <- orFail (findById Guild._id guildId (guilds s)) 404 "Guild not found" ;;
  failIf (negb (canDo "KICK_MEMBERS" guild actor))
         403 "You do not have permission to kick members" ;;;
  failIf (Guild.owner guild =? userId) 403 "Cannot remove the guild owner" ;;;
  member <- orThrow (cast userId) ;;
  putDb (setGuilds
           (updateOne (fun g => Guild._id g =? guildId) (pullMember member)
                      (guilds s)) s) ;;;
  s1 <- getDb ;;
  putDb (setGuilds
           (updateMany
              (fun g => (Guild._id g =? guildId) &&
                        existsb (fun r => includes (Role.members r) member)
                                (Guild.roles g))
              (pullFromRoles member) (guilds s1)) s1) ;;;
  emit ("guild:" ++ guildId)%string "memberRemove" (PMember guildId userId) ;;;
  emit ("user:" ++ userId)%string "kickedFromGuild"
       (PKicked guildId (Guild.name guild)) ;;;
  send 200 (BMessage "Member removed successfully").

(** [color || '#99AAB5'] *)
Definition colorOrDefault (color : option string) : string :=
  match color with
  | Some c => if c =? "" then "#99AAB5" else c
  | None => "#99AAB5"
  end.

(** POST /guilds/:id/roles, requested by [actor]. *)
Definition createRole (actor guildId : ObjectId) (name : string)
    (color : option string) (permissions : list string) : Route :=
  s <- getDb ;;
  guild <- orFail (findById Guild._id guildId (guilds s)) 404 "Guild not found" ;;
  failIf (negb (canDo "MANAGE_ROLES" guild actor))
         403 "You do not have permission to manage roles" ;;;
  let newRole :=
    Role.mk name (colorOrDefault color) permissions
            (List.length (Guild.roles guild)) [] in
  let guild1 := Guild.setRoles (Guild.roles guild ++ [newRole]) guild in
  putDb (setGuilds (saveDoc Guild._id guild1 (guilds s)) s) ;;;
  let role := nth_error (Guild.roles guild1)
                        (List.length (Guild.roles guild1) - 1) in
  emit ("guild:" ++ guildId)%string "newRole" (PRole guildId role) ;;;
  send 201 (BRole role).

(** ** routes/channels.js *)

Section Channels.
(** [mongoose.Types.ObjectId.isValid], a function of the driver. *)
Variable isValid : string -> bool.

(** DELETE /channels/:id *)
Definition deleteChannel (userId channelId : ObjectId) : Route :=
  failIf (negb (isValid channelId)) 400 "Invalid channel ID format" ;;;
  s <- getDb ;;
  channel <- orFail (findById Channel._id channelId (channels s))
                    404 "Channel not found" ;;
  guild <- orThrow (findById Guild._id (Channel.guild channel) (guilds s)) ;;
  failIf (negb (canDo "MANAGE_CHANNELS" guild userId))
         403 "You do not have permission to manage channels" ;;;
  let channelCount :=
    countDocuments (fun c => Channel.guild c =? Channel.guild channel)
                   (channels s) in
  failIf (channelCount <=? 1)%nat
         400 "Cannot delete the last channel in a guild" ;;;
  putDb (setMessages
           (deleteMany (fun m => match Message.channel m with
                                 | Some c => c =? channelId
                                 | None => false
                                 end) (messages s)) s) ;;;
  s1 <- getDb ;;
  putDb (setChannels
           (deleteOne (fun c => Channel._id c =? channelId) (channels s1)) s1) ;;;
  emit ("channel:" ++ channelId)%string "channelDelete" (PChannel channel) ;;;
  emit ("guild:" ++ Channel.guild channel)%string "channelDelete"
       (PChannel channel) ;;;
  send 200 (BMessage "Channel deleted successfully").

(** POST /channels/:id/messages.  [messageId] stands for the ObjectId
    that [new Message] draws. *)
Definition createMessage (userId channelId : ObjectId) (content : string)
    (messageId : ObjectId) : Route :=
  failIf (negb (isValid channelId)) 400 "Invalid channel ID format" ;;;
  s <- getDb ;;
  channel <- orFail (findById Channel._id channelId (channels s))
                    404 "Channel not found" ;;
  guild <- orThrow (findById Guild._id (Channel.guild channel) (guilds s)) ;;
  failIf (negb (includes (Guild.members guild) userId))
         403 "You are not a member of this guild" ;;;
  failIf (negb (canSendMessages guild userId))
         403 "You do not have permission to send messages in this channel" ;;;
  let message := Message.mk messageId content userId (Some channelId) None in
  ms <- orThrow (insertOne Message._id message (messages s)) ;;
  putDb (setMessages ms s) ;;;
  emit ("channel:" ++ channelId)%string "newMessage" (PMessage message) ;;;
  send 201 (BMsg message).
End Channels.

(** ** routes/messages.js *)

(** DELETE /messages/:id *)
Definition deleteMessage (userId messageId : ObjectId) : Route :=
  s <- getDb ;;
  message <- orFail (findById Message._id messageId (messages s))
                    404 "Message not found" ;;
  let isAuthor := Message.author message =? userId in
  hasPermission <-
    match negb isAuthor, Message.channel message with
    | true, Some ch =>
        channel <- orThrow (findById Channel._id ch (channels s)) ;;
        guild <- orThrow (findById Guild._id (Channel.guild channel) (guilds s)) ;;
        ret (canDo "MANAGE_MESSAGES" guild userId)
    | _, _ => ret isAuthor
    end ;;
  failIf (negb hasPermission)
         403 "You do not have permission to delete this message" ;;;
  putDb (setMessages
           (deleteOne (fun m => Message._id m =? messageId) (messages s)) s) ;;;
  match Message.channel message with
  | Some ch =>
      emit ("channel:" ++ ch)%string "messageDelete"
           (PMessageRef messageId (Some ch) None)
  | None =>
      match Message.conversationId message with
      | Some cv =>
          emit ("conversation:" ++ cv)%string "messageDelete"
               (PMessageRef messageId None (Some cv))
      | None => ret tt
      end
  end ;;;
  send 200 (BMessage "Message deleted successfully").

(** ** routes/conversations.js *)

(** [participants: { $all: [userId, recipient] }] *)
Definition hasBoth (userId recipient : ObjectId) (c : Conversation.t) : bool :=
  includes (Conversation.participants c) userId &&
  includes (Conversation.participants c) recipient.

(** POST /conversations.  [conversationId] stands for the ObjectId that
    [new Conversation] draws. *)
Definition createConversation (userId recipient conversationId : ObjectId)
    : Route :=
  s <- getDb ;;
  recipientUser <- orFail (findById User._id recipient (users s))
                          404 "Recipient not found" ;;
  match find (hasBoth userId recipient) (conversations s) with
  | Some existingConversation => send 200 (BConversation existingConversation)
  | None =>
      let conversation :=
        Conversation.mk conversationId [userId; recipient] userId None in
      cs <- orThrow (insertOne Conversation._id conversation (conversations s)) ;;
      putDb (setConversations cs s) ;;;
      emit ("user:" ++ recipient)%string "newConversation"
           (PConversation conversation) ;;;
      send 201 (BConversation conversation)
  end.

(** [array.forEach(f)] for an effectful [f]. *)
Fixpoint forEach {A} (l : list A) (f : A -> Handler unit) : Handler unit :=
  match l with
  | [] => ret tt
  | a :: l' => f a ;;; forEach l' f
  end.

(** POST /conversations/:id/messages.  [messageId] stands for the ObjectId
    that [new Message] draws. *)
Definition sendMessage (userId conversationId : ObjectId) (content : string)
    (messageId : ObjectId) : Route :=
  s <- getDb ;;
  conversation <- orFail (findById Conversation._id conversationId
                                   (conversations s))
                         404 "Conversation not found" ;;
  failIf (negb (includes (Conversation.participants conversation) userId))
         403 "You are not a participant in this conversation" ;;;
  let message :=
    Message.mk messageId content userId None (Some conversationId) in
  ms <- orThrow (insertOne Message._id message (messages s)) ;;
  putDb (setMessages ms s) ;;;
  s1 <- getDb ;;
  putDb (setConversations
           (saveDoc Conversation._id
                    (Conversation.setLastMessage messageId conversation)
                    (conversations s1)) s1) ;;;
  forEach (Conversation.participants conversation)
          (fun participantId =>
             emit ("user:" ++ participantId)%string "newMessage"
                  (PMessage message)) ;;;
  emit ("conversation:" ++ conversationId)%string "newMessage"
       (PMessage message) ;;;
  send 201 (BMsg message).

(** ** Sequences of requests *)

(** The guild-changing requests: creation, invite redemption, member
    kick, role creation; and the creation of the invites to redeem. *)
Inductive GuildOp :=
| OpCreateGuild (userId : ObjectId) (name : string) (file : option string)
                (guildId channelId : ObjectId)
| OpJoinGuild (now : Z) (userId : ObjectId) (inviteCode : string)
| OpRemoveMember (actor guildId : ObjectId) (userId : string)
| OpCreateRole (actor guildId : ObjectId) (name : string)
               (color : option string) (permissions : list string)
| OpCreateInvite (userId guildId inviteId : ObjectId) (code : string) (now : Z).

Definition guildOp (cast : string -> option ObjectId) (op : GuildOp) : Route :=
  match op with
  | OpCreateGuild u n f g c => createGuild u n f g c
  | OpJoinGuild now u c => joinGuild now u c
  | OpRemoveMember a g u => removeMember cast a g u
  | OpCreateRole a g n c p => createRole a g n c p
  | OpCreateInvite u g i c now => createInvite u g i c now
  end.

(** Worlds reached from one without guilds. *)
Inductive guildReachable (cast : string -> option ObjectId) : World -> Prop :=
| guildReachable_init w : guilds (db w) = [] -> guildReachable cast w
| guildReachable_step w op :
    guildReachable cast w ->
    guildReachable cast (snd (run (guildOp cast op) w)).

(** The member set of every role lies within the guild's member list. *)
Definition rolesWithinMembers (g : Guild.t) : bool :=
  forallb (fun r => forallb (includes (Guild.members g)) (Role.members r))
          (Guild.roles g).

(** Worlds reached from one without conversations by POST /conversations. *)
Inductive conversationReachable : World -> Prop :=
| conversationReachable_init w :
    conversations (db w) = [] -> conversationReachable w
| conversationReachable_step w userId recipient conversationId :
    conversationReachable w ->
    conversationReachable
      (snd (run (createConversation userId recipient conversationId) w)).

(** The participants of [c] are, as a set, the unordered pair of [a] and
    [b]. *)
Definition isPair (a b : ObjectId) (c : Conversation.t) : bool :=
  forallb (fun p => (p =? a) || (p =? b)) (Conversation.participants c) &&
  includes (Conversation.participants c) a &&
  includes (Conversation.participants c) b.

(** ** The conditions of invite redemption, in the specification's words *)

(** "now > expiresAt" *)
Definition specExpired (now : Z) (i : Invite.t) : Prop :=
  exists e, Invite.expiresAt i = Some e /\ (now > e)%Z.

(** "maxUses != 0 && uses >= maxUses" *)
Definition specExhausted (i : Invite.t) : Prop :=
  Invite.maxUses i <> 0%Z /\ (Invite.uses i >= Invite.maxUses i)%Z.

(** The invite that a code names. *)
Definition inviteOf (code : string) (s : Store) : option Invite.t :=
  find (fun i => Invite.code i =? code) (invites s).

(** ** Sample data *)

(** An instance of [isValid] for the examples: 24 hexadecimal digits. *)
Definition isHexDigit (c : Ascii.ascii) : bool :=
  let n := Ascii.nat_of_ascii c in
  ((48 <=? n) && (n <=? 57) || (65 <=? n) && (n <=? 70) ||
   (97 <=? n) && (n <=? 102))%nat.

Definition isHex24 (s : string) : bool :=
  (String.length s =? 24)%nat && forallb isHexDigit (list_ascii_of_string s).

(** An instance of [cast] for the examples: 24 hexadecimal digits, read
    without regard to case and written in lower case. *)
Definition lowerHexDigit (c : Ascii.ascii) : Ascii.ascii :=
  let n := Ascii.nat_of_ascii c in
  if ((65 <=? n) && (n <=? 70))%nat then Ascii.ascii_of_nat (n + 32) else c.

Definition castHex24 (s : string) : option ObjectId :=
  if isHex24 s
  then Some (string_of_list_ascii (map lowerHexDigit (list_ascii_of_string s)))
  else None.

Definition alice : ObjectId := "64a000000000000000000001".
Definition bob : ObjectId := "64a000000000000000000002".
Definition carol : ObjectId := "64a000000000000000000003".
Definition guild1 : ObjectId := "64b000000000000000000001".
Definition channel1 : ObjectId := "64c000000000000000000001".
Definition message1 : ObjectId := "64d000000000000000000001".
Definition conversation1 : ObjectId := "64e000000000000000000001".
Definition invite1 : ObjectId := "64f000000000000000000001".

Definition sampleUsers : list User.t :=
  [User.mk alice "alice"; User.mk bob "bob"; User.mk carol "carol"].

Definition emptyWorld : World :=
  mkWorld (mkStore sampleUsers [] [] [] [] []) [].

(** The world after alice has created a guild. *)
Definition aliceWorld : World :=
  snd (run (createGuild alice "Guild" None guild1 channel1) emptyWorld).

(** The same world with an invite of one use, valid until time 1000. *)
Definition inviteWorld : World :=
  mkWorld (setInvites [Invite.mk invite1 "abc123" guild1 alice 0 1 (Some 1000%Z)]
                      (db aliceWorld)) [].

(** A guild whose owner sits in the Admin role only, and bob too. *)
Definition adminOnlyGuild : Guild.t :=
  Guild.mk guild1 "Guild" None alice [alice; bob]
    [Role.mk "@everyone" "#99AAB5"
       ["VIEW_CHANNELS"; "SEND_MESSAGES"; "READ_MESSAGE_HISTORY"] 0 [];
     Role.mk "Admin" "#F04747" ["ADMINISTRATOR"] 1 [alice; bob]].

Definition runOps (cast : string -> option ObjectId) (ops : list GuildOp)
    (w : World) : World :=
  fold_left (fun w op => snd (run (guildOp cast op) w)) ops w.

(** The owner's id as a client may also write it. *)
Definition aliceUpper : string := "64A000000000000000000001".


(** An invite whose guild has been deleted. *)
Definition danglingWorld : World :=
  snd (run (deleteGuild alice guild1) inviteWorld).

(** A direct message of alice to bob. *)
Definition dmWorld : World :=
  mkWorld (mkStore sampleUsers [adminOnlyGuild] [] 
             [Message.mk message1 "hello" alice None (Some conversation1)]
             [Conversation.mk conversation1 [alice; bob] alice (Some message1)]
             []) [].

(** ** Further handlers *)

(** [Model.findByIdAndUpdate(id, update, { new: true })]: the first
    document under the id is rewritten; the result is the rewritten
    document, or [null]. *)
Definition findByIdAndUpdate {D : Type} (key : D -> ObjectId) (id : ObjectId)
    (f : D -> D) (l : list D) : option D * list D :=
  (option_map f (findById key id l),
   updateOne (fun d => key d =? id) f l).

Definition setContent (content : string) (m : Message.t) : Message.t :=
  Message.mk (Message._id m) content (Message.author m) (Message.channel m)
             (Message.conversationId m).

(** The notification that PUT and DELETE /messages/:id send to the room of
    the message's container. *)
Definition emitToContainer (message : Message.t) (e : string) (p : Payload)
    : Handler unit :=
  match Message.channel message with
  | Some ch => emit ("channel:" ++ ch)%string e p
  | None =>
      match Message.conversationId message with
      | Some cv => emit ("conversation:" ++ cv)%string e p
      | None => ret tt
      end
  end.

(** PUT /messages/:id.  The [updatedAt] that the update also sets is a
    timestamp and is left out like the others. *)
Definition updateMessage (userId messageId : ObjectId) (content : string)
    : Route :=
  s <- getDb ;;
  message <- orFail (findById Message._id messageId (messages s))
                    404 "Message not found" ;;
  failIf (negb (Message.author message =? userId))
         403 "You can only edit your own messages" ;;;
  let '(updated, ms) :=
    findByIdAndUpdate Message._id messageId (setContent content) (messages s) in
  putDb (setMessages ms s) ;;;
  message1 <- orThrow updated ;;
  emitToContainer message1 "messageUpdate" (PMessage message1) ;;;
  send 200 (BMsg message1).

(** GET /messages/:id.  [populate('channel', 'name guild')] puts the stored
    channel in place of its id, and [null] when no channel is stored under
    it. *)
Definition getMessage (userId messageId : ObjectId) : Route :=
  s <- getDb ;;
  message <- orFail (findById Message._id messageId (messages s))
                    404 "Message not found" ;;
  let populated :=
    match Message.channel message with
    | Some ch => findById Channel._id ch (channels s)
    | None => None
    end in
  match populated with
  | Some channel =>
      guild <- orThrow (findById Guild._id (Channel.guild channel) (guilds s)) ;;
      failIf (negb (includes (Guild.members guild) userId))
             403 "You do not have access to this message" ;;;
      send 200 (BMsg message)
  | None =>
      match Message.conversationId message with
      | Some cv =>
          conversation <- orThrow (findById Conversation._id cv
                                            (conversations s)) ;;
          failIf (negb (includes (Conversation.participants conversation)
                                 userId))
                 403 "You do not have access to this message" ;;;
          send 200 (BMsg message)
      | None => fail 404 "Message not found"
      end
  end.

(** DELETE /invites/:id *)
Definition deleteInvite (userId inviteId : ObjectId) : Route :=
  s <- getDb ;;
  invite <- orFail (findById Invite._id inviteId (invites s))
                   404 "Invite not found" ;;
  guild <- orThrow (findById Guild._id (Invite.guild invite) (guilds s)) ;;
  let canManageGuild := canDo "MANAGE_GUILD" guild userId in
  let isCreator := Invite.creator invite =? userId in
  failIf (negb canManageGuild && negb isCreator)
         403 "You do not have permission to delete this invite" ;;;
  putDb (setInvites
           (deleteOne (fun i => Invite._id i =? inviteId) (invites s)) s) ;;;
  send 200 (BMessage "Invite deleted successfully").

(** ** The socket server (index.js) *)

(** The rooms of one connected socket, as the handlers of
    [io.on('connection')] change them.  [socket.rooms] is a set:
    [socket.join] of a room already joined and [socket.leave] of a room not
    joined do nothing.  (The room that socket.io opens under the socket's
    own id is not touched by any handler and is left out.) *)
Definition socketJoin (r : string) (rooms : list string) : list string :=
  if includes rooms r then rooms else rooms ++ [r].

Definition socketLeave (r : string) (rooms : list string) : list string :=
  filter (fun r' => negb (r' =? r)) rooms.

Inductive ClientEvent :=
| joinGuildRoom (guildId : string)
| leaveGuildRoom (guildId : string)
| joinChannelRoom (channelId : string)
| leaveChannelRoom (channelId : string)
| joinConversationRoom (conversationId : string)
| leaveConversationRoom (conversationId : string).

(** [io.on('connection', socket => socket.join(`user:${socket.user._id}`))] *)
Definition onConnection (userId : ObjectId) : list string :=
  socketJoin ("user:" ++ userId)%string [].

(** [socket.on(event, id => ...)] *)
Definition onEvent (rooms : list string) (ev : ClientEvent) : list string :=
  match ev with
  | joinGuildRoom g => socketJoin ("guild:" ++ g)%string rooms
  | leaveGuildRoom g => socketLeave ("guild:" ++ g)%string rooms
  | joinChannelRoom c => socketJoin ("channel:" ++ c)%string rooms
  | leaveChannelRoom c => socketLeave ("channel:" ++ c)%string rooms
  | joinConversationRoom c => socketJoin ("conversation:" ++ c)%string rooms
  | leaveConversationRoom c => socketLeave ("conversation:" ++ c)%string rooms
  end.

(** The rooms of a socket of [userId] after the client has sent [evs]. *)
Definition socketRooms (userId : ObjectId) (evs : list ClientEvent)
    : list string :=
  fold_left onEvent evs (onConnection userId).

(** [io.to(room).emit(...)] reaches the sockets that are in the room. *)
Definition receives (rooms : list string) (e : Emit) : bool :=
  includes rooms (room e).

(** ** Further notions and sample data *)

(** The use counter of a limited invite is within its limit. *)
Definition usesBounded (i : Invite.t) : Prop :=
  Invite.maxUses i <> 0%Z -> (Invite.uses i <= Invite.maxUses i)%Z.

(** The user is in no role of the guild. *)
Definition inNoRole (u : ObjectId) (g : Guild.t) : Prop :=
  forall r, In r (Guild.roles g) -> includes (Role.members r) u = false.

(** Alice's guild with her invite, redeemed by bob. *)
Definition joinedWorld : World :=
  runOps castHex24 [OpCreateGuild alice "Guild" None guild1 channel1;
                    OpCreateInvite alice guild1 invite1 "abc123" 0;
                    OpJoinGuild 500 bob "abc123"] emptyWorld.

(** Bob has posted in the general channel. *)
Definition postedWorld : World :=
  snd (run (createMessage isHex24 bob channel1 "hi" message1) joinedWorld).

(** The guild is deleted: bob's message and alice's invite stay behind. *)
Definition orphanWorld : World :=
  snd (run (deleteGuild alice guild1) postedWorld).

Definition channel2 : ObjectId := "64c000000000000000000002".
Definition message2 : ObjectId := "64d000000000000000000002".

(** The guild document that the two updates of a kick leave. *)
Definition kicked (uid : ObjectId) (g : Guild.t) : Guild.t :=
  if existsb (fun r => includes (Role.members r) uid) (Guild.roles g)
  then pullFromRoles uid (pullMember uid g)
  else pullMember uid g.

(** The user is in the role. *)
Definition holds (u : ObjectId) (r : Role.t) : bool :=
  includes (Role.members r) u.

(** Role members are guild members, as a proposition. *)
Definition RolesWithin (g : Guild.t) : Prop :=
  forall r, In r (Guild.roles g) ->
  forall x, In x (Role.members r) -> In x (Guild.members g).

(** What the first of the two updates of a kick leaves in the guilds
    collection: documents as they were, and documents of the guild asked
    for whose member list has lost [uid]. *)
Definition MidKick (gid uid : ObjectId) (g : Guild.t) : Prop :=
  RolesWithin g \/
  exists g0, RolesWithin g0 /\ Guild._id g0 = gid /\ g = pullMember uid g0.

(** The guild ids of a collection are pairwise different. *)
Definition uniqueIds (gs : list Guild.t) : Prop :=
  NoDup (map Guild._id gs).

(** The guild's first role is named '@everyone', grants SEND_MESSAGES and
    has every member of the guild. *)
Definition EveryoneFirst (g : Guild.t) : Prop :=
  exists r0 rest,
    Guild.roles g = r0 :: rest /\ isEveryone r0 = true /\
    includes (Role.permissions r0) "SEND_MESSAGES" = true /\
    forall x, In x (Guild.members g) -> In x (Role.members r0).



(** Each stored conversation has two participants, its creator first, and
    is the first stored conversation that has them both. *)
Definition FirstOfPair (l : list Conversation.t) : Prop :=
  forall c, In c l ->
  exists r, Conversation.participants c = [Conversation.creator c; r] /\
            find (hasBoth (Conversation.creator c) r) l = Some c.

(** The rooms a socket of [userId] can be in: the user's own room and
    guild, channel and conversation rooms. *)
Definition socketRoom (userId : ObjectId) (r : string) : Prop :=
  r = ("user:" ++ userId)%string \/
  exists x, r = ("guild:" ++ x)%string \/ r = ("channel:" ++ x)%string \/
            r = ("conversation:" ++ x)%string.

(** * Properties *)

(** ** Lists and collections *)

Lemma includes_In (l : list string) (x : string) :
  includes l x = true <-> In x l.
Proof.
  unfold includes. rewrite existsb_exists. split.
  - intros [y [Hy He]]. apply String.eqb_eq in He. now subst.
  - intros H. exists x. split; [assumption | apply String.eqb_refl].
Qed.

Lemma includes_false (l : list string) (x : string) :
  includes l x = false <-> ~ In x l.
Proof.
  rewrite <- includes_In. destruct (includes l x); split; congruence.
Qed.

Lemma includes_app (l1 l2 : list string) (x : string) :
  includes (l1 ++ l2) x = includes l1 x || includes l2 x.
Proof. unfold includes. apply existsb_app. Qed.

Section CollectionFacts.
Context {D : Type}.
Variable key : D -> ObjectId.

Lemma find_append (p : D -> bool) (l1 l2 : list D) :
  find p (l1 ++ l2) =
  match find p l1 with Some d => Some d | None => find p l2 end.
Proof.
  induction l1 as [|a l1 IH]; simpl; [reflexivity|].
  now destruct (p a).
Qed.

Lemma find_updateOne (p : D -> bool) (f : D -> D) (l : list D) (d : D) :
  find p l = Some d -> p (f d) = true ->
  find p (updateOne p f l) = Some (f d).
Proof.
  induction l as [|a l IH]; simpl; [discriminate|].
  destruct (p a) eqn:Ha.
  - intros [= ->] Hf. simpl. now rewrite Hf.
  - intros Hl Hf. simpl. rewrite Ha. auto.
Qed.

Lemma findById_saveDoc (d d0 : D) (l : list D) :
  findById key (key d) l = Some d0 ->
  findById key (key d) (saveDoc key d l) = Some d.
Proof.
  intros H. unfold findById, saveDoc in *.
  apply (find_updateOne _ (fun _ => d) l d0 H). apply String.eqb_refl.
Qed.

Lemma findById_key (id : ObjectId) (l : list D) (d : D) :
  findById key id l = Some d -> key d = id /\ In d l.
Proof.
  unfold findById. intros H. apply find_some in H as [Hin He].
  apply String.eqb_eq in He. now split.
Qed.

Lemma Forall_updateOne (P Q : D -> Prop) (p : D -> bool) (f : D -> D)
      (l : list D) :
  (forall d, P d -> Q d) ->
  (forall d, P d -> p d = true -> Q (f d)) ->
  Forall P l -> Forall Q (updateOne p f l).
Proof.
  intros HPQ Hf. induction 1 as [|a l Ha Hl IH]; simpl; [constructor|].
  destruct (p a) eqn:Hp.
  - constructor; [now apply Hf|]. eapply Forall_impl; eauto.
  - constructor; auto.
Qed.

Lemma Forall_insertOne (P : D -> Prop) (d : D) (l l' : list D) :
  insertOne key d l = Some l' -> Forall P l -> P d -> Forall P l'.
Proof.
  unfold insertOne. destruct (existsb _ l); [discriminate|].
  intros [= <-] Hl Hd. apply Forall_app. split; [assumption|].
  now constructor.
Qed.

Lemma findById_insertOne (d : D) (l l' : list D) :
  insertOne key d l = Some l' -> findById key (key d) l' = Some d.
Proof.
  unfold insertOne, findById. destruct (existsb _ l) eqn:He; [discriminate|].
  intros [= <-]. rewrite find_append.
  destruct (find (fun d' => key d' =? key d) l) eqn:Hf.
  - apply find_some in Hf as [Hin Hk].
    assert (existsb (fun d' => key d' =? key d) l = true)
      by (apply existsb_exists; eauto).
    congruence.
  - simpl. now rewrite String.eqb_refl.
Qed.
End CollectionFacts.

(** ** Invite redemption *)

Lemma isExpired_spec (now : Z) (i : Invite.t) :
  Invite.isExpired now i = true <-> specExpired now i.
Proof.
  unfold Invite.isExpired, specExpired. destruct (Invite.expiresAt i) as [e|].
  - rewrite Z.ltb_lt. split.
    + intros H. exists e. split; [reflexivity | lia].
    + intros [e' [[= <-] H]]. lia.
  - split; [discriminate | intros [e [[=] _]]].
Qed.

Lemma isMaxUsesReached_spec (i : Invite.t) :
  Invite.isMaxUsesReached i = true <-> specExhausted i.
Proof.
  unfold Invite.isMaxUsesReached, specExhausted.
  destruct (Z.eqb_spec (Invite.maxUses i) 0) as [E|E].
  - split; [discriminate | intros [H _]; contradiction].
  - rewrite Z.leb_le. split; [intros H; split; [assumption | lia] | intros [_ H]; lia].
Qed.

(** The world that a successful redemption leaves. *)
Lemma joinGuild_run (now : Z) (u : ObjectId) (c : string) (w : World) :
  run (joinGuild now u c) w =
  match inviteOf c (db w) with
  | None => (mkResponse 404 (BMessage "Invalid invite code"), w)
  | Some invite =>
      if Invite.isExpired now invite
      then (mkResponse 400 (BMessage "Invite has expired"), w)
      else if Invite.isMaxUsesReached invite
      then (mkResponse 400 (BMessage "Invite has reached maximum uses"), w)
      else
        match findById Guild._id (Invite.guild invite) (guilds (db w)) with
        | None => (mkResponse 404 (BMessage "Guild not found"), w)
        | Some guild =>
            if includes (Guild.members guild) u
            then (mkResponse 400
                    (BMessage "You are already a member of this guild"), w)
            else
              let gs := saveDoc Guild._id (addMember u guild) (guilds (db w)) in
              (mkResponse 200 (BGuild (findById Guild._id (Guild._id guild) gs)),
               mkWorld
                 (setInvites
                    (saveDoc Invite._id
                       (Invite.setUses (Invite.uses invite + 1) invite)
                       (invites (db w)))
                    (setGuilds gs (db w)))
                 (io w ++ [mkEmit ("guild:" ++ Guild._id guild)%string
                                  "memberJoin" (PMember (Guild._id guild) u)]))
        end
  end.
Proof.
  destruct w as [s e].
  unfold run, joinGuild, inviteOf, bind, getDb, orFail, failIf, fail, send,
    putDb, emit, ret; simpl.
  destruct (find _ (invites s)) as [invite|]; simpl; [|reflexivity].
  destruct (Invite.isExpired now invite); simpl; [reflexivity|].
  destruct (Invite.isMaxUsesReached invite); simpl; [reflexivity|].
  destruct (findById Guild._id (Invite.guild invite) (guilds s)) as [guild|];
    simpl; [|reflexivity].
  destruct (includes (Guild.members guild) u); reflexivity.
Qed.

Lemma isExpired_false (now : Z) (i : Invite.t) :
  Invite.isExpired now i = false <-> ~ specExpired now i.
Proof.
  rewrite <- isExpired_spec. destruct (Invite.isExpired now i); split; congruence.
Qed.

Lemma isMaxUsesReached_false (i : Invite.t) :
  Invite.isMaxUsesReached i = false <-> ~ specExhausted i.
Proof.
  rewrite <- isMaxUsesReached_spec.
  destruct (Invite.isMaxUsesReached i); split; congruence.
Qed.

Lemma inviteOf_None (c : string) (s : Store) :
  inviteOf c s = None <->
  forall i, In i (invites s) -> Invite.code i <> c.
Proof.
  unfold inviteOf. split.
  - intros H i Hin Hc.
    apply (find_none _ _ H) in Hin. simpl in Hin.
    rewrite Hc, String.eqb_refl in Hin. discriminate.
  - intros H. destruct (find _ (invites s)) as [i|] eqn:Hf; [|reflexivity].
    apply find_some in Hf as [Hin Hc]. apply String.eqb_eq in Hc.
    now apply H in Hin.
Qed.

Ltac break_hyps :=
  repeat match goal with
  | H : exists _, _ |- _ => destruct H
  | H : _ /\ _ |- _ => destruct H
  | H : Some _ = Some _ |- _ => inversion H; subst; clear H
  | H : Some _ = None |- _ => discriminate H
  | H1 : ?a = Some _, H2 : ?a = _ |- _ => rewrite H1 in H2
  | H : None = Some _ |- _ => discriminate H
  end.

Ltac settle_outcome :=
  intros H; try discriminate H; try reflexivity;
  solve [ break_hyps; (contradiction || tauto || congruence)
        | eauto 10 ].

(** C4, as the handler has it: the outcomes of POST /invites/join and
    their conditions, checked in this order: 404 "Invalid invite code" iff
    no invite has the code; otherwise "Invite has expired" iff now >
    expiresAt; otherwise "Invite has reached maximum uses" iff maxUses != 0
    and uses >= maxUses; otherwise 404 "Guild not found" iff the invite's
    guild is not stored; otherwise "You are already a member of this guild"
    iff the user is in the guild's member list; otherwise the redemption
    succeeds. *)
Theorem joinGuild_outcomes (now : Z) (u : ObjectId) (c : string) (w : World) :
  let r := fst (run (joinGuild now u c) w) in
  (r = mkResponse 404 (BMessage "Invalid invite code") <->
     forall i, In i (invites (db w)) -> Invite.code i <> c) /\
  (r = mkResponse 400 (BMessage "Invite has expired") <->
     exists i, inviteOf c (db w) = Some i /\ specExpired now i) /\
  (r = mkResponse 400 (BMessage "Invite has reached maximum uses") <->
     exists i, inviteOf c (db w) = Some i /\ ~ specExpired now i /\
               specExhausted i) /\
  (r = mkResponse 404 (BMessage "Guild not found") <->
     exists i, inviteOf c (db w) = Some i /\ ~ specExpired now i /\
               ~ specExhausted i /\
               findById Guild._id (Invite.guild i) (guilds (db w)) = None) /\
  (r = mkResponse 400 (BMessage "You are already a member of this guild") <->
     exists i g, inviteOf c (db w) = Some i /\ ~ specExpired now i /\
                 ~ specExhausted i /\
                 findById Guild._id (Invite.guild i) (guilds (db w)) = Some g /\
                 In u (Guild.members g)) /\
  (status r = 200 <->
     exists i g, inviteOf c (db w) = Some i /\ ~ specExpired now i /\
                 ~ specExhausted i /\
                 findById Guild._id (Invite.guild i) (guilds (db w)) = Some g /\
                 ~ In u (Guild.members g)).
Proof.
  intros r. subst r. rewrite joinGuild_run, <- inviteOf_None.
  destruct (inviteOf c (db w)) as [i|] eqn:Hi.
  2: { repeat apply conj; settle_outcome. }
  destruct (Invite.isExpired now i) eqn:He;
    [apply isExpired_spec in He | apply isExpired_false in He].
  { repeat apply conj; settle_outcome. }
  destruct (Invite.isMaxUsesReached i) eqn:Hm;
    [apply isMaxUsesReached_spec in Hm | apply isMaxUsesReached_false in Hm].
  { repeat apply conj; settle_outcome. }
  destruct (findById Guild._id (Invite.guild i) (guilds (db w)))
    as [g|] eqn:Hg.
  2: { repeat apply conj; settle_outcome. }
  destruct (includes (Guild.members g) u) eqn:Hin;
    [apply includes_In in Hin | apply includes_false in Hin].
  - repeat apply conj; settle_outcome.
  - repeat apply conj; settle_outcome.
Qed.

(** The invite survives the deletion of its guild: the code is stored,
    yet the outcome is NotFound. *)
Lemma joinGuild_notFound_with_invite :
  let r := fst (run (joinGuild 500 bob "abc123") danglingWorld) in
  ~ (errorKind r = Some NotFound <->
     forall i, In i (invites (db danglingWorld)) -> Invite.code i <> "abc123").
Proof.
  intros r [H _].
  apply (H eq_refl (Invite.mk invite1 "abc123" guild1 alice 0 1 (Some 1000%Z))).
  - left. reflexivity.
  - reflexivity.
Qed.

Lemma joinGuild_outcomes_witness :
  exists i, inviteOf "abc123" (db danglingWorld) = Some i /\
            ~ specExpired 500 i /\ ~ specExhausted i /\
            findById Guild._id (Invite.guild i) (guilds (db danglingWorld)) = None.
Proof.
  apply (joinGuild_outcomes 500 bob "abc123" danglingWorld). reflexivity.
Defined.

Section MoreCollectionFacts.
Context {D : Type}.
Variable key : D -> ObjectId.

Lemma findById_of_In (d : D) (l : list D) :
  In d l -> exists d0, findById key (key d) l = Some d0.
Proof.
  intros Hin. unfold findById.
  destruct (find (fun d' => key d' =? key d) l) as [d0|] eqn:Hf; [eauto|].
  apply (find_none _ _ Hf) in Hin. simpl in Hin.
  rewrite String.eqb_refl in Hin. discriminate.
Qed.

Lemma find_updateOne_inv (p : D -> bool) (f : D -> D) (l : list D) (y : D) :
  (forall x, p (f x) = p x) ->
  find p (updateOne p f l) = Some y ->
  exists x, find p l = Some x /\ y = f x.
Proof.
  intros Hpf. induction l as [|a l IH]; simpl; [discriminate|].
  destruct (p a) eqn:Ha; simpl.
  - rewrite Hpf, Ha. intros [= <-]. eauto.
  - rewrite Ha. exact IH.
Qed.
End MoreCollectionFacts.

Lemma addMember_members (u : ObjectId) (g : Guild.t) :
  includes (Guild.members (addMember u g)) u = true.
Proof.
  simpl. rewrite includes_app. simpl. rewrite String.eqb_refl.
  apply orb_true_r.
Qed.

Lemma pushMember_members (u : ObjectId) (r : Role.t) :
  includes (Role.members (Role.pushMember u r)) u = true.
Proof.
  simpl. rewrite includes_app. simpl. rewrite String.eqb_refl.
  apply orb_true_r.
Qed.

Lemma updateOne_none {D} (p : D -> bool) (f : D -> D) (l : list D) :
  find p l = None -> updateOne p f l = l.
Proof.
  induction l as [|a l IH]; simpl; [reflexivity|].
  destruct (p a); [discriminate|]. intros H. now rewrite IH.
Qed.

(** What a redemption writes, and what it leaves when it fails. *)
Lemma joinGuild_effect (now : Z) (u : ObjectId) (c : string) (w : World) :
  let r := fst (run (joinGuild now u c) w) in
  let w' := snd (run (joinGuild now u c) w) in
  (status r = 200 ->
   exists i g i' g',
     inviteOf c (db w) = Some i /\
     findById Guild._id (Invite.guild i) (guilds (db w)) = Some g /\
     findById Invite._id (Invite._id i) (invites (db w')) = Some i' /\
     Invite.uses i' = (Invite.uses i + 1)%Z /\
     (Invite._id i' = Invite._id i /\ Invite.code i' = Invite.code i /\
      Invite.guild i' = Invite.guild i /\
      Invite.creator i' = Invite.creator i /\
      Invite.maxUses i' = Invite.maxUses i /\
      Invite.expiresAt i' = Invite.expiresAt i) /\
     findById Guild._id (Invite.guild i) (guilds (db w')) = Some g' /\
     Guild.members g' = Guild.members g ++ [u] /\
     includes (Guild.members g') u = true /\
     (Guild._id g' = Guild._id g /\ Guild.name g' = Guild.name g /\
      Guild.icon g' = Guild.icon g /\ Guild.owner g' = Guild.owner g) /\
     match find isEveryone (Guild.roles g) with
     | Some r0 =>
         exists r1,
           find isEveryone (Guild.roles g') = Some r1 /\
           Role.members r1 = Role.members r0 ++ [u] /\
           includes (Role.members r1) u = true /\
           Role.name r1 = "@everyone" /\
           Role.permissions r1 = Role.permissions r0
     | None => Guild.roles g' = Guild.roles g
     end) /\
  (status r <> 200 -> w' = w).
Proof.
  intros r w'. subst r w'. rewrite joinGuild_run.
  destruct (inviteOf c (db w)) as [i|] eqn:Hi;
    [|split; [discriminate | reflexivity]].
  destruct (Invite.isExpired now i); [split; [discriminate | reflexivity]|].
  destruct (Invite.isMaxUsesReached i); [split; [discriminate | reflexivity]|].
  destruct (findById Guild._id (Invite.guild i) (guilds (db w)))
    as [g|] eqn:Hg; [|split; [discriminate | reflexivity]].
  destruct (includes (Guild.members g) u);
    [split; [discriminate | reflexivity]|].
  split; [intros _ | intros H; now elim H].
  destruct (findById_key _ _ _ _ Hg) as [Hk _].
  assert (Hi' : In i (invites (db w)))
    by (apply find_some in Hi; tauto).
  destruct (findById_of_In Invite._id _ _ Hi') as [i0 Hi0].
  exists i, g, (Invite.setUses (Invite.uses i + 1) i), (addMember u g).
  cbn [fst snd db setInvites setGuilds invites guilds].
  split; [reflexivity|]. split; [exact Hg|].
  split.
  { apply (findById_saveDoc Invite._id
             (Invite.setUses (Invite.uses i + 1) i) i0). exact Hi0. }
  split; [reflexivity|]. split; [repeat split|].
  split.
  { rewrite <- Hk.
    apply (findById_saveDoc Guild._id (addMember u g) g).
    cbn [addMember Guild._id Guild.setRoles Guild.setMembers]. now rewrite Hk. }
  split; [reflexivity|]. split; [apply addMember_members|].
  split; [repeat split|].
  destruct (find isEveryone (Guild.roles g)) as [r0|] eqn:Hr0.
  - exists (Role.pushMember u r0). pose proof (find_some _ _ Hr0) as [_ Hn].
    split; [|split; [reflexivity|split; [apply pushMember_members|]]].
    + apply find_updateOne; [exact Hr0 | exact Hn].
    + split; [|reflexivity]. apply String.eqb_eq. exact Hn.
  - simpl. now apply updateOne_none.
Qed.

(** The scenario of the specification: bob redeems an invite of one use,
    carol's attempt with the same code is then refused as exhausted and
    changes nothing. *)
Example redeem_twice :
  let w1 := snd (run (joinGuild 500 bob "abc123") inviteWorld) in
  status (fst (run (joinGuild 500 bob "abc123") inviteWorld)) = 200 /\
  run (joinGuild 500 carol "abc123") w1 =
    (mkResponse 400 (BMessage "Invite has reached maximum uses"), w1).
Proof. split; reflexivity. Qed.

(** ** Deleting the last channel *)

(** C5, as the handler has it: a DELETE /channels/:id for the only channel
    of its guild answers 400 "Cannot delete the last channel in a guild"
    (Conflict) to a user whose capability check passes and 403 (Forbidden)
    to any other user; in both cases the world is unchanged, so the channel
    is still stored and the guild's channel count is still 1. *)
Theorem deleteChannel_last_channel (isValid : string -> bool)
    (u cid : ObjectId) (w : World) (c : Channel.t) (g : Guild.t) :
  isValid cid = true ->
  findById Channel._id cid (channels (db w)) = Some c ->
  findById Guild._id (Channel.guild c) (guilds (db w)) = Some g ->
  countDocuments (fun c' => Channel.guild c' =? Channel.guild c)
                 (channels (db w)) = 1 ->
  let r := fst (run (deleteChannel isValid u cid) w) in
  let w' := snd (run (deleteChannel isValid u cid) w) in
  (canDo "MANAGE_CHANNELS" g u = true ->
     r = mkResponse 400 (BMessage "Cannot delete the last channel in a guild") /\
     errorKind r = Some Conflict) /\
  (canDo "MANAGE_CHANNELS" g u = false ->
     r = mkResponse 403
           (BMessage "You do not have permission to manage channels") /\
     errorKind r = Some Forbidden) /\
  w' = w /\
  findById Channel._id cid (channels (db w')) = Some c /\
  countDocuments (fun c' => Channel.guild c' =? Channel.guild c)
                 (channels (db w')) = 1.
Proof.
  intros Hv Hc Hg Hn r w'. subst r w'. destruct w as [s e]. simpl in *.
  unfold run, deleteChannel, bind, getDb, orFail, orThrow, failIf, fail, ret.
  rewrite Hv. simpl. rewrite Hc. simpl. rewrite Hg. simpl.
  destruct (canDo "MANAGE_CHANNELS" g u); simpl.
  - rewrite Hn. simpl. repeat apply conj; try discriminate; auto.
  - repeat apply conj; try discriminate; auto.
Qed.

Lemma deleteChannel_last_channel_witness :
  fst (run (deleteChannel isHex24 alice channel1) aliceWorld) =
    mkResponse 400 (BMessage "Cannot delete the last channel in a guild") /\
  fst (run (deleteChannel isHex24 bob channel1) aliceWorld) =
    mkResponse 403 (BMessage "You do not have permission to manage channels") /\
  snd (run (deleteChannel isHex24 alice channel1) aliceWorld) = aliceWorld.
Proof.
  pose proof (deleteChannel_last_channel isHex24 alice channel1 aliceWorld
                (Channel.mk channel1 "general" "" guild1 "Text Channels"
                            Channel.text)
                (Guild.preSave true
                   (Guild.mk guild1 "Guild" None alice [alice] []))
                eq_refl eq_refl eq_refl eq_refl) as Ha.
  pose proof (deleteChannel_last_channel isHex24 bob channel1 aliceWorld
                (Channel.mk channel1 "general" "" guild1 "Text Channels"
                            Channel.text)
                (Guild.preSave true
                   (Guild.mk guild1 "Guild" None alice [alice] []))
                eq_refl eq_refl eq_refl eq_refl) as Hb.
  cbv zeta in Ha, Hb.
  destruct Ha as (Ha & _ & Hw & _). destruct Hb as (_ & Hb & _).
  repeat apply conj.
  - apply Ha. reflexivity.
  - apply Hb. reflexivity.
  - exact Hw.
Defined.

(** The only channel of the guild, a requester without the capability:
    the answer is Forbidden, not Conflict. *)
Lemma deleteChannel_last_channel_forbidden :
  countDocuments (fun c => Channel.guild c =? guild1)
                 (channels (db aliceWorld)) = 1 /\
  findById Channel._id channel1 (channels (db aliceWorld)) =
    Some (Channel.mk channel1 "general" "" guild1 "Text Channels" Channel.text) /\
  errorKind (fst (run (deleteChannel isHex24 bob channel1) aliceWorld)) <>
    Some Conflict.
Proof.
  repeat apply conj; [reflexivity | reflexivity | vm_compute; discriminate].
Qed.

(** ** Guild creation *)

(** C6: after a POST /guilds by [a] that answers 201, the stored guild is
    owned by [a] and has the roles '@everyone' and 'Admin' and no other:
    exactly one role is named '@everyone' and [a] is in it, exactly one
    role grants ADMINISTRATOR and [a] is in it, and a text channel named
    'general' of this guild is stored. *)
Theorem createGuild_defaults (a : ObjectId) (name : string)
    (file : option string) (gid cid : ObjectId) (w : World) :
  let r := fst (run (createGuild a name file gid cid) w) in
  let w' := snd (run (createGuild a name file gid cid) w) in
  status r = 201 ->
  exists g everyone admin,
    findById Guild._id gid (guilds (db w')) = Some g /\
    body r = BGuild (Some g) /\
    Guild.owner g = a /\
    Guild.members g = [a] /\
    Guild.roles g = [everyone; admin] /\
    filter isEveryone (Guild.roles g) = [everyone] /\
    includes (Role.members everyone) a = true /\
    filter (fun role => includes (Role.permissions role) "ADMINISTRATOR")
           (Guild.roles g) = [admin] /\
    includes (Role.members admin) a = true /\
    exists ch,
      In ch (channels (db w')) /\ Channel.name ch = "general" /\
      Channel.guild ch = gid /\ Channel.type ch = Channel.text.
Proof.
  intros r w'. subst r w'. destruct w as [s e].
  unfold run, createGuild, bind, getDb, putDb, orThrow, throw, fail, send, ret.
  simpl.
  destruct (insertOne Guild._id _ (guilds s)) as [gs|] eqn:Hgs; simpl;
    [|discriminate].
  destruct (insertOne Channel._id _ (channels s)) as [cs|] eqn:Hcs; simpl;
    [|discriminate].
  intros _. apply findById_insertOne in Hgs. simpl in Hgs.
  exists (Guild.preSave true
            (Guild.mk gid name (option_map (fun p => "/" ++ p)%string file)
                      a [a] [])),
         (Role.mk "@everyone" "#99AAB5"
            ["VIEW_CHANNELS"; "SEND_MESSAGES"; "READ_MESSAGE_HISTORY"] 0 [a]),
         (Role.mk "Admin" "#F04747" ["ADMINISTRATOR"] 1 [a]).
  rewrite Hgs. simpl.
  repeat apply conj; try reflexivity.
  - unfold includes. simpl. now rewrite String.eqb_refl.
  - unfold includes. simpl. now rewrite String.eqb_refl.
  - exists (Channel.mk cid "general" "" gid "Text Channels" Channel.text).
    split; [|repeat split].
    unfold insertOne in Hcs. destruct (existsb _ (channels s)); [discriminate|].
    injection Hcs as <-. apply in_or_app. right. left. reflexivity.
Qed.

Lemma createGuild_defaults_witness :
  exists g everyone admin,
    findById Guild._id guild1 (guilds (db aliceWorld)) = Some g /\
    body (fst (run (createGuild alice "Guild" None guild1 channel1) emptyWorld)) =
      BGuild (Some g) /\
    Guild.owner g = alice /\
    Guild.members g = [alice] /\
    Guild.roles g = [everyone; admin] /\
    filter isEveryone (Guild.roles g) = [everyone] /\
    includes (Role.members everyone) alice = true /\
    filter (fun role => includes (Role.permissions role) "ADMINISTRATOR")
           (Guild.roles g) = [admin] /\
    includes (Role.members admin) alice = true /\
    exists ch,
      In ch (channels (db aliceWorld)) /\ Channel.name ch = "general" /\
      Channel.guild ch = guild1 /\ Channel.type ch = Channel.text.
Proof.
  apply (createGuild_defaults alice "Guild" None guild1 channel1 emptyWorld).
  reflexivity.
Defined.

(** ** Broadcast of a direct message *)

Lemma forEach_emit {A} (l : list A) (f : A -> string) (e : string)
      (p : Payload) (w : World) :
  forEach l (fun a => emit (f a) e p) w =
  (Next tt, mkWorld (db w) (io w ++ map (fun a => mkEmit (f a) e p) l)).
Proof.
  revert w. induction l as [|a l IH]; intros [s o]; simpl.
  - unfold ret. now rewrite app_nil_r.
  - unfold bind, emit at 1. simpl. rewrite IH. simpl.
    now rewrite <- app_assoc.
Qed.



(** ** Deleting a direct message *)

(** C10: a DELETE /messages/:id for a stored message without a channel,
    requested by anyone but its author, answers 403 and leaves the world as
    it was, whatever the requester owns or holds in any guild. *)
Theorem deleteMessage_direct_author_only (u mid : ObjectId) (w : World)
    (m : Message.t) :
  findById Message._id mid (messages (db w)) = Some m ->
  Message.channel m = None ->
  Message.author m <> u ->
  run (deleteMessage u mid) w =
    (mkResponse 403
       (BMessage "You do not have permission to delete this message"), w) /\
  errorKind (fst (run (deleteMessage u mid) w)) = Some Forbidden /\
  findById Message._id mid (messages (db (snd (run (deleteMessage u mid) w)))) =
    Some m.
Proof.
  intros Hm Hc Ha. destruct w as [s o]. simpl in *.
  apply String.eqb_neq in Ha.
  unfold run, deleteMessage, bind, getDb, orFail, failIf, fail, ret. simpl.
  rewrite Hm. simpl. rewrite Ha, Hc. simpl. auto.
Qed.

Lemma deleteMessage_direct_author_only_witness :
  run (deleteMessage bob message1) dmWorld =
    (mkResponse 403
       (BMessage "You do not have permission to delete this message"), dmWorld) /\
  errorKind (fst (run (deleteMessage bob message1) dmWorld)) = Some Forbidden /\
  findById Message._id message1
    (messages (db (snd (run (deleteMessage bob message1) dmWorld)))) =
    Some (Message.mk message1 "hello" alice None (Some conversation1)).
Proof.
  apply (deleteMessage_direct_author_only bob message1 dmWorld
           (Message.mk message1 "hello" alice None (Some conversation1))).
  - reflexivity.
  - reflexivity.
  - discriminate.
Defined.

(** The author's own request deletes the direct message. *)
Lemma deleteMessage_direct_author (u mid : ObjectId) (w : World)
    (m : Message.t) :
  findById Message._id mid (messages (db w)) = Some m ->
  Message.channel m = None ->
  Message.author m = u ->
  status (fst (run (deleteMessage u mid) w)) = 200.
Proof.
  intros Hm Hc Ha. destruct w as [s o]. simpl in *.
  apply String.eqb_eq in Ha.
  unfold run, deleteMessage, bind, getDb, orFail, failIf, fail, ret. simpl.
  rewrite Hm. simpl. rewrite Ha, Hc. simpl.
  destruct (Message.conversationId m); reflexivity.
Qed.

(** ** The permission gates *)


(** So does a member of a role that grants ADMINISTRATOR. *)
Lemma canDo_administrator (perm : string) (g : Guild.t) (u : ObjectId)
      (r : Role.t) :
  In r (Guild.roles g) ->
  includes (Role.permissions r) "ADMINISTRATOR" = true ->
  includes (Role.members r) u = true ->
  canDo perm g u = true.
Proof.
  intros Hr Hp Hm. unfold canDo, isAdmin.
  assert (existsb (fun role => includes (Role.permissions role) "ADMINISTRATOR"
                               && includes (Role.members role) u)
                  (Guild.roles g) = true) as ->.
  { apply existsb_exists. exists r. now rewrite Hp, Hm. }
  now rewrite orb_true_r.
Qed.

(** And a member of a role that grants the permission asked for. *)
Lemma canDo_role (perm : string) (g : Guild.t) (u : ObjectId) (r : Role.t) :
  In r (Guild.roles g) ->
  includes (Role.permissions r) perm = true ->
  includes (Role.members r) u = true ->
  canDo perm g u = true.
Proof.
  intros Hr Hp Hm. unfold canDo.
  assert (existsb (fun role => includes (Role.permissions role) perm
                               && includes (Role.members role) u)
                  (Guild.roles g) = true) as ->.
  { apply existsb_exists. exists r. now rewrite Hp, Hm. }
  apply orb_true_r.
Qed.

(** The gate of POST /channels/:id/messages looks at SEND_MESSAGES roles
    and at nothing else: whoever is in no such role is refused, owner and
    administrators included. *)
Lemma createMessage_gate (isValid : string -> bool) (u cid : ObjectId)
      (content : string) (mid : ObjectId) (w : World) (c : Channel.t)
      (g : Guild.t) :
  isValid cid = true ->
  findById Channel._id cid (channels (db w)) = Some c ->
  findById Guild._id (Channel.guild c) (guilds (db w)) = Some g ->
  includes (Guild.members g) u = true ->
  canSendMessages g u = false ->
  run (createMessage isValid u cid content mid) w =
    (mkResponse 403
       (BMessage "You do not have permission to send messages in this channel"),
     w).
Proof.
  intros Hv Hc Hg Hm Hs. destruct w as [s o]. simpl in *.
  unfold run, createMessage, bind, getDb, orFail, orThrow, failIf, fail, ret.
  rewrite Hv. simpl. rewrite Hc. simpl. rewrite Hg. simpl.
  rewrite Hm. simpl. rewrite Hs. reflexivity.
Qed.

(** ** Role members are guild members *)

Lemma rolesWithinMembers_spec (g : Guild.t) :
  rolesWithinMembers g = true <-> RolesWithin g.
Proof.
  unfold rolesWithinMembers, RolesWithin. rewrite forallb_forall. split.
  - intros H r Hr x Hx. specialize (H r Hr). rewrite forallb_forall in H.
    apply includes_In. now apply H.
  - intros H r Hr. apply forallb_forall. intros x Hx.
    apply includes_In. eapply H; eauto.
Qed.

Lemma In_updateOne {D} (p : D -> bool) (f : D -> D) (l : list D) (y : D) :
  In y (updateOne p f l) -> In y l \/ exists x, In x l /\ y = f x.
Proof.
  induction l as [|a l IH]; simpl; [tauto|].
  destruct (p a); simpl.
  - intros [<-|H]; [right; eauto | tauto].
  - intros [<-|H]; [tauto|].
    destruct (IH H) as [H1|[x [H1 H2]]]; [tauto | right; eauto].
Qed.

Lemma includes_filter_out (l : list ObjectId) (u : ObjectId) :
  includes (filter (fun m => negb (m =? u)) l) u = false.
Proof.
  apply includes_false. intros H. apply filter_In in H as [_ H].
  rewrite String.eqb_refl in H. discriminate.
Qed.

Lemma In_filter_out (l : list ObjectId) (u x : ObjectId) :
  In x (filter (fun m => negb (m =? u)) l) <-> In x l /\ x <> u.
Proof.
  rewrite filter_In, negb_true_iff, String.eqb_neq. tauto.
Qed.

Lemma includes_filter_other (l : list ObjectId) (u x : ObjectId) :
  x <> u -> includes (filter (fun m => negb (m =? u)) l) x = includes l x.
Proof.
  intros Hne. destruct (includes l x) eqn:H.
  - apply includes_In. apply In_filter_out. apply includes_In in H. now split.
  - apply includes_false. intros Hx. apply In_filter_out in Hx as [Hx _].
    apply includes_false in H. contradiction.
Qed.

Lemma RolesWithin_preSave (gid : ObjectId) (name : string)
      (icon : option string) (a : ObjectId) :
  RolesWithin (Guild.preSave true (Guild.mk gid name icon a [a] [])).
Proof.
  intros r Hr x Hx. simpl in *.
  destruct Hr as [<-|[<-|[]]]; simpl in Hx; tauto.
Qed.

Lemma RolesWithin_addMember (u : ObjectId) (g : Guild.t) :
  RolesWithin g -> RolesWithin (addMember u g).
Proof.
  intros H r Hr x Hx. simpl in *. apply in_or_app.
  apply In_updateOne in Hr as [Hr|[r0 [Hr ->]]].
  - left. eapply H; eauto.
  - simpl in Hx. apply in_app_or in Hx as [Hx|[<-|[]]].
    + left. eapply H; eauto.
    + right. now left.
Qed.

Lemma RolesWithin_newRole (g : Guild.t) (r : Role.t) :
  Role.members r = [] -> RolesWithin g ->
  RolesWithin (Guild.setRoles (Guild.roles g ++ [r]) g).
Proof.
  intros Hr H r' Hr' x Hx. simpl in *.
  apply in_app_or in Hr' as [Hr'|[<-|[]]].
  - eapply H; eauto.
  - rewrite Hr in Hx. destruct Hx.
Qed.

Lemma RolesWithin_kicked (gid uid : ObjectId) (g : Guild.t) :
  MidKick gid uid g ->
  RolesWithin
    (if (Guild._id g =? gid) &&
        existsb (fun r => includes (Role.members r) uid) (Guild.roles g)
     then pullFromRoles uid g else g).
Proof.
  intros [H|[g0 [H [Hid ->]]]].
  - destruct (_ && _); [|assumption].
    intros r Hr x Hx. simpl in *.
    apply in_map_iff in Hr as [r0 [<- Hr0]]. simpl in Hx.
    apply In_filter_out in Hx as [Hx _]. eapply H; eauto.
  - simpl. rewrite Hid, String.eqb_refl. simpl.
    destruct (existsb _ (Guild.roles g0)) eqn:He.
    + intros r Hr x Hx. simpl in *.
      apply in_map_iff in Hr as [r0 [<- Hr0]]. simpl in Hx.
      apply In_filter_out in Hx as [Hx Hne]. apply In_filter_out.
      split; [eapply H; eauto | assumption].
    + intros r Hr x Hx. simpl in *. apply In_filter_out.
      split; [eapply H; eauto|].
      intros ->. 
      assert (existsb (fun r => includes (Role.members r) uid)
                      (Guild.roles g0) = true); [|congruence].
      apply existsb_exists. exists r. split; [assumption|].
      now apply includes_In.
Qed.

(** Every guild-changing request keeps the invariant. *)
Lemma guildOp_RolesWithin (cast : string -> option ObjectId) (op : GuildOp)
      (w : World) :
  Forall RolesWithin (guilds (db w)) ->
  Forall RolesWithin (guilds (db (snd (run (guildOp cast op) w)))).
Proof.
  intros H. destruct w as [s o]. simpl in H.
  destruct op as [u n f gid cid | now u c | a gid uid | a gid n c p
                 | u gid iid c now]; simpl guildOp.
  - unfold run, createGuild, bind, getDb, putDb, orThrow, throw, fail, send,
      ret. simpl.
    destruct (insertOne Guild._id _ (guilds s)) as [gs|] eqn:Hgs; simpl;
      [|assumption].
    assert (Forall RolesWithin gs).
    { eapply Forall_insertOne; eauto. apply RolesWithin_preSave. }
    destruct (insertOne Channel._id _ (channels s)); simpl; assumption.
  - rewrite joinGuild_run. simpl.
    destruct (inviteOf c s) as [i|]; [|assumption].
    destruct (Invite.isExpired now i); [assumption|].
    destruct (Invite.isMaxUsesReached i); [assumption|].
    destruct (findById Guild._id (Invite.guild i) (guilds s)) as [g|] eqn:Hg;
      [|assumption].
    destruct (includes (Guild.members g) u); [assumption|]. simpl.
    apply findById_key in Hg as [_ Hg].
    apply (Forall_updateOne RolesWithin RolesWithin); auto.
    intros d _ _. apply RolesWithin_addMember.
    rewrite Forall_forall in H. now apply H.
  - unfold run, removeMember, bind, getDb, putDb, orFail, orThrow, throw,
      failIf, fail, send, emit, ret. simpl.
    destruct (findById Guild._id gid (guilds s)) as [g|]; simpl; [|assumption].
    destruct (canDo "KICK_MEMBERS" g a); simpl; [|assumption].
    destruct (Guild.owner g =? uid); simpl; [assumption|].
    destruct (cast uid) as [m|]; simpl; [|assumption].
    unfold updateMany. apply Forall_map.
    assert (Hmid : Forall (MidKick gid m)
                     (updateOne (fun g0 => Guild._id g0 =? gid)
                                (pullMember m) (guilds s))).
    { apply (Forall_updateOne RolesWithin); [now left | | assumption].
      intros d Hd Hp. right. exists d. apply String.eqb_eq in Hp. auto. }
    eapply Forall_impl; [|exact Hmid].
    intros g0 Hg0. now apply RolesWithin_kicked.
  - unfold run, createRole, bind, getDb, putDb, orFail, failIf, fail, send,
      emit, ret. simpl.
    destruct (findById Guild._id gid (guilds s)) as [g|] eqn:Hg; simpl;
      [|assumption].
    destruct (canDo "MANAGE_ROLES" g a); simpl; [|assumption].
    apply findById_key in Hg as [_ Hg].
    apply (Forall_updateOne RolesWithin RolesWithin); auto.
    intros d _ _. apply RolesWithin_newRole; [reflexivity|].
    rewrite Forall_forall in H. now apply H.
  - unfold run, createInvite, bind, getDb, putDb, orFail, orThrow, throw,
      failIf, fail, send, ret. simpl.
    destruct (findById Guild._id gid (guilds s)) as [g|]; simpl; [|assumption].
    destruct (includes (Guild.members g) u); simpl; [|assumption].
    destruct (canDo "CREATE_INVITE" g u); simpl; [|assumption].
    destruct (existsb _ (invites s)); simpl; [assumption|].
    destruct (insertOne Invite._id _ (invites s)); simpl; assumption.
Qed.

Lemma guildReachable_RolesWithin (cast : string -> option ObjectId)
      (w : World) :
  guildReachable cast w -> Forall RolesWithin (guilds (db w)).
Proof.
  induction 1 as [w Hw | w op Hw IH].
  - rewrite Hw. constructor.
  - now apply guildOp_RolesWithin.
Qed.

Lemma find_map_stable {D} (p : D -> bool) (h : D -> D) (l : list D) :
  (forall d, p (h d) = p d) ->
  find p (map h l) = option_map h (find p l).
Proof.
  intros Hp. induction l as [|a l IH]; simpl; [reflexivity|].
  rewrite Hp. now destruct (p a).
Qed.

(** The kick handler, outcome by outcome. *)
Lemma removeMember_run (cast : string -> option ObjectId)
      (a gid : ObjectId) (uid : string) (w : World) :
  run (removeMember cast a gid uid) w =
  match findById Guild._id gid (guilds (db w)) with
  | None => (mkResponse 404 (BMessage "Guild not found"), w)
  | Some g =>
      if canDo "KICK_MEMBERS" g a
      then
        if Guild.owner g =? uid
        then (mkResponse 403 (BMessage "Cannot remove the guild owner"), w)
        else
          match cast uid with
          | None => (mkResponse 500 (BMessage "Server error"), w)
          | Some m =>
              (mkResponse 200 (BMessage "Member removed successfully"),
               mkWorld
                 (setGuilds
                    (updateMany
                       (fun g0 => (Guild._id g0 =? gid) &&
                                  existsb (fun r => includes (Role.members r) m)
                                          (Guild.roles g0))
                       (pullFromRoles m)
                       (updateOne (fun g0 => Guild._id g0 =? gid)
                                  (pullMember m) (guilds (db w))))
                    (db w))
                 (io w ++
                  [mkEmit ("guild:" ++ gid)%string "memberRemove"
                          (PMember gid uid);
                   mkEmit ("user:" ++ uid)%string "kickedFromGuild"
                          (PKicked gid (Guild.name g))]))
          end
      else (mkResponse 403
              (BMessage "You do not have permission to kick members"), w)
  end.
Proof.
  destruct w as [s o].
  unfold run, removeMember, bind, getDb, putDb, orFail, orThrow, throw,
    failIf, fail, send, emit, ret. simpl.
  destruct (findById Guild._id gid (guilds s)) as [g|]; simpl; [|reflexivity].
  destruct (canDo "KICK_MEMBERS" g a); simpl; [|reflexivity].
  destruct (Guild.owner g =? uid); simpl; [reflexivity|].
  destruct (cast uid) as [m|]; simpl; [|reflexivity].
  now rewrite <- app_assoc.
Qed.

(** What a kick that answers 200 has found and has left. *)
Lemma removeMember_kicked (cast : string -> option ObjectId)
      (a gid : ObjectId) (uid : string) (w : World) :
  status (fst (run (removeMember cast a gid uid) w)) = 200 ->
  exists g m,
    findById Guild._id gid (guilds (db w)) = Some g /\
    canDo "KICK_MEMBERS" g a = true /\
    Guild.owner g <> uid /\
    cast uid = Some m /\
    findById Guild._id gid
      (guilds (db (snd (run (removeMember cast a gid uid) w)))) =
      Some (kicked m g) /\
    channels (db (snd (run (removeMember cast a gid uid) w))) =
      channels (db w) /\
    io (snd (run (removeMember cast a gid uid) w)) =
      io w ++ [mkEmit ("guild:" ++ gid)%string "memberRemove"
                      (PMember gid uid);
               mkEmit ("user:" ++ uid)%string "kickedFromGuild"
                      (PKicked gid (Guild.name g))].
Proof.
  rewrite removeMember_run.
  destruct (findById Guild._id gid (guilds (db w))) as [g|] eqn:Hg;
    [|discriminate].
  destruct (canDo "KICK_MEMBERS" g a) eqn:Hp; [|discriminate].
  destruct (String.eqb_spec (Guild.owner g) uid) as [E|E]; [discriminate|].
  destruct (cast uid) as [m|] eqn:Hc; [|discriminate].
  intros _. exists g, m. repeat split; auto. simpl.
  unfold findById, updateMany. rewrite find_map_stable.
  2: { intros d. now destruct (_ && _). }
  pose proof (findById_key _ _ _ _ Hg) as [Hid _].
  unfold findById in Hg.
  rewrite (find_updateOne _ (pullMember m) _ g Hg).
  2: { simpl. rewrite Hid. apply String.eqb_refl. }
  simpl. rewrite Hid, String.eqb_refl. reflexivity.
Qed.

(** When a kick answers 200. *)
Lemma removeMember_accepted (cast : string -> option ObjectId)
      (a gid : ObjectId) (uid : string) (w : World) (g : Guild.t)
      (m : ObjectId) :
  findById Guild._id gid (guilds (db w)) = Some g ->
  canDo "KICK_MEMBERS" g a = true ->
  Guild.owner g <> uid ->
  cast uid = Some m ->
  status (fst (run (removeMember cast a gid uid) w)) = 200.
Proof.
  intros Hg Hp Ho Hc. rewrite removeMember_run, Hg, Hp, Hc.
  apply String.eqb_neq in Ho. now rewrite Ho.
Qed.

Lemma kicked_inNoRole (m : ObjectId) (g : Guild.t) :
  inNoRole m (kicked m g).
Proof.
  unfold inNoRole, kicked. destruct (existsb _ (Guild.roles g)) eqn:He; simpl.
  - intros r Hr. apply in_map_iff in Hr as [r0 [<- _]].
    apply includes_filter_out.
  - intros r Hr. destruct (includes (Role.members r) m) eqn:Hi; [|reflexivity].
    rewrite <- He. symmetry. apply existsb_exists. eauto.
Qed.

Lemma kicked_not_member (m : ObjectId) (g : Guild.t) :
  includes (Guild.members (kicked m g)) m = false.
Proof.
  unfold kicked. destruct (existsb _ (Guild.roles g)); simpl;
    apply includes_filter_out.
Qed.

(** C8: in every world reached from one without guilds by guild creation,
    invite creation and redemption, member kick and role creation, the
    member list of every role of every guild lies within the guild's member
    list.  In particular a kick from a stored guild, requested by someone
    who passes the KICK_MEMBERS gate, with a user id that is not written as
    the owner's id and is cast to the id of some user, answers 200 and
    leaves that user in neither the guild's member list nor the member
    list of any of its roles, every other user's membership as it was and
    the inclusion still in force; and whenever a kick answers 200, the
    user whose id the URL's id is cast to is in neither list afterwards. *)
Theorem roles_within_members (cast : string -> option ObjectId) (w : World) :
  guildReachable cast w ->
  (forall g, In g (guilds (db w)) -> rolesWithinMembers g = true) /\
  (forall actor gid uid member g,
     findById Guild._id gid (guilds (db w)) = Some g ->
     canDo "KICK_MEMBERS" g actor = true ->
     Guild.owner g <> uid ->
     cast uid = Some member ->
     status (fst (run (removeMember cast actor gid uid) w)) = 200 /\
     exists g',
       findById Guild._id gid
         (guilds (db (snd (run (removeMember cast actor gid uid) w)))) =
         Some g' /\
       includes (Guild.members g') member = false /\
       (forall role, In role (Guild.roles g') ->
                     includes (Role.members role) member = false) /\
       (forall x, x <> member ->
                  includes (Guild.members g') x = includes (Guild.members g) x) /\
       rolesWithinMembers g' = true) /\
  (forall actor gid uid,
     status (fst (run (removeMember cast actor gid uid) w)) = 200 ->
     exists member g',
       cast uid = Some member /\
       findById Guild._id gid
         (guilds (db (snd (run (removeMember cast actor gid uid) w)))) =
         Some g' /\
       includes (Guild.members g') member = false /\
       (forall role, In role (Guild.roles g') ->
                     includes (Role.members role) member = false)).
Proof.
  intros Hw. split; [|split].
  - intros g Hg. apply rolesWithinMembers_spec.
    apply guildReachable_RolesWithin in Hw. rewrite Forall_forall in Hw.
    now apply Hw.
  - intros actor gid uid member g Hg Hp Ho Hc.
    pose proof (removeMember_accepted cast actor gid uid w g member
                  Hg Hp Ho Hc) as Hs.
    split; [exact Hs|].
    destruct (removeMember_kicked cast actor gid uid w Hs)
      as (g0 & m0 & Hg0 & _ & _ & Hc0 & Hg' & _).
    rewrite Hg in Hg0. injection Hg0 as <-.
    rewrite Hc in Hc0. injection Hc0 as <-.
    exists (kicked member g). split; [exact Hg'|].
    split; [apply kicked_not_member|]. split; [apply kicked_inNoRole|].
    split.
    + intros x Hx. unfold kicked.
      destruct (existsb _ (Guild.roles g)); simpl;
        now apply includes_filter_other.
    + apply rolesWithinMembers_spec.
      pose proof (guildReachable_RolesWithin cast _
                    (guildReachable_step cast w
                       (OpRemoveMember actor gid uid) Hw)) as Hall.
      rewrite Forall_forall in Hall. apply Hall. simpl guildOp.
      now apply (findById_key _ _ _ _ Hg').
  - intros actor gid uid Hs.
    destruct (removeMember_kicked cast actor gid uid w Hs)
      as (g & m & _ & _ & _ & Hc & Hg' & _).
    exists m, (kicked m g). split; [exact Hc|]. split; [exact Hg'|].
    split; [apply kicked_not_member | apply kicked_inNoRole].
Qed.

Lemma guildReachable_runOps (cast : string -> option ObjectId)
      (ops : list GuildOp) (w : World) :
  guildReachable cast w -> guildReachable cast (runOps cast ops w).
Proof.
  revert w. induction ops as [|op ops IH]; intros w Hw; simpl; [assumption|].
  apply IH. now constructor.
Qed.

Lemma joinedWorld_reachable : guildReachable castHex24 joinedWorld.
Proof.
  apply guildReachable_runOps. apply guildReachable_init. reflexivity.
Qed.

Lemma roles_within_members_witness :
  (forall g, In g (guilds (db joinedWorld)) -> rolesWithinMembers g = true) /\
  (exists g,
     findById Guild._id guild1 (guilds (db joinedWorld)) = Some g /\
     includes (Guild.members g) bob = true /\
     exists role, In role (Guild.roles g) /\
                  includes (Role.members role) bob = true) /\
  status (fst (run (removeMember castHex24 alice guild1 bob) joinedWorld)) =
    200 /\
  exists g',
    findById Guild._id guild1
      (guilds (db (snd (run (removeMember castHex24 alice guild1 bob)
                            joinedWorld)))) = Some g' /\
    includes (Guild.members g') bob = false /\
    (forall role, In role (Guild.roles g') ->
                  includes (Role.members role) bob = false) /\
    (forall x, x <> bob ->
       includes (Guild.members g') x =
       includes (Guild.members
                   (addMember bob
                      (Guild.preSave true
                         (Guild.mk guild1 "Guild" None alice [alice] [])))) x) /\
    rolesWithinMembers g' = true.
Proof.
  destruct (roles_within_members castHex24 joinedWorld joinedWorld_reachable)
    as (Hall & Hkick & _).
  split; [exact Hall|]. split.
  - exists (addMember bob
              (Guild.preSave true
                 (Guild.mk guild1 "Guild" None alice [alice] []))).
    split; [reflexivity|]. split; [reflexivity|].
    exists (Role.mk "@everyone" "#99AAB5"
              ["VIEW_CHANNELS"; "SEND_MESSAGES"; "READ_MESSAGE_HISTORY"] 0
              [alice; bob]).
    split; [left; reflexivity | reflexivity].
  - apply (Hkick alice guild1 bob bob
             (addMember bob
                (Guild.preSave true
                   (Guild.mk guild1 "Guild" None alice [alice] [])))).
    + reflexivity.
    + reflexivity.
    + discriminate.
    + reflexivity.
Defined.

(** ** Conversations *)

Lemma createConversation_run (u r id : ObjectId) (w : World) :
  run (createConversation u r id) w =
  match findById User._id r (users (db w)) with
  | None => (mkResponse 404 (BMessage "Recipient not found"), w)
  | Some _ =>
      match find (hasBoth u r) (conversations (db w)) with
      | Some c => (mkResponse 200 (BConversation c), w)
      | None =>
          let conversation := Conversation.mk id [u; r] u None in
          match insertOne Conversation._id conversation
                          (conversations (db w)) with
          | None => (mkResponse 500 (BMessage "Server error"), w)
          | Some cs =>
              (mkResponse 201 (BConversation conversation),
               mkWorld (setConversations cs (db w))
                       (io w ++ [mkEmit ("user:" ++ r)%string "newConversation"
                                        (PConversation conversation)]))
          end
      end
  end.
Proof.
  destruct w as [s o].
  unfold run, createConversation, bind, getDb, putDb, orFail, orThrow, throw,
    fail, send, emit, ret. simpl.
  destruct (findById User._id r (users s)); simpl; [|reflexivity].
  destruct (find (hasBoth u r) (conversations s)); simpl; [reflexivity|].
  destruct (insertOne Conversation._id _ (conversations s)); reflexivity.
Qed.

Lemma isPair_hasBoth (a b u r : ObjectId) (c : Conversation.t) :
  forallb (fun p => (p =? a) || (p =? b)) [u; r] = true ->
  isPair a b c = true -> hasBoth u r c = true.
Proof.
  unfold isPair, hasBoth. simpl. rewrite !andb_true_iff, !orb_true_iff.
  rewrite !String.eqb_eq.
  intros ([-> | ->] & [-> | ->] & _) ((_ & Ha) & Hb); auto.
Qed.

Lemma hasBoth_isPair (u r x y : ObjectId) (c : Conversation.t) :
  Conversation.participants c = [x; y] -> u <> r ->
  hasBoth u r c = true -> isPair u r c = true.
Proof.
  unfold hasBoth, isPair. intros -> Hne.
  rewrite andb_true_iff, !includes_In. simpl. intros [Hu Hr].
  assert (Hxy : (x = u /\ y = r) \/ (x = r /\ y = u)).
  { destruct Hu as [Hu|[Hu|[]]], Hr as [Hr|[Hr|[]]]; subst; auto;
      contradiction. }
  destruct Hxy as [[-> ->]|[-> ->]];
    unfold includes; simpl; rewrite ?String.eqb_refl, ?orb_true_r; simpl;
    rewrite ?orb_true_r; reflexivity.
Qed.

Lemma countDocuments_none {D} (p : D -> bool) (l : list D) :
  (forall d, In d l -> p d = false) -> countDocuments p l = 0.
Proof.
  intros H. unfold countDocuments. induction l as [|a l IH]; [reflexivity|].
  simpl. rewrite (H a (or_introl eq_refl)). apply IH.
  intros d Hd. apply H. now right.
Qed.

Lemma countDocuments_app {D} (p : D -> bool) (l1 l2 : list D) :
  countDocuments p (l1 ++ l2) = countDocuments p l1 + countDocuments p l2.
Proof. unfold countDocuments. now rewrite filter_app, length_app. Qed.

Lemma conversationReachable_inv (w : World) :
  conversationReachable w ->
  (forall c, In c (conversations (db w)) ->
     exists r, Conversation.participants c = [Conversation.creator c; r]) /\
  (forall a b, countDocuments (isPair a b) (conversations (db w)) <= 1).
Proof.
  induction 1 as [w Hw | w u r id Hw [IH1 IH2]].
  - rewrite Hw. split; [intros c [] | intros a b; cbv; lia].
  - rewrite createConversation_run.
    destruct (findById User._id r (users (db w))); [|now split].
    destruct (find (hasBoth u r) (conversations (db w))) eqn:Hf; [now split|].
    cbv zeta. unfold insertOne.
    destruct (existsb _ (conversations (db w))); [now split|]. simpl.
    split.
    + intros c Hc. apply in_app_or in Hc as [Hc|[<-|[]]]; [auto|].
      exists r. reflexivity.
    + intros a b. rewrite countDocuments_app.
      unfold countDocuments at 2. simpl.
      destruct (isPair a b (Conversation.mk id [u; r] u None)) eqn:Hp;
        [|specialize (IH2 a b); cbn [List.length Nat.add]; lia].
      rewrite countDocuments_none; [cbn [List.length Nat.add]; lia|].
      intros d Hd. destruct (isPair a b d) eqn:Hd'; [|reflexivity].
      apply (find_none _ _ Hf) in Hd. rewrite <- Hd. symmetry.
      apply (isPair_hasBoth a b); [|assumption].
      unfold isPair in Hp. simpl Conversation.participants in Hp.
      rewrite !andb_true_iff in Hp. tauto.
Qed.

Lemma find_pointwise {D} (p q : D -> bool) (l : list D) :
  (forall d, p d = q d) -> find p l = find q l.
Proof.
  intros H. induction l as [|a l IH]; simpl; [reflexivity|].
  now rewrite H, IH.
Qed.

(** Every stored conversation is the one that the lookup for its own pair
    finds. *)
Lemma conversationReachable_FirstOfPair (w : World) :
  conversationReachable w -> FirstOfPair (conversations (db w)).
Proof.
  induction 1 as [w Hw | w u r id Hw IH].
  - rewrite Hw. intros c [].
  - rewrite createConversation_run.
    destruct (findById User._id r (users (db w))); [|assumption].
    destruct (find (hasBoth u r) (conversations (db w))) eqn:Hf; [assumption|].
    cbv zeta. unfold insertOne.
    destruct (existsb _ (conversations (db w))); [assumption|]. simpl.
    intros c Hc. apply in_app_or in Hc as [Hc|[<-|[]]].
    + destruct (IH c Hc) as [y [Hy Hfind]]. exists y. split; [assumption|].
      rewrite find_append, Hfind. reflexivity.
    + exists r. split; [reflexivity|]. simpl Conversation.creator.
      rewrite find_append, Hf. simpl. unfold hasBoth at 1. simpl.
      unfold includes. simpl. rewrite !String.eqb_refl, ?orb_true_r.
      reflexivity.
Qed.

Lemma isPair_same_lookup (u r x y : ObjectId) (c0 : Conversation.t) :
  Conversation.participants c0 = [x; y] ->
  isPair u r c0 = true ->
  forall c, hasBoth u r c = hasBoth x y c.
Proof.
  unfold isPair. intros ->. simpl forallb.
  rewrite !andb_true_iff, !orb_true_iff, !includes_In, !String.eqb_eq.
  simpl In. intros (((Hx & Hy & _) & Hu) & Hr) c. unfold hasBoth.
  destruct Hx as [-> | ->], Hy as [-> | ->];
    try reflexivity; try apply andb_comm.
  - destruct Hr as [<-|[<-|[]]]; reflexivity.
  - destruct Hu as [<-|[<-|[]]]; reflexivity.
Qed.

(** C9, as the handler has it: every conversation that POST /conversations
    produces has two participants, its creator and the recipient, distinct
    unless the creator named themself; after any sequence of such requests
    at most one conversation is stored per unordered pair of participants;
    and a request for a pair that a stored conversation joins answers 200
    with that conversation and changes nothing. *)
Theorem createConversation_pairs (w : World) :
  conversationReachable w ->
  (forall c, In c (conversations (db w)) ->
     exists r, Conversation.participants c = [Conversation.creator c; r] /\
               (r <> Conversation.creator c ->
                NoDup (Conversation.participants c))) /\
  (forall a b, countDocuments (isPair a b) (conversations (db w)) <= 1) /\
  (forall u r id c0,
     findById User._id r (users (db w)) <> None ->
     In c0 (conversations (db w)) ->
     isPair u r c0 = true ->
     run (createConversation u r id) w =
       (mkResponse 200 (BConversation c0), w)).
Proof.
  intros Hw. destruct (conversationReachable_inv w Hw) as [H1 H2].
  pose proof (conversationReachable_FirstOfPair w Hw) as H3.
  repeat apply conj.
  - intros c Hc. destruct (H1 c Hc) as [r Hr]. exists r. split; [assumption|].
    intros Hne. rewrite Hr. constructor; [|constructor; [intros []|constructor]].
    intros [E|[]]. now apply Hne.
  - exact H2.
  - intros u r id c0 Hu Hc0 Hp. rewrite createConversation_run.
    destruct (findById User._id r (users (db w))); [|congruence].
    destruct (H3 c0 Hc0) as [y [Hy Hfind]].
    rewrite (find_pointwise _ _ _
               (isPair_same_lookup u r _ y c0 Hy Hp)), Hfind.
    reflexivity.
Qed.

Lemma createConversation_pairs_witness :
  let w := snd (run (createConversation alice bob conversation1) emptyWorld) in
  let c0 := Conversation.mk conversation1 [alice; bob] alice None in
  conversations (db w) = [c0] /\
  (forall c, In c (conversations (db w)) ->
     exists r, Conversation.participants c = [Conversation.creator c; r] /\
               (r <> Conversation.creator c ->
                NoDup (Conversation.participants c))) /\
  (forall a b, countDocuments (isPair a b) (conversations (db w)) <= 1) /\
  run (createConversation bob alice "64e000000000000000000002") w =
    (mkResponse 200 (BConversation c0), w) /\
  run (createConversation alice bob "64e000000000000000000002") w =
    (mkResponse 200 (BConversation c0), w).
Proof.
  intros w c0.
  destruct (createConversation_pairs w
              (conversationReachable_step emptyWorld alice bob conversation1
                 (conversationReachable_init emptyWorld eq_refl)))
    as (H1 & H2 & H3).
  split; [reflexivity|]. split; [exact H1|]. split; [exact H2|]. split.
  - apply (H3 bob alice "64e000000000000000000002" c0);
      [discriminate | left; reflexivity | reflexivity].
  - apply (H3 alice bob "64e000000000000000000002" c0);
      [discriminate | left; reflexivity | reflexivity].
Defined.

(** A user who names themself as recipient gets a conversation whose two
    participants are the same user. *)
Lemma createConversation_self :
  let w := snd (run (createConversation alice alice conversation1) emptyWorld) in
  conversationReachable w /\
  status (fst (run (createConversation alice alice conversation1) emptyWorld)) =
    201 /\
  exists c, In c (conversations (db w)) /\
            ~ NoDup (Conversation.participants c).
Proof.
  repeat apply conj.
  - apply conversationReachable_step. apply conversationReachable_init.
    reflexivity.
  - reflexivity.
  - exists (Conversation.mk conversation1 [alice; alice] alice None).
    split; [left; reflexivity|].
    intros H. inversion H as [|x l Hn _]. apply Hn. left. reflexivity.
Qed.

(** * Further properties of the handlers *)

(** ** Removing one document *)

Lemma deleteOne_split {D} (q : D -> bool) (l : list D) (d : D) :
  find q l = Some d ->
  exists l1 l2, l = l1 ++ d :: l2 /\ deleteOne q l = l1 ++ l2 /\
                forall x, In x l1 -> q x = false.
Proof.
  induction l as [|a l IH]; simpl; [discriminate|].
  destruct (q a) eqn:Ha.
  - intros [= ->]. exists [], l. repeat split. intros x [].
  - intros Hf. destruct (IH Hf) as (l1 & l2 & -> & Hd & Hq).
    exists (a :: l1), l2. simpl. rewrite Hd. repeat split.
    intros x [<-|Hx]; auto.
Qed.

Lemma countDocuments_deleteOne {D} (p q : D -> bool) (l : list D) (d : D) :
  find q l = Some d ->
  countDocuments p (deleteOne q l) + (if p d then 1 else 0) =
  countDocuments p l.
Proof.
  intros Hf. destruct (deleteOne_split q l d Hf) as (l1 & l2 & -> & -> & _).
  rewrite !countDocuments_app. unfold countDocuments at 4. simpl.
  destruct (p d); simpl; fold (countDocuments p l2); lia.
Qed.

(** ** DELETE /messages/:id *)

Ltac run_deleteMessage :=
  unfold run, deleteMessage, bind, getDb, putDb, orFail, orThrow, throw,
    failIf, fail, send, emit, ret; simpl.

(** The author's DELETE of an own message, in a channel or direct, answers
    200 whatever has become of the channel or the guild: exactly this
    message leaves the store, and one messageDelete goes to the room of its
    container. *)
Theorem deleteMessage_author (u mid : ObjectId) (w : World) (m : Message.t) :
  findById Message._id mid (messages (db w)) = Some m ->
  Message.author m = u ->
  let r := fst (run (deleteMessage u mid) w) in
  let w' := snd (run (deleteMessage u mid) w) in
  r = mkResponse 200 (BMessage "Message deleted successfully") /\
  (exists l1 l2,
     messages (db w) = l1 ++ m :: l2 /\ messages (db w') = l1 ++ l2 /\
     forall x, In x l1 -> Message._id x <> mid) /\
  io w' = io w ++
    match Message.channel m, Message.conversationId m with
    | Some ch, _ => [mkEmit ("channel:" ++ ch)%string "messageDelete"
                            (PMessageRef mid (Some ch) None)]
    | None, Some cv => [mkEmit ("conversation:" ++ cv)%string "messageDelete"
                               (PMessageRef mid None (Some cv))]
    | None, None => []
    end.
Proof.
  intros Hm Ha r w'. subst r w'. destruct w as [s o]. simpl in *.
  apply String.eqb_eq in Ha.
  destruct (deleteOne_split _ _ _ Hm) as (l1 & l2 & E1 & E2 & Hq).
  run_deleteMessage. rewrite Hm. simpl. rewrite Ha. simpl.
  assert (Hl : forall x, In x l1 -> Message._id x <> mid)
    by (intros x Hx; apply String.eqb_neq; now apply Hq).
  destruct (Message.channel m) as [ch|]; simpl;
    [|destruct (Message.conversationId m); simpl; rewrite ?app_nil_r];
    (split; [reflexivity | split; [exists l1, l2; auto | reflexivity]]).
Qed.

Lemma deleteMessage_author_witness :
  fst (run (deleteMessage bob message1) postedWorld) =
    mkResponse 200 (BMessage "Message deleted successfully") /\
  messages (db (snd (run (deleteMessage bob message1) postedWorld))) = [].
Proof.
  destruct (deleteMessage_author bob message1 postedWorld
              (Message.mk message1 "hi" bob (Some channel1) None)
              eq_refl eq_refl) as (Hr & _ & _).
  split; [exact Hr | reflexivity].
Defined.

(** Someone else's DELETE of a channel message whose channel and guild
    are stored succeeds exactly when the requester is the guild's owner or
    is in a role with ADMINISTRATOR or MANAGE_MESSAGES; otherwise the
    answer is 403 and nothing changes. *)
Theorem deleteMessage_moderation (u mid : ObjectId) (w : World)
    (m : Message.t) (ch : ObjectId) (c : Channel.t) (g : Guild.t) :
  findById Message._id mid (messages (db w)) = Some m ->
  Message.channel m = Some ch ->
  findById Channel._id ch (channels (db w)) = Some c ->
  findById Guild._id (Channel.guild c) (guilds (db w)) = Some g ->
  Message.author m <> u ->
  let r := fst (run (deleteMessage u mid) w) in
  let w' := snd (run (deleteMessage u mid) w) in
  (status r = 200 <-> canDo "MANAGE_MESSAGES" g u = true) /\
  (canDo "MANAGE_MESSAGES" g u = true ->
     (exists l1 l2,
        messages (db w) = l1 ++ m :: l2 /\ messages (db w') = l1 ++ l2) /\
     io w' = io w ++ [mkEmit ("channel:" ++ ch)%string "messageDelete"
                             (PMessageRef mid (Some ch) None)]) /\
  (canDo "MANAGE_MESSAGES" g u = false ->
     r = mkResponse 403
           (BMessage "You do not have permission to delete this message") /\
     w' = w).
Proof.
  intros Hm Hch Hc Hg Ha r w'. subst r w'. destruct w as [s o]. simpl in *.
  apply String.eqb_neq in Ha.
  destruct (deleteOne_split _ _ _ Hm) as (l1 & l2 & E1 & E2 & _).
  run_deleteMessage. rewrite Hm. simpl. rewrite Ha, Hch. simpl.
  rewrite Hc. simpl. rewrite Hg. simpl.
  destruct (canDo "MANAGE_MESSAGES" g u); simpl.
  - repeat split; try discriminate; eauto.
  - repeat split; try discriminate; auto.
Qed.

Lemma deleteMessage_moderation_witness :
  status (fst (run (deleteMessage alice message1) postedWorld)) = 200 /\
  snd (run (deleteMessage carol message1) postedWorld) = postedWorld.
Proof.
  pose proof (deleteMessage_moderation alice message1 postedWorld
                (Message.mk message1 "hi" bob (Some channel1) None) channel1
                (Channel.mk channel1 "general" "" guild1 "Text Channels"
                            Channel.text)
                (addMember bob
                   (Guild.preSave true
                      (Guild.mk guild1 "Guild" None alice [alice] [])))
                eq_refl eq_refl eq_refl eq_refl) as Ha.
  pose proof (deleteMessage_moderation carol message1 postedWorld
                (Message.mk message1 "hi" bob (Some channel1) None) channel1
                (Channel.mk channel1 "general" "" guild1 "Text Channels"
                            Channel.text)
                (addMember bob
                   (Guild.preSave true
                      (Guild.mk guild1 "Guild" None alice [alice] [])))
                eq_refl eq_refl eq_refl eq_refl) as Hc.
  cbv zeta in Ha, Hc. split.
  - apply Ha; [discriminate | reflexivity].
  - apply Hc; [discriminate | reflexivity].
Defined.

(** Someone else's DELETE of a channel message whose channel, or whose
    channel's guild, is no longer stored ends in the handler's catch:
    status 500, nothing changed.  (DELETE /guilds/:id leaves the messages
    of the guild's channels behind.) *)
Theorem deleteMessage_orphan (u mid : ObjectId) (w : World) (m : Message.t)
    (ch : ObjectId) :
  findById Message._id mid (messages (db w)) = Some m ->
  Message.channel m = Some ch ->
  Message.author m <> u ->
  (findById Channel._id ch (channels (db w)) = None \/
   exists c, findById Channel._id ch (channels (db w)) = Some c /\
             findById Guild._id (Channel.guild c) (guilds (db w)) = None) ->
  run (deleteMessage u mid) w =
    (mkResponse 500 (BMessage "Server error"), w).
Proof.
  intros Hm Hch Ha H. destruct w as [s o]. simpl in *.
  apply String.eqb_neq in Ha.
  run_deleteMessage. rewrite Hm. simpl. rewrite Ha, Hch. simpl.
  destruct H as [Hc | [c [Hc Hg]]]; rewrite Hc; simpl;
    [|rewrite Hg]; reflexivity.
Qed.

Lemma deleteMessage_orphan_witness :
  run (deleteMessage alice message1) orphanWorld =
    (mkResponse 500 (BMessage "Server error"), orphanWorld).
Proof.
  apply (deleteMessage_orphan alice message1 orphanWorld
           (Message.mk message1 "hi" bob (Some channel1) None) channel1).
  - reflexivity.
  - reflexivity.
  - discriminate.
  - left. reflexivity.
Defined.

(** ** Inserting under a fresh or a stored id *)

Lemma insertOne_fresh {D} (key : D -> ObjectId) (d : D) (l : list D) :
  findById key (key d) l = None -> insertOne key d l = Some (l ++ [d]).
Proof.
  unfold findById, insertOne. intros H.
  destruct (existsb (fun d' => key d' =? key d) l) eqn:He; [|reflexivity].
  apply existsb_exists in He as [x [Hx Hk]].
  apply (find_none _ _ H) in Hx. simpl in Hx. congruence.
Qed.

Lemma insertOne_stored {D} (key : D -> ObjectId) (d d0 : D) (l : list D) :
  findById key (key d) l = Some d0 -> insertOne key d l = None.
Proof.
  unfold findById, insertOne. intros H. apply find_some in H as [Hin Hk].
  assert (existsb (fun d' => key d' =? key d) l = true) as ->;
    [apply existsb_exists; eauto | reflexivity].
Qed.

Lemma find_None_of_count {D} (p : D -> bool) (l : list D) :
  countDocuments p l = 0 -> find p l = None.
Proof.
  unfold countDocuments. induction l as [|a l IH]; simpl; [reflexivity|].
  destruct (p a); simpl; [discriminate | exact IH].
Qed.

(** ** DELETE /guilds/:id *)

Lemma deleteGuild_run (u gid : ObjectId) (w : World) :
  run (deleteGuild u gid) w =
  match findById Guild._id gid (guilds (db w)) with
  | None => (mkResponse 404 (BMessage "Guild not found"), w)
  | Some g =>
      if Guild.owner g =? u
      then (mkResponse 200 (BMessage "Guild deleted successfully"),
            mkWorld
              (setGuilds
                 (deleteOne (fun x => Guild._id x =? gid) (guilds (db w)))
                 (setChannels
                    (deleteMany (fun c => Channel.guild c =? gid)
                                (channels (db w))) (db w)))
              (io w ++ [mkEmit ("guild:" ++ gid)%string "guildDelete"
                               (PGuildId gid)]))
      else (mkResponse 403
              (BMessage "Only the guild owner can delete the guild"), w)
  end.
Proof.
  destruct w as [s o].
  unfold run, deleteGuild, bind, getDb, putDb, orFail, failIf, fail, send,
    emit, ret. simpl.
  destruct (findById Guild._id gid (guilds s)) as [g|]; simpl; [|reflexivity].
  destruct (Guild.owner g =? u); reflexivity.
Qed.

(** DELETE /guilds/:id of a stored guild succeeds for its owner and for
    nobody else, whatever roles the requester holds; a refusal changes
    nothing.  On success exactly this guild document leaves the store, no
    channel of the guild remains and every other channel stays; messages,
    invites and conversations are not touched; one guildDelete goes to the
    guild's room. *)
Theorem deleteGuild_owner_only (u gid : ObjectId) (w : World) (g : Guild.t) :
  findById Guild._id gid (guilds (db w)) = Some g ->
  let r := fst (run (deleteGuild u gid) w) in
  let w' := snd (run (deleteGuild u gid) w) in
  (status r = 200 <-> Guild.owner g = u) /\
  (Guild.owner g <> u ->
     r = mkResponse 403
           (BMessage "Only the guild owner can delete the guild") /\
     w' = w) /\
  (Guild.owner g = u ->
     (exists l1 l2, guilds (db w) = l1 ++ g :: l2 /\
                    guilds (db w') = l1 ++ l2) /\
     (forall c, In c (channels (db w')) <->
                In c (channels (db w)) /\ Channel.guild c <> gid) /\
     messages (db w') = messages (db w) /\
     invites (db w') = invites (db w) /\
     conversations (db w') = conversations (db w) /\
     io w' = io w ++ [mkEmit ("guild:" ++ gid)%string "guildDelete"
                             (PGuildId gid)]).
Proof.
  intros Hg r w'. subst r w'. rewrite deleteGuild_run, Hg.
  destruct (String.eqb_spec (Guild.owner g) u) as [E|E]; simpl.
  - repeat apply conj; try tauto; try contradiction. intros _.
    destruct (deleteOne_split _ _ _ Hg) as (l1 & l2 & E1 & E2 & _).
    split; [eauto|]. split; [|repeat split; reflexivity].
    intros c. unfold deleteMany. rewrite filter_In, negb_true_iff.
    now rewrite String.eqb_neq.
  - repeat apply conj; try tauto; discriminate.
Qed.

Lemma deleteGuild_owner_only_witness :
  status (fst (run (deleteGuild alice guild1) postedWorld)) = 200 /\
  snd (run (deleteGuild bob guild1) postedWorld) = postedWorld /\
  messages (db (snd (run (deleteGuild alice guild1) postedWorld))) =
    messages (db postedWorld).
Proof.
  destruct (deleteGuild_owner_only alice guild1 postedWorld
              (addMember bob
                 (Guild.preSave true
                    (Guild.mk guild1 "Guild" None alice [alice] [])))
              eq_refl) as (Ha1 & _ & Ha3).
  destruct (deleteGuild_owner_only bob guild1 postedWorld
              (addMember bob
                 (Guild.preSave true
                    (Guild.mk guild1 "Guild" None alice [alice] [])))
              eq_refl) as (_ & Hb2 & _).
  destruct (Ha3 eq_refl) as (_ & _ & Hm & _).
  repeat apply conj.
  - apply (proj2 Ha1). reflexivity.
  - apply Hb2. discriminate.
  - exact Hm.
Defined.

(** Once a guild is deleted, the invites it leaves behind can no longer be
    redeemed: whoever presents the code of an invite of this guild is
    refused (expired, exhausted or guild not found) and nothing changes.
    The guild's id is taken to name one stored document. *)
Theorem deleteGuild_strands_invites (u gid : ObjectId) (w : World)
    (g : Guild.t) :
  findById Guild._id gid (guilds (db w)) = Some g ->
  Guild.owner g = u ->
  countDocuments (fun x => Guild._id x =? gid) (guilds (db w)) = 1 ->
  let w' := snd (run (deleteGuild u gid) w) in
  forall now v c i,
    inviteOf c (db w) = Some i -> Invite.guild i = gid ->
    inviteOf c (db w') = Some i /\
    status (fst (run (joinGuild now v c) w')) <> 200 /\
    errorKind (fst (run (joinGuild now v c) w')) <> None /\
    snd (run (joinGuild now v c) w') = w'.
Proof.
  intros Hg Ho Hn w' now v c i Hi Hgi. subst w'.
  rewrite deleteGuild_run, Hg. apply String.eqb_eq in Ho. rewrite Ho.
  pose proof (countDocuments_deleteOne
                (fun x => Guild._id x =? gid) _ _ _ Hg) as Hc.
  simpl in Hc. pose proof (findById_key _ _ _ _ Hg) as [Hk _].
  rewrite Hk, String.eqb_refl, Hn in Hc.
  assert (Hnone : findById Guild._id gid
                    (deleteOne (fun x => Guild._id x =? gid)
                               (guilds (db w))) = None).
  { apply find_None_of_count. lia. }
  cbn [snd]. split; [exact Hi|]. rewrite joinGuild_run.
  unfold inviteOf in *. cbn [db invites setGuilds setChannels guilds].
  rewrite Hi. 
  destruct (Invite.isExpired now i); [repeat split; discriminate|].
  destruct (Invite.isMaxUsesReached i); [repeat split; discriminate|].
  rewrite Hgi, Hnone. repeat split; discriminate.
Qed.

Lemma deleteGuild_strands_invites_witness :
  inviteOf "abc123" (db orphanWorld) =
    Some (Invite.mk invite1 "abc123" guild1 alice 1 0 (Some 604800000%Z)) /\
  status (fst (run (joinGuild 500 carol "abc123") orphanWorld)) <> 200 /\
  errorKind (fst (run (joinGuild 500 carol "abc123") orphanWorld)) <> None /\
  snd (run (joinGuild 500 carol "abc123") orphanWorld) = orphanWorld.
Proof.
  apply (deleteGuild_strands_invites alice guild1 postedWorld
           (addMember bob
              (Guild.preSave true
                 (Guild.mk guild1 "Guild" None alice [alice] [])))
           eq_refl eq_refl eq_refl 500%Z carol "abc123"
           (Invite.mk invite1 "abc123" guild1 alice 1 0 (Some 604800000%Z))
           eq_refl eq_refl).
Defined.

(** ** Channels: creation, deletion, posting *)

Section ChannelFacts.
Variable isValid : string -> bool.

Lemma createChannel_run (u gid : ObjectId) (name topic : string)
      (type : Channel.kind) (category : string) (cid : ObjectId) (w : World) :
  run (createChannel u gid name topic type category cid) w =
  match findById Guild._id gid (guilds (db w)) with
  | None => (mkResponse 404 (BMessage "Guild not found"), w)
  | Some g =>
      if canDo "MANAGE_CHANNELS" g u
      then
        let channel := Channel.mk cid name topic gid category type in
        match insertOne Channel._id channel (channels (db w)) with
        | None => (mkResponse 500 (BMessage "Server error"), w)
        | Some cs =>
            (mkResponse 201 (BChannel channel),
             mkWorld (setChannels cs (db w))
                     (io w ++ [mkEmit ("guild:" ++ gid)%string "newChannel"
                                      (PChannel channel)]))
        end
      else (mkResponse 403
              (BMessage "You do not have permission to create channels"), w)
  end.
Proof.
  destruct w as [s o].
  unfold run, createChannel, bind, getDb, putDb, orFail, orThrow, throw,
    failIf, fail, send, emit, ret. simpl.
  destruct (findById Guild._id gid (guilds s)) as [g|]; simpl; [|reflexivity].
  destruct (canDo "MANAGE_CHANNELS" g u); simpl; [|reflexivity].
  destruct (insertOne Channel._id _ (channels s)); reflexivity.
Qed.

Lemma deleteChannel_run (u cid : ObjectId) (w : World) (c : Channel.t)
      (g : Guild.t) :
  isValid cid = true ->
  findById Channel._id cid (channels (db w)) = Some c ->
  findById Guild._id (Channel.guild c) (guilds (db w)) = Some g ->
  canDo "MANAGE_CHANNELS" g u = true ->
  2 <= countDocuments (fun c' => Channel.guild c' =? Channel.guild c)
                      (channels (db w)) ->
  run (deleteChannel isValid u cid) w =
    (mkResponse 200 (BMessage "Channel deleted successfully"),
     mkWorld
       (setChannels
          (deleteOne (fun c' => Channel._id c' =? cid) (channels (db w)))
          (setMessages
             (deleteMany (fun m => match Message.channel m with
                                   | Some ch => ch =? cid
                                   | None => false
                                   end) (messages (db w))) (db w)))
       (io w ++ [mkEmit ("channel:" ++ cid)%string "channelDelete" (PChannel c);
                 mkEmit ("guild:" ++ Channel.guild c)%string "channelDelete"
                        (PChannel c)])).
Proof.
  intros Hv Hc Hg Hp Hn. destruct w as [s o]. simpl in *.
  unfold run, deleteChannel, bind, getDb, putDb, orFail, orThrow, throw,
    failIf, fail, send, emit, ret.
  rewrite Hv. simpl. rewrite Hc. simpl. rewrite Hg. simpl. rewrite Hp. simpl.
  destruct (Nat.leb_spec
              (countDocuments (fun c' => Channel.guild c' =? Channel.guild c)
                              (channels s)) 1) as [H|H]; [lia|].
  simpl. now rewrite <- app_assoc.
Qed.

(** The effect of a channel deletion that passes all checks, for use below. *)
Lemma deleteChannel_effect (u cid : ObjectId) (w : World) (c : Channel.t)
    (g : Guild.t) :
  isValid cid = true ->
  findById Channel._id cid (channels (db w)) = Some c ->
  findById Guild._id (Channel.guild c) (guilds (db w)) = Some g ->
  canDo "MANAGE_CHANNELS" g u = true ->
  2 <= countDocuments (fun c' => Channel.guild c' =? Channel.guild c)
                      (channels (db w)) ->
  let r := fst (run (deleteChannel isValid u cid) w) in
  let w' := snd (run (deleteChannel isValid u cid) w) in
  status r = 200 /\
  (exists l1 l2, channels (db w) = l1 ++ c :: l2 /\
                 channels (db w') = l1 ++ l2) /\
  S (countDocuments (fun c' => Channel.guild c' =? Channel.guild c)
                    (channels (db w'))) =
    countDocuments (fun c' => Channel.guild c' =? Channel.guild c)
                   (channels (db w)) /\
  (forall m, In m (messages (db w')) <->
             In m (messages (db w)) /\ Message.channel m <> Some cid) /\
  guilds (db w') = guilds (db w) /\
  io w' = io w ++
    [mkEmit ("channel:" ++ cid)%string "channelDelete" (PChannel c);
     mkEmit ("guild:" ++ Channel.guild c)%string "channelDelete" (PChannel c)].
Proof.
  intros Hv Hc Hg Hp Hn r w'. subst r w'.
  rewrite (deleteChannel_run u cid w c g Hv Hc Hg Hp Hn). simpl.
  destruct (deleteOne_split _ _ _ Hc) as (l1 & l2 & E1 & E2 & _).
  pose proof (countDocuments_deleteOne
                (fun c' => Channel.guild c' =? Channel.guild c) _ _ _ Hc) as Hk.
  simpl in Hk. rewrite String.eqb_refl in Hk.
  split; [reflexivity|]. split; [eauto|]. split; [lia|].
  split; [|split; reflexivity].
  intros m. unfold deleteMany. rewrite filter_In, negb_true_iff.
  destruct (Message.channel m) as [ch|].
  - rewrite String.eqb_neq. split; intros [H1 H2]; split; auto; congruence.
  - split; intros [H1 H2]; split; auto; discriminate.
Qed.

(** A DELETE /channels/:id by a user who passes the capability check, for
    a channel that is not the last of its guild, answers 200.  Exactly this
    channel document leaves the store and the guild has one channel less;
    the messages of the channel are deleted and all other messages are
    kept; channelDelete goes to the channel's room and to the guild's
    room. *)
Theorem deleteChannel_success (u cid : ObjectId) (w : World) (c : Channel.t)
    (g : Guild.t) :
  isValid cid = true ->
  findById Channel._id cid (channels (db w)) = Some c ->
  findById Guild._id (Channel.guild c) (guilds (db w)) = Some g ->
  canDo "MANAGE_CHANNELS" g u = true ->
  2 <= countDocuments (fun c' => Channel.guild c' =? Channel.guild c)
                      (channels (db w)) ->
  let r := fst (run (deleteChannel isValid u cid) w) in
  let w' := snd (run (deleteChannel isValid u cid) w) in
  status r = 200 /\
  (exists l1 l2, channels (db w) = l1 ++ c :: l2 /\
                 channels (db w') = l1 ++ l2) /\
  S (countDocuments (fun c' => Channel.guild c' =? Channel.guild c)
                    (channels (db w'))) =
    countDocuments (fun c' => Channel.guild c' =? Channel.guild c)
                   (channels (db w)) /\
  (forall m, In m (messages (db w')) <->
             In m (messages (db w)) /\ Message.channel m <> Some cid) /\
  guilds (db w') = guilds (db w) /\
  io w' = io w ++
    [mkEmit ("channel:" ++ cid)%string "channelDelete" (PChannel c);
     mkEmit ("guild:" ++ Channel.guild c)%string "channelDelete" (PChannel c)].
Proof. exact (deleteChannel_effect u cid w c g). Qed.

(** Creating a channel unlocks the deletion of the others: after a
    POST /guilds/:id/channels that answers 201, the same user's DELETE of
    any channel the guild had before answers 200, and the guild is left
    with as many channels as it had before the two requests. *)
Theorem createChannel_then_delete (u : ObjectId) (name topic : string)
    (type : Channel.kind) (category : string) (cid cid0 : ObjectId)
    (w : World) (c : Channel.t) :
  isValid cid0 = true ->
  findById Channel._id cid0 (channels (db w)) = Some c ->
  let w1 := snd (run (createChannel u (Channel.guild c) name topic type
                                    category cid) w) in
  status (fst (run (createChannel u (Channel.guild c) name topic type
                                  category cid) w)) = 201 ->
  status (fst (run (deleteChannel isValid u cid0) w1)) = 200 /\
  countDocuments (fun c' => Channel.guild c' =? Channel.guild c)
    (channels (db (snd (run (deleteChannel isValid u cid0) w1)))) =
  countDocuments (fun c' => Channel.guild c' =? Channel.guild c)
    (channels (db w)).
Proof.
  intros Hv Hc w1. subst w1. rewrite createChannel_run.
  destruct (findById Guild._id (Channel.guild c) (guilds (db w)))
    as [g|] eqn:Hg; [|discriminate].
  destruct (canDo "MANAGE_CHANNELS" g u) eqn:Hp; [|discriminate].
  cbv zeta. unfold insertOne.
  destruct (existsb _ (channels (db w))); [discriminate|]. intros _.
  cbn [snd].
  set (new := Channel.mk cid name topic (Channel.guild c) category type).
  set (w1 := mkWorld _ _).
  assert (Hc1 : findById Channel._id cid0 (channels (db w1)) = Some c).
  { unfold w1, findById. simpl. rewrite find_append.
    unfold findById in Hc. now rewrite Hc. }
  assert (Hn1 : countDocuments (fun c' => Channel.guild c' =? Channel.guild c)
                  (channels (db w1)) =
                S (countDocuments
                     (fun c' => Channel.guild c' =? Channel.guild c)
                     (channels (db w)))).
  { unfold w1. simpl. rewrite countDocuments_app.
    unfold countDocuments at 2. simpl. rewrite String.eqb_refl. simpl. lia. }
  assert (Hpos : 1 <= countDocuments
                        (fun c' => Channel.guild c' =? Channel.guild c)
                        (channels (db w))).
  { pose proof (countDocuments_deleteOne
                  (fun c' => Channel.guild c' =? Channel.guild c) _ _ _ Hc)
      as Hk. simpl in Hk. rewrite String.eqb_refl in Hk. lia. }
  destruct (deleteChannel_effect u cid0 w1 c g Hv Hc1 Hg Hp)
    as (Hs & _ & Hk & _); [lia|].
  split; [exact Hs | lia].
Qed.
End ChannelFacts.

Lemma deleteChannel_success_witness :
  let w := snd (run (createChannel alice guild1 "random" "" Channel.text
                                   "general" channel2) aliceWorld) in
  status (fst (run (deleteChannel isHex24 alice channel1) w)) = 200 /\
  channels (db (snd (run (deleteChannel isHex24 alice channel1) w))) =
    [Channel.mk channel2 "random" "" guild1 "general" Channel.text].
Proof.
  intros w.
  destruct (deleteChannel_success isHex24 alice channel1 w
              (Channel.mk channel1 "general" "" guild1 "Text Channels"
                          Channel.text)
              (Guild.preSave true
                 (Guild.mk guild1 "Guild" None alice [alice] []))
              eq_refl eq_refl eq_refl eq_refl) as (Hs & _).
  - vm_compute. lia.
  - split; [exact Hs | reflexivity].
Defined.

Lemma createChannel_then_delete_witness :
  let w1 := snd (run (createChannel alice guild1 "random" "" Channel.text
                                    "general" channel2) aliceWorld) in
  status (fst (run (deleteChannel isHex24 alice channel1) w1)) = 200 /\
  countDocuments (fun c' => Channel.guild c' =? guild1)
    (channels (db (snd (run (deleteChannel isHex24 alice channel1) w1)))) =
  countDocuments (fun c' => Channel.guild c' =? guild1)
    (channels (db aliceWorld)).
Proof.
  exact (createChannel_then_delete isHex24 alice "random" "" Channel.text
           "general" channel2 channel1 aliceWorld
           (Channel.mk channel1 "general" "" guild1 "Text Channels"
                       Channel.text)
           eq_refl eq_refl eq_refl).
Defined.

(** ** POST /channels/:id/messages *)

Lemma canSendMessages_spec (g : Guild.t) (u : ObjectId) :
  canSendMessages g u = true <->
  exists role, In role (Guild.roles g) /\ In u (Role.members role) /\
               In "SEND_MESSAGES" (Role.permissions role).
Proof.
  unfold canSendMessages. rewrite existsb_exists.
  split; intros [r [Hr H]]; exists r; split; auto.
  - apply andb_true_iff in H. now rewrite !includes_In in H.
  - apply andb_true_iff. now rewrite !includes_In.
Qed.

(** The outcomes of a post to a stored channel, for use below. *)
Lemma createMessage_cases (isValid : string -> bool) (u cid : ObjectId)
    (content : string) (mid : ObjectId) (w : World) (c : Channel.t)
    (g : Guild.t) :
  isValid cid = true ->
  findById Channel._id cid (channels (db w)) = Some c ->
  findById Guild._id (Channel.guild c) (guilds (db w)) = Some g ->
  findById Message._id mid (messages (db w)) = None ->
  let r := fst (run (createMessage isValid u cid content mid) w) in
  let w' := snd (run (createMessage isValid u cid content mid) w) in
  let m := Message.mk mid content u (Some cid) None in
  (status r = 201 <->
     includes (Guild.members g) u = true /\ canSendMessages g u = true) /\
  (includes (Guild.members g) u = false ->
     r = mkResponse 403 (BMessage "You are not a member of this guild") /\
     w' = w) /\
  (status r = 201 ->
     r = mkResponse 201 (BMsg m) /\
     messages (db w') = messages (db w) ++ [m] /\
     findById Message._id mid (messages (db w')) = Some m /\
     io w' = io w ++ [mkEmit ("channel:" ++ cid)%string "newMessage"
                             (PMessage m)]).
Proof.
  intros Hv Hc Hg Hm r w' m. subst r w'. destruct w as [s o]. simpl in *.
  pose proof (insertOne_fresh Message._id m (messages s) Hm) as Hi.
  pose proof (findById_insertOne Message._id m _ _ Hi) as Hf.
  unfold run, createMessage, bind, getDb, putDb, orFail, orThrow, throw,
    failIf, fail, send, emit, ret.
  rewrite Hv. simpl. rewrite Hc. simpl. rewrite Hg. simpl.
  destruct (includes (Guild.members g) u); simpl.
  2: { split; [split; [discriminate | intros [[=] _]]|].
       split; [auto | discriminate]. }
  destruct (canSendMessages g u); simpl.
  2: { split; [split; [discriminate | intros [_ [=]]]|].
       split; discriminate. }
  fold m. rewrite Hi. simpl.
  split; [tauto|]. split; [discriminate|]. intros _. auto.
Qed.

(** For a stored channel of a stored guild and a fresh message id, a post
    answers 201 exactly when the user is in the guild's member list and in
    a role with SEND_MESSAGES.  Whoever is not in the member list is
    refused as a non-member before roles are looked at.  A post that
    answers 201 stores the message, authored by the user in this channel,
    after the messages there were, and emits one newMessage, to the
    channel's room. *)
Theorem createMessage_outcome (isValid : string -> bool) (u cid : ObjectId)
    (content : string) (mid : ObjectId) (w : World) (c : Channel.t)
    (g : Guild.t) :
  isValid cid = true ->
  findById Channel._id cid (channels (db w)) = Some c ->
  findById Guild._id (Channel.guild c) (guilds (db w)) = Some g ->
  findById Message._id mid (messages (db w)) = None ->
  let r := fst (run (createMessage isValid u cid content mid) w) in
  let w' := snd (run (createMessage isValid u cid content mid) w) in
  let m := Message.mk mid content u (Some cid) None in
  (status r = 201 <->
     includes (Guild.members g) u = true /\ canSendMessages g u = true) /\
  (includes (Guild.members g) u = false ->
     r = mkResponse 403 (BMessage "You are not a member of this guild") /\
     w' = w) /\
  (status r = 201 ->
     r = mkResponse 201 (BMsg m) /\
     messages (db w') = messages (db w) ++ [m] /\
     findById Message._id mid (messages (db w')) = Some m /\
     io w' = io w ++ [mkEmit ("channel:" ++ cid)%string "newMessage"
                             (PMessage m)]).
Proof. exact (createMessage_cases isValid u cid content mid w c g). Qed.

Lemma createMessage_outcome_witness :
  status (fst (run (createMessage isHex24 bob channel1 "hi" message1)
                   joinedWorld)) = 201 /\
  snd (run (createMessage isHex24 carol channel1 "hi" message1) joinedWorld) =
    joinedWorld.
Proof.
  destruct (createMessage_outcome isHex24 bob channel1 "hi" message1
              joinedWorld
              (Channel.mk channel1 "general" "" guild1 "Text Channels"
                          Channel.text)
              (addMember bob
                 (Guild.preSave true
                    (Guild.mk guild1 "Guild" None alice [alice] [])))
              eq_refl eq_refl eq_refl eq_refl) as (Hb & _).
  destruct (createMessage_outcome isHex24 carol channel1 "hi" message1
              joinedWorld
              (Channel.mk channel1 "general" "" guild1 "Text Channels"
                          Channel.text)
              (addMember bob
                 (Guild.preSave true
                    (Guild.mk guild1 "Guild" None alice [alice] [])))
              eq_refl eq_refl eq_refl eq_refl) as (_ & Hc & _).
  split.
  - apply (proj2 Hb). split; reflexivity.
  - apply Hc. reflexivity.
Defined.

(** The creator of a guild can post in its general channel right away:
    after a POST /guilds that answers 201, the creator's post to the new
    channel under a fresh message id answers 201. *)
Theorem createGuild_then_post (isValid : string -> bool) (a : ObjectId)
    (name : string) (file : option string) (gid cid : ObjectId)
    (content : string) (mid : ObjectId) (w : World) :
  isValid cid = true ->
  findById Message._id mid (messages (db w)) = None ->
  status (fst (run (createGuild a name file gid cid) w)) = 201 ->
  status (fst (run (createMessage isValid a cid content mid)
                   (snd (run (createGuild a name file gid cid) w)))) = 201.
Proof.
  intros Hv Hm. destruct w as [s o]. simpl in Hm.
  unfold run at 1 3, createGuild, bind, getDb, putDb, orThrow, throw, fail,
    send, ret. simpl.
  destruct (insertOne Guild._id _ (guilds s)) as [gs|] eqn:Hgs; simpl;
    [|discriminate].
  destruct (insertOne Channel._id _ (channels s)) as [cs|] eqn:Hcs; simpl;
    [|discriminate].
  intros _. apply findById_insertOne in Hgs. apply findById_insertOne in Hcs.
  simpl in Hgs, Hcs.
  match goal with |- status (fst (run _ ?w1)) = _ => set (w1' := w1) end.
  destruct (createMessage_cases isValid a cid content mid w1'
              _ _ Hv Hcs Hgs Hm) as (H & _).
  apply (proj2 H). unfold canSendMessages, includes. simpl.
  rewrite String.eqb_refl. split; reflexivity.
Qed.

Lemma createGuild_then_post_witness :
  status (fst (run (createMessage isHex24 alice channel1 "hello" message1)
                   (snd (run (createGuild alice "Guild" None guild1 channel1)
                             emptyWorld)))) = 201.
Proof.
  exact (createGuild_then_post isHex24 alice "Guild" None guild1 channel1
           "hello" message1 emptyWorld eq_refl eq_refl eq_refl).
Defined.

(** ** What a redemption gives the new member *)

Lemma filter_updateOne {D} (p q : D -> bool) (f : D -> D) (l : list D) :
  (forall d, In d l -> q d = false) ->
  (forall d, q (f d) = true) ->
  filter q (updateOne p f l) =
  match find p l with Some d => [f d] | None => [] end.
Proof.
  intros Hq Hf. induction l as [|a l IH]; simpl; [reflexivity|].
  assert (Hl : filter q l = []).
  { clear IH. induction l as [|b l IHl]; simpl; [reflexivity|].
    rewrite (Hq b); [|right; now left]. apply IHl.
    intros d [<-|Hd]; apply Hq; [now left | right; now right]. }
  destruct (p a); simpl.
  - now rewrite Hf, Hl.
  - rewrite (Hq a); [|now left]. apply IH. intros d Hd. apply Hq. now right.
Qed.

Lemma joinGuild_joined (now : Z) (u : ObjectId) (c : string) (w : World) :
  status (fst (run (joinGuild now u c) w)) = 200 ->
  exists i g,
    inviteOf c (db w) = Some i /\
    findById Guild._id (Invite.guild i) (guilds (db w)) = Some g /\
    includes (Guild.members g) u = false /\
    findById Guild._id (Invite.guild i)
      (guilds (db (snd (run (joinGuild now u c) w)))) = Some (addMember u g) /\
    channels (db (snd (run (joinGuild now u c) w))) = channels (db w) /\
    messages (db (snd (run (joinGuild now u c) w))) = messages (db w).
Proof.
  rewrite joinGuild_run.
  destruct (inviteOf c (db w)) as [i|]; [|discriminate].
  destruct (Invite.isExpired now i); [discriminate|].
  destruct (Invite.isMaxUsesReached i); [discriminate|].
  destruct (findById Guild._id (Invite.guild i) (guilds (db w)))
    as [g|] eqn:Hg; [|discriminate].
  destruct (includes (Guild.members g) u) eqn:Hu; [discriminate|].
  intros _. exists i, g. repeat split; auto. simpl.
  destruct (findById_key _ _ _ _ Hg) as [Hk _]. rewrite <- Hk.
  apply (findById_saveDoc Guild._id (addMember u g) g).
  simpl. now rewrite Hk.
Qed.

(** In a guild whose role members are guild members, a user who redeems
    an invite ends up in one role at most, the first one named '@everyone',
    and in no role at all when the guild has none of that name: every gate
    the new member passes is opened by that role's permissions (or by
    owning the guild). *)
Theorem joinGuild_only_everyone (now : Z) (u : ObjectId) (c : string)
    (w : World) (i : Invite.t) (g : Guild.t) :
  inviteOf c (db w) = Some i ->
  findById Guild._id (Invite.guild i) (guilds (db w)) = Some g ->
  rolesWithinMembers g = true ->
  status (fst (run (joinGuild now u c) w)) = 200 ->
  exists g',
    findById Guild._id (Invite.guild i)
      (guilds (db (snd (run (joinGuild now u c) w)))) = Some g' /\
    filter (holds u) (Guild.roles g') =
      match find isEveryone (Guild.roles g) with
      | Some r0 => [Role.pushMember u r0]
      | None => []
      end /\
    forall perm, canDo perm g' u = true ->
      Guild.owner g = u \/
      exists r0, find isEveryone (Guild.roles g) = Some r0 /\
                 (includes (Role.permissions r0) perm = true \/
                  includes (Role.permissions r0) "ADMINISTRATOR" = true).
Proof.
  intros Hi Hg Hin Hs.
  destruct (joinGuild_joined now u c w Hs) as (i' & g0 & Hi' & Hg' & Hu & Hf & _).
  rewrite Hi in Hi'. injection Hi' as <-. rewrite Hg in Hg'.
  injection Hg' as <-. exists (addMember u g). split; [exact Hf|].
  apply rolesWithinMembers_spec in Hin.
  assert (Hno : forall r, In r (Guild.roles g) -> holds u r = false).
  { intros r Hr. unfold holds. apply includes_false. intros Hx.
    apply includes_false in Hu. apply Hu. eapply Hin; eauto. }
  assert (Hfil : filter (holds u) (Guild.roles (addMember u g)) =
                 match find isEveryone (Guild.roles g) with
                 | Some r0 => [Role.pushMember u r0]
                 | None => []
                 end).
  { simpl. apply filter_updateOne; [exact Hno|].
    intros d. apply pushMember_members. }
  split; [exact Hfil|].
  intros perm Hp. unfold canDo, isAdmin in Hp.
  rewrite !orb_true_iff in Hp. simpl Guild.owner in Hp.
  destruct Hp as [[Ho|Ha]|Hr]; [left; now apply String.eqb_eq| |];
    right.
  - apply existsb_exists in Ha as [r [Hr Hra]].
    apply andb_true_iff in Hra as [Hpa Hm].
    assert (Hr' : In r (filter (holds u) (Guild.roles (addMember u g))))
      by (apply filter_In; split; assumption).
    rewrite Hfil in Hr'.
    destruct (find isEveryone (Guild.roles g)) as [r0|]; [|destruct Hr'].
    destruct Hr' as [<-|[]]. exists r0. split; [reflexivity|]. now right.
  - apply existsb_exists in Hr as [r [Hr Hra]].
    apply andb_true_iff in Hra as [Hpa Hm].
    assert (Hr' : In r (filter (holds u) (Guild.roles (addMember u g))))
      by (apply filter_In; split; assumption).
    rewrite Hfil in Hr'.
    destruct (find isEveryone (Guild.roles g)) as [r0|]; [|destruct Hr'].
    destruct Hr' as [<-|[]]. exists r0. split; [reflexivity|]. now left.
Qed.

Lemma joinGuild_only_everyone_witness :
  exists g',
    findById Guild._id guild1
      (guilds (db (snd (run (joinGuild 500 bob "abc123") inviteWorld)))) =
      Some g' /\
    filter (holds bob) (Guild.roles g') =
      [Role.mk "@everyone" "#99AAB5"
         ["VIEW_CHANNELS"; "SEND_MESSAGES"; "READ_MESSAGE_HISTORY"] 0
         [alice; bob]].
Proof.
  destruct (joinGuild_only_everyone 500 bob "abc123" inviteWorld
              (Invite.mk invite1 "abc123" guild1 alice 0 1 (Some 1000%Z))
              (Guild.preSave true
                 (Guild.mk guild1 "Guild" None alice [alice] []))
              eq_refl eq_refl eq_refl eq_refl) as (g' & Hf & Hr & _).
  exists g'. split; [exact Hf | exact Hr].
Defined.

(** A user who has redeemed an invite can post at once when the guild's
    first '@everyone' role grants SEND_MESSAGES: the post to any stored
    channel of the guild under a fresh message id answers 201. *)
Theorem joinGuild_then_post (isValid : string -> bool) (now : Z)
    (u : ObjectId) (c : string) (w : World) (i : Invite.t) (g : Guild.t)
    (r0 : Role.t) (cid : ObjectId) (ch : Channel.t) (content : string)
    (mid : ObjectId) :
  inviteOf c (db w) = Some i ->
  findById Guild._id (Invite.guild i) (guilds (db w)) = Some g ->
  find isEveryone (Guild.roles g) = Some r0 ->
  includes (Role.permissions r0) "SEND_MESSAGES" = true ->
  isValid cid = true ->
  findById Channel._id cid (channels (db w)) = Some ch ->
  Channel.guild ch = Invite.guild i ->
  findById Message._id mid (messages (db w)) = None ->
  status (fst (run (joinGuild now u c) w)) = 200 ->
  status (fst (run (createMessage isValid u cid content mid)
                   (snd (run (joinGuild now u c) w)))) = 201.
Proof.
  intros Hi Hg Hr0 Hp Hv Hc Hcg Hm Hs.
  destruct (joinGuild_joined now u c w Hs)
    as (i' & g0 & Hi' & Hg' & Hu & Hf & Hcs & Hms).
  rewrite Hi in Hi'. injection Hi' as <-. rewrite Hg in Hg'.
  injection Hg' as <-.
  set (w1 := snd (run (joinGuild now u c) w)) in *.
  rewrite <- Hcs in Hc. rewrite <- Hms in Hm. rewrite <- Hcg in Hf.
  destruct (createMessage_cases isValid u cid content mid w1 ch
              (addMember u g) Hv Hc Hf Hm) as (H & _).
  apply (proj2 H). split; [apply addMember_members|].
  apply canSendMessages_spec. exists (Role.pushMember u r0).
  assert (Hfind : find isEveryone (Guild.roles (addMember u g)) =
                  Some (Role.pushMember u r0)).
  { simpl. apply find_updateOne; [exact Hr0|].
    apply find_some in Hr0. tauto. }
  apply find_some in Hfind as [Hin _]. split; [exact Hin|].
  split.
  - apply includes_In. apply pushMember_members.
  - now apply includes_In.
Qed.

Lemma joinGuild_then_post_witness :
  status (fst (run (createMessage isHex24 bob channel1 "hi" message1)
                   (snd (run (joinGuild 500 bob "abc123") inviteWorld)))) = 201.
Proof.
  exact (joinGuild_then_post isHex24 500 bob "abc123" inviteWorld
           (Invite.mk invite1 "abc123" guild1 alice 0 1 (Some 1000%Z))
           (Guild.preSave true (Guild.mk guild1 "Guild" None alice [alice] []))
           (Role.mk "@everyone" "#99AAB5"
              ["VIEW_CHANNELS"; "SEND_MESSAGES"; "READ_MESSAGE_HISTORY"] 0
              [alice])
           channel1
           (Channel.mk channel1 "general" "" guild1 "Text Channels"
                       Channel.text)
           "hi" message1
           eq_refl eq_refl eq_refl eq_refl eq_refl eq_refl eq_refl eq_refl
           eq_refl).
Defined.

(** ** Invites: creation, use counter, deletion *)

Lemma createInvite_run (u gid iid : ObjectId) (code : string) (now : Z)
      (w : World) :
  run (createInvite u gid iid code now) w =
  match findById Guild._id gid (guilds (db w)) with
  | None => (mkResponse 404 (BMessage "Guild not found"), w)
  | Some g =>
      if includes (Guild.members g) u
      then
        if canDo "CREATE_INVITE" g u
        then
          if existsb (fun i => Invite.code i =? code) (invites (db w))
          then (mkResponse 500 (BMessage "Server error"), w)
          else
            match insertOne Invite._id (Invite.create iid code gid u now)
                            (invites (db w)) with
            | None => (mkResponse 500 (BMessage "Server error"), w)
            | Some ivs =>
                (mkResponse 201 (BInvite (Invite.create iid code gid u now)),
                 mkWorld (setInvites ivs (db w)) (io w))
            end
        else (mkResponse 403
                (BMessage "You do not have permission to create invites"), w)
      else (mkResponse 403 (BMessage "You are not a member of this guild"), w)
  end.
Proof.
  destruct w as [s o].
  unfold run, createInvite, bind, getDb, putDb, orFail, orThrow, throw,
    failIf, fail, send, ret. simpl.
  destruct (findById Guild._id gid (guilds s)) as [g|]; simpl; [|reflexivity].
  destruct (includes (Guild.members g) u); simpl; [|reflexivity].
  destruct (canDo "CREATE_INVITE" g u); simpl; [|reflexivity].
  destruct (existsb _ (invites s)); simpl; [reflexivity|].
  destruct (insertOne Invite._id _ (invites s)); reflexivity.
Qed.

(** An invite that POST /invites/guilds/:guildId has just created (201)
    is found under its code, was created by a member who passes the
    CREATE_INVITE gate, and lets any user who is not yet a member in up to
    and including the instant seven days after its creation, and nobody
    after that. *)
Theorem createInvite_then_join (u gid iid : ObjectId) (code : string)
    (now : Z) (w : World) :
  status (fst (run (createInvite u gid iid code now) w)) = 201 ->
  let w1 := snd (run (createInvite u gid iid code now) w) in
  exists g,
    findById Guild._id gid (guilds (db w)) = Some g /\
    includes (Guild.members g) u = true /\
    canDo "CREATE_INVITE" g u = true /\
    inviteOf code (db w1) = Some (Invite.create iid code gid u now) /\
    forall now' v,
      includes (Guild.members g) v = false ->
      (status (fst (run (joinGuild now' v code) w1)) = 200 <->
       (now' <= now + 604800000)%Z).
Proof.
  intros Hs w1. subst w1. revert Hs. rewrite createInvite_run.
  destruct (findById Guild._id gid (guilds (db w))) as [g|] eqn:Hg;
    [|discriminate].
  destruct (includes (Guild.members g) u) eqn:Hu; [|discriminate].
  destruct (canDo "CREATE_INVITE" g u) eqn:Hp; [|discriminate].
  destruct (existsb (fun i => Invite.code i =? code) (invites (db w)))
    eqn:He; [discriminate|].
  unfold insertOne.
  destruct (existsb (fun d' => Invite._id d' =? _) (invites (db w)));
    [discriminate|].
  intros _. cbn [snd]. exists g.
  assert (Hinv : inviteOf code
                   (setInvites (invites (db w) ++
                                [Invite.create iid code gid u now]) (db w)) =
                 Some (Invite.create iid code gid u now)).
  { unfold inviteOf. simpl. rewrite find_append.
    destruct (find _ (invites (db w))) as [j|] eqn:Hj.
    - apply find_some in Hj as [Hin Hc].
      assert (existsb (fun i => Invite.code i =? code) (invites (db w)) = true)
        by (apply existsb_exists; eauto).
      congruence.
    - simpl. now rewrite String.eqb_refl. }
  repeat split; auto.
  - intros Hs. rewrite joinGuild_run in Hs. cbn [db] in Hs. rewrite Hinv in Hs.
    unfold Invite.isExpired in Hs. simpl in Hs.
    destruct (Z.ltb_spec (now + 604800000) now'); [discriminate | lia].
  - intros Hle. rewrite joinGuild_run. cbn [db]. rewrite Hinv.
    unfold Invite.isExpired, Invite.isMaxUsesReached. simpl.
    destruct (Z.ltb_spec (now + 604800000) now'); [lia|].
    rewrite Hg, H. reflexivity.
Qed.

Lemma createInvite_then_join_witness :
  let w1 := snd (run (createInvite alice guild1 invite1 "abc123" 0)
                     aliceWorld) in
  status (fst (run (joinGuild 604800000 bob "abc123") w1)) = 200 /\
  status (fst (run (joinGuild 604800001 bob "abc123") w1)) <> 200.
Proof.
  intros w1.
  destruct (createInvite_then_join alice guild1 invite1 "abc123" 0 aliceWorld
              eq_refl) as (g & Hg & _ & _ & _ & H).
  injection Hg as <-. split.
  - apply H; [reflexivity | lia].
  - intros Hs. apply H in Hs; [lia | reflexivity].
Defined.

Lemma guildOp_usesBounded (cast : string -> option ObjectId) (op : GuildOp)
      (w : World) :
  Forall usesBounded (invites (db w)) ->
  Forall usesBounded (invites (db (snd (run (guildOp cast op) w)))).
Proof.
  intros H.
  destruct op as [u n f gid cid | now u c | a gid uid | a gid n c p
                 | u gid iid c now]; simpl guildOp.
  - destruct w as [s o]. simpl in H.
    unfold run, createGuild, bind, getDb, putDb, orThrow, throw, fail, send,
      ret. simpl.
    destruct (insertOne Guild._id _ (guilds s)); simpl; [|assumption].
    destruct (insertOne Channel._id _ (channels s)); simpl; assumption.
  - rewrite joinGuild_run.
    destruct (inviteOf c (db w)) as [i|] eqn:Hi; [|assumption].
    destruct (Invite.isExpired now i); [assumption|].
    destruct (Invite.isMaxUsesReached i) eqn:Hm; [assumption|].
    destruct (findById Guild._id (Invite.guild i) (guilds (db w))) as [g|];
      [|assumption].
    destruct (includes (Guild.members g) u); [assumption|]. simpl.
    apply (Forall_updateOne usesBounded usesBounded); auto.
    intros d _ _. unfold usesBounded. simpl. intros Hne.
    unfold Invite.isMaxUsesReached in Hm.
    destruct (Z.eqb_spec (Invite.maxUses i) 0); [contradiction|].
    apply Z.leb_gt in Hm. lia.
  - rewrite removeMember_run.
    destruct (findById Guild._id gid (guilds (db w))) as [g|]; [|assumption].
    destruct (canDo "KICK_MEMBERS" g a); [|assumption].
    destruct (Guild.owner g =? uid); [assumption|].
    destruct (cast uid) as [m|]; assumption.
  - destruct w as [s o]. simpl in H.
    unfold run, createRole, bind, getDb, putDb, orFail, failIf, fail, send,
      emit, ret. simpl.
    destruct (findById Guild._id gid (guilds s)) as [g|]; simpl; [|assumption].
    destruct (canDo "MANAGE_ROLES" g a); simpl; assumption.
  - rewrite createInvite_run.
    destruct (findById Guild._id gid (guilds (db w))) as [g|]; [|assumption].
    destruct (includes (Guild.members g) u); [|assumption].
    destruct (canDo "CREATE_INVITE" g u); [|assumption].
    destruct (existsb _ (invites (db w))); [assumption|].
    destruct (insertOne Invite._id _ (invites (db w))) eqn:Hins;
      [|assumption].
    simpl. eapply Forall_insertOne; eauto.
    unfold usesBounded. simpl. intros Hne. now elim Hne.
Qed.

(** Requests handled one after the other never push the use counter of a
    limited invite past its limit: if every stored invite with
    maxUses != 0 has uses <= maxUses, the same holds after any sequence of
    guild creations, invite creations, redemptions, kicks and role
    creations. *)
Theorem uses_within_limit (cast : string -> option ObjectId)
    (ops : list GuildOp) (w : World) :
  Forall usesBounded (invites (db w)) ->
  Forall usesBounded (invites (db (runOps cast ops w))).
Proof.
  revert w. induction ops as [|op ops IH]; intros w H; simpl; [assumption|].
  apply IH. now apply guildOp_usesBounded.
Qed.

Lemma uses_within_limit_witness :
  Forall usesBounded
    (invites (db (runOps castHex24 [OpJoinGuild 500 bob "abc123";
                                    OpJoinGuild 500 carol "abc123"]
                         inviteWorld))).
Proof.
  apply (uses_within_limit castHex24
           [OpJoinGuild 500 bob "abc123"; OpJoinGuild 500 carol "abc123"]
           inviteWorld).
  constructor; [|constructor]. unfold usesBounded. simpl. lia.
Defined.

Ltac run_deleteInvite :=
  unfold run, deleteInvite, bind, getDb, putDb, orFail, orThrow, throw,
    failIf, fail, send, ret; simpl.

Lemma deleteInvite_run (u iid : ObjectId) (w : World) :
  run (deleteInvite u iid) w =
  match findById Invite._id iid (invites (db w)) with
  | None => (mkResponse 404 (BMessage "Invite not found"), w)
  | Some i =>
      match findById Guild._id (Invite.guild i) (guilds (db w)) with
      | None => (mkResponse 500 (BMessage "Server error"), w)
      | Some g =>
          if negb (canDo "MANAGE_GUILD" g u) && negb (Invite.creator i =? u)
          then (mkResponse 403
                  (BMessage "You do not have permission to delete this invite"),
                w)
          else (mkResponse 200 (BMessage "Invite deleted successfully"),
                mkWorld
                  (setInvites
                     (deleteOne (fun j => Invite._id j =? iid)
                                (invites (db w))) (db w))
                  (io w))
      end
  end.
Proof.
  destruct w as [s o]. run_deleteInvite.
  destruct (findById Invite._id iid (invites s)) as [i|]; simpl;
    [|reflexivity].
  destruct (findById Guild._id (Invite.guild i) (guilds s)) as [g|]; simpl;
    [|reflexivity].
  destruct (negb (canDo "MANAGE_GUILD" g u) && negb (Invite.creator i =? u));
    reflexivity.
Qed.

(** DELETE /invites/:id for a stored invite of a stored guild answers 200
    exactly when the requester created the invite or passes the
    MANAGE_GUILD gate (owner, ADMINISTRATOR or MANAGE_GUILD role); the
    creator need not be a member any more.  Otherwise the answer is 403 and
    nothing changes.  On success exactly this invite leaves the store. *)
Theorem deleteInvite_outcome (u iid : ObjectId) (w : World) (i : Invite.t)
    (g : Guild.t) :
  findById Invite._id iid (invites (db w)) = Some i ->
  findById Guild._id (Invite.guild i) (guilds (db w)) = Some g ->
  let r := fst (run (deleteInvite u iid) w) in
  let w' := snd (run (deleteInvite u iid) w) in
  (status r = 200 <->
     Invite.creator i = u \/ canDo "MANAGE_GUILD" g u = true) /\
  (status r <> 200 ->
     r = mkResponse 403
           (BMessage "You do not have permission to delete this invite") /\
     w' = w) /\
  (status r = 200 ->
     (exists l1 l2, invites (db w) = l1 ++ i :: l2 /\
                    invites (db w') = l1 ++ l2) /\
     guilds (db w') = guilds (db w) /\ io w' = io w).
Proof.
  intros Hi Hg r w'. subst r w'. destruct w as [s o]. simpl in *.
  destruct (deleteOne_split _ _ _ Hi) as (l1 & l2 & E1 & E2 & _).
  run_deleteInvite. rewrite Hi. simpl. rewrite Hg. simpl.
  destruct (canDo "MANAGE_GUILD" g u); simpl.
  - split; [tauto|]. split; [intros H; now elim H|]. intros _.
    split; [exists l1, l2; auto | auto].
  - destruct (String.eqb_spec (Invite.creator i) u) as [E|E]; simpl.
    + split; [tauto|]. split; [intros H; now elim H|]. intros _.
    split; [exists l1, l2; auto | auto].
    + split; [split; [discriminate | intros [H|H]; [contradiction|discriminate]]|].
      split; [auto | discriminate].
Qed.

Lemma deleteInvite_outcome_witness :
  status (fst (run (deleteInvite alice invite1) joinedWorld)) = 200 /\
  snd (run (deleteInvite bob invite1) joinedWorld) = joinedWorld.
Proof.
  destruct (deleteInvite_outcome alice invite1 joinedWorld
              (Invite.mk invite1 "abc123" guild1 alice 1 0
                         (Some 604800000%Z))
              (addMember bob
                 (Guild.preSave true
                    (Guild.mk guild1 "Guild" None alice [alice] [])))
              eq_refl eq_refl) as (Ha & _).
  destruct (deleteInvite_outcome bob invite1 joinedWorld
              (Invite.mk invite1 "abc123" guild1 alice 1 0
                         (Some 604800000%Z))
              (addMember bob
                 (Guild.preSave true
                    (Guild.mk guild1 "Guild" None alice [alice] [])))
              eq_refl eq_refl) as (_ & Hb & _).
  split.
  - apply (proj2 Ha). left. reflexivity.
  - apply Hb. vm_compute. discriminate.
Defined.

(** An invite whose guild is no longer stored cannot be deleted by
    anyone, its creator included: the handler reads the owner of the
    missing guild, and the request ends in the catch with status 500 and
    the invite still stored. *)
Theorem deleteInvite_orphan (u iid : ObjectId) (w : World) (i : Invite.t) :
  findById Invite._id iid (invites (db w)) = Some i ->
  findById Guild._id (Invite.guild i) (guilds (db w)) = None ->
  run (deleteInvite u iid) w = (mkResponse 500 (BMessage "Server error"), w).
Proof.
  intros Hi Hg. destruct w as [s o]. simpl in *.
  run_deleteInvite. rewrite Hi. simpl. rewrite Hg. reflexivity.
Qed.

Lemma deleteInvite_orphan_witness :
  run (deleteInvite alice invite1) orphanWorld =
    (mkResponse 500 (BMessage "Server error"), orphanWorld).
Proof.
  exact (deleteInvite_orphan alice invite1 orphanWorld
           (Invite.mk invite1 "abc123" guild1 alice 1 0 (Some 604800000%Z))
           eq_refl eq_refl).
Defined.

(** A deleted invite is gone for redemption: when its code names no other
    stored invite, every later POST /invites/join with the code answers
    404 "Invalid invite code" and changes nothing. *)
Theorem deleteInvite_then_join (u iid : ObjectId) (w : World) (i : Invite.t) :
  findById Invite._id iid (invites (db w)) = Some i ->
  countDocuments (fun j => Invite.code j =? Invite.code i)
                 (invites (db w)) = 1 ->
  status (fst (run (deleteInvite u iid) w)) = 200 ->
  let w' := snd (run (deleteInvite u iid) w) in
  forall now v,
    run (joinGuild now v (Invite.code i)) w' =
      (mkResponse 404 (BMessage "Invalid invite code"), w').
Proof.
  intros Hi Hn Hs w' now v. subst w'. revert Hs.
  pose proof (countDocuments_deleteOne
                (fun j => Invite.code j =? Invite.code i) _ _ _ Hi) as Hk.
  simpl in Hk. rewrite String.eqb_refl, Hn in Hk.
  rewrite deleteInvite_run, Hi.
  destruct (findById Guild._id (Invite.guild i) (guilds (db w))) as [g|];
    [|discriminate].
  destruct (negb (canDo "MANAGE_GUILD" g u) && negb (Invite.creator i =? u));
    [discriminate|].
  intros _. cbn [snd]. rewrite joinGuild_run. unfold inviteOf. simpl.
  rewrite find_None_of_count; [reflexivity | lia].
Qed.

Lemma deleteInvite_then_join_witness :
  run (joinGuild 500 carol "abc123")
      (snd (run (deleteInvite alice invite1) joinedWorld)) =
    (mkResponse 404 (BMessage "Invalid invite code"),
     snd (run (deleteInvite alice invite1) joinedWorld)).
Proof.
  exact (deleteInvite_then_join alice invite1 joinedWorld
           (Invite.mk invite1 "abc123" guild1 alice 1 0 (Some 604800000%Z))
           eq_refl eq_refl eq_refl 500%Z carol).
Defined.

(** ** Kicking a member *)

(** The guard on the owner compares the id as the URL writes it with the
    owner's id as a string.  A DELETE /guilds/:id/members/:userId that
    writes the owner's id exactly is refused with 403 whoever asks, and
    changes nothing.  One that writes it otherwise, but in a form that is
    cast to the owner's id, and is requested by someone who passes the
    KICK_MEMBERS gate, answers 200 and takes the owner out of the member
    list and out of every role; the owner field stays. *)
Theorem removeMember_owner_guard (cast : string -> option ObjectId)
    (a gid : ObjectId) (w : World) (g : Guild.t) :
  findById Guild._id gid (guilds (db w)) = Some g ->
  (errorKind (fst (run (removeMember cast a gid (Guild.owner g)) w)) =
     Some Forbidden /\
   snd (run (removeMember cast a gid (Guild.owner g)) w) = w) /\
  (forall uid,
     uid <> Guild.owner g ->
     cast uid = Some (Guild.owner g) ->
     canDo "KICK_MEMBERS" g a = true ->
     status (fst (run (removeMember cast a gid uid) w)) = 200 /\
     exists g',
       findById Guild._id gid
         (guilds (db (snd (run (removeMember cast a gid uid) w)))) =
         Some g' /\
       Guild.owner g' = Guild.owner g /\
       includes (Guild.members g') (Guild.owner g) = false /\
       inNoRole (Guild.owner g) g').
Proof.
  intros Hg. split.
  - rewrite removeMember_run, Hg, String.eqb_refl.
    destruct (canDo "KICK_MEMBERS" g a); split; reflexivity.
  - intros uid Hne Hc Hp.
    assert (Hs : status (fst (run (removeMember cast a gid uid) w)) = 200).
    { apply (removeMember_accepted cast a gid uid w g (Guild.owner g));
        auto. }
    split; [exact Hs|].
    destruct (removeMember_kicked cast a gid uid w Hs)
      as (g0 & m0 & Hg0 & _ & _ & Hc0 & Hg' & _).
    rewrite Hg in Hg0. injection Hg0 as <-.
    rewrite Hc in Hc0. injection Hc0 as <-.
    exists (kicked (Guild.owner g) g). split; [exact Hg'|]. split.
    + unfold kicked. now destruct (existsb _ (Guild.roles g)).
    + split; [apply kicked_not_member | apply kicked_inNoRole].
Qed.

Lemma removeMember_owner_guard_witness :
  (errorKind (fst (run (removeMember castHex24 bob guild1 alice) joinedWorld)) =
     Some Forbidden /\
   snd (run (removeMember castHex24 bob guild1 alice) joinedWorld) =
     joinedWorld) /\
  status (fst (run (removeMember castHex24 alice guild1 aliceUpper)
                   joinedWorld)) = 200 /\
  exists g',
    findById Guild._id guild1
      (guilds (db (snd (run (removeMember castHex24 alice guild1 aliceUpper)
                            joinedWorld)))) = Some g' /\
    Guild.owner g' = alice /\
    includes (Guild.members g') alice = false /\
    inNoRole alice g'.
Proof.
  destruct (removeMember_owner_guard castHex24 alice guild1 joinedWorld
              (addMember bob
                 (Guild.preSave true
                    (Guild.mk guild1 "Guild" None alice [alice] [])))
              eq_refl) as [_ Hcast].
  destruct (removeMember_owner_guard castHex24 bob guild1 joinedWorld
              (addMember bob
                 (Guild.preSave true
                    (Guild.mk guild1 "Guild" None alice [alice] [])))
              eq_refl) as [Hexact _].
  split; [exact Hexact|].
  exact (Hcast aliceUpper ltac:(discriminate) eq_refl eq_refl).
Defined.






Lemma inNoRole_existsb (q : list string -> bool) (u : ObjectId) (g : Guild.t) :
  inNoRole u g ->
  existsb (fun role => q (Role.permissions role) &&
                       includes (Role.members role) u) (Guild.roles g) = false.
Proof.
  intros H. unfold inNoRole in H.
  induction (Guild.roles g) as [|r l IH]; simpl; [reflexivity|].
  rewrite (H r (or_introl eq_refl)), andb_false_r. simpl.
  apply IH. intros r' Hr'. apply H. now right.
Qed.

Lemma inNoRole_canSendMessages (u : ObjectId) (g : Guild.t) :
  inNoRole u g -> canSendMessages g u = false.
Proof.
  intros H. unfold inNoRole in H. unfold canSendMessages.
  induction (Guild.roles g) as [|r l IH]; simpl; [reflexivity|].
  rewrite (H r (or_introl eq_refl)). simpl.
  apply IH. intros r' Hr'. apply H. now right.
Qed.

(** A kicked user is locked out: after a kick that answers 200 the user
    whose id the URL's id is cast to is in neither the member list nor any
    role of the guild, does not pass the posting gate, and a post of theirs
    to any stored channel of the guild is refused with 403 "You are not a
    member of this guild" without any change; unless that user is the
    guild's owner, they pass none of the permission gates either. *)
Theorem removeMember_locks_out (isValid : string -> bool)
    (cast : string -> option ObjectId)
    (a gid : ObjectId) (uid : string) (w : World) :
  status (fst (run (removeMember cast a gid uid) w)) = 200 ->
  let w' := snd (run (removeMember cast a gid uid) w) in
  exists g' member,
    cast uid = Some member /\
    findById Guild._id gid (guilds (db w')) = Some g' /\
    includes (Guild.members g') member = false /\
    inNoRole member g' /\
    canSendMessages g' member = false /\
    (Guild.owner g' <> member -> forall perm, canDo perm g' member = false) /\
    forall cid ch content mid,
      isValid cid = true ->
      findById Channel._id cid (channels (db w)) = Some ch ->
      Channel.guild ch = gid ->
      run (createMessage isValid member cid content mid) w' =
        (mkResponse 403 (BMessage "You are not a member of this guild"), w').
Proof.
  intros Hs w'. subst w'.
  destruct (removeMember_kicked cast a gid uid w Hs)
    as (g & m & Hg & _ & _ & Hc & Hg' & Hch & _).
  set (w' := snd (run (removeMember cast a gid uid) w)) in *.
  pose proof (kicked_inNoRole m g) as Hno.
  pose proof (kicked_not_member m g) as Hmem.
  exists (kicked m g), m. repeat split; auto.
  - now apply inNoRole_canSendMessages.
  - intros Hown perm. apply String.eqb_neq in Hown.
    unfold canDo, isAdmin. rewrite Hown.
    now rewrite
      (inNoRole_existsb (fun ps => includes ps "ADMINISTRATOR") m _ Hno),
      (inNoRole_existsb (fun ps => includes ps perm) m _ Hno).
  - intros cid ch content mid Hv Hcc Hcg. rewrite <- Hch in Hcc.
    rewrite <- Hcg in Hg'. destruct w' as [s' o']. simpl in *.
    unfold run, createMessage, bind, getDb, orFail, orThrow, failIf, fail, ret.
    rewrite Hv. simpl. rewrite Hcc. simpl. rewrite Hg'. simpl.
    rewrite Hmem. reflexivity.
Qed.

Lemma removeMember_locks_out_witness :
  castHex24 bob = Some bob /\
  (forall perm,
     canDo perm
       (kicked bob
          (addMember bob
             (Guild.preSave true
                (Guild.mk guild1 "Guild" None alice [alice] [])))) bob =
     false) /\
  run (createMessage isHex24 bob channel1 "hi" message1)
      (snd (run (removeMember castHex24 alice guild1 bob) joinedWorld)) =
    (mkResponse 403 (BMessage "You are not a member of this guild"),
     snd (run (removeMember castHex24 alice guild1 bob) joinedWorld)).
Proof.
  destruct (removeMember_locks_out isHex24 castHex24 alice guild1 bob
              joinedWorld eq_refl)
    as (g' & m & Hc & Hg' & _ & _ & _ & Hgates & H).
  assert (Hm : m = bob) by (vm_compute in Hc; vm_compute; congruence).
  subst m.
  assert (Hk : g' = kicked bob
                     (addMember bob
                        (Guild.preSave true
                           (Guild.mk guild1 "Guild" None alice [alice] []))))
    by (vm_compute in Hg'; vm_compute; congruence).
  subst g'.
  split; [reflexivity|]. split.
  - apply Hgates. discriminate.
  - exact (H channel1
             (Channel.mk channel1 "general" "" guild1 "Text Channels"
                         Channel.text)
             "hi" message1 eq_refl eq_refl eq_refl).
Defined.

(** ** Creating a role *)

Lemma createRole_run (a gid : ObjectId) (name : string)
      (color : option string) (permissions : list string) (w : World) :
  run (createRole a gid name color permissions) w =
  match findById Guild._id gid (guilds (db w)) with
  | None => (mkResponse 404 (BMessage "Guild not found"), w)
  | Some g =>
      if canDo "MANAGE_ROLES" g a
      then
        let newRole := Role.mk name (colorOrDefault color) permissions
                               (List.length (Guild.roles g)) [] in
        let g1 := Guild.setRoles (Guild.roles g ++ [newRole]) g in
        let role := nth_error (Guild.roles g1)
                              (List.length (Guild.roles g1) - 1) in
        (mkResponse 201 (BRole role),
         mkWorld (setGuilds (saveDoc Guild._id g1 (guilds (db w))) (db w))
                 (io w ++ [mkEmit ("guild:" ++ gid)%string "newRole"
                                  (PRole gid role)]))
      else (mkResponse 403
              (BMessage "You do not have permission to manage roles"), w)
  end.
Proof.
  destruct w as [s o].
  unfold run, createRole, bind, getDb, putDb, orFail, failIf, fail, send,
    emit, ret. simpl.
  destruct (findById Guild._id gid (guilds s)) as [g|]; simpl; [|reflexivity].
  destruct (canDo "MANAGE_ROLES" g a); reflexivity.
Qed.





(** ** Direct messages *)

(** For a stored conversation and a fresh message id, a
    POST /conversations/:id/messages answers 201 exactly when the sender is
    a participant; anyone else gets 403 and nothing changes.  A post that
    answers 201 stores the message after the messages there were and makes
    it the conversation's last message. *)
Theorem sendMessage_outcome (u cid : ObjectId) (content : string)
    (mid : ObjectId) (w : World) (c : Conversation.t) :
  findById Conversation._id cid (conversations (db w)) = Some c ->
  findById Message._id mid (messages (db w)) = None ->
  let r := fst (run (sendMessage u cid content mid) w) in
  let w' := snd (run (sendMessage u cid content mid) w) in
  let m := Message.mk mid content u None (Some cid) in
  (status r = 201 <-> includes (Conversation.participants c) u = true) /\
  (includes (Conversation.participants c) u = false ->
     r = mkResponse 403
           (BMessage "You are not a participant in this conversation") /\
     w' = w) /\
  (includes (Conversation.participants c) u = true ->
     r = mkResponse 201 (BMsg m) /\
     messages (db w') = messages (db w) ++ [m] /\
     findById Conversation._id cid (conversations (db w')) =
       Some (Conversation.setLastMessage mid c)).
Proof.
  intros Hc Hm r w' m. subst r w'. destruct w as [s o]. simpl in *.
  pose proof (insertOne_fresh Message._id m (messages s) Hm) as Hi.
  pose proof (findById_key _ _ _ _ Hc) as [Hk _].
  unfold run, sendMessage, bind, getDb, putDb, orFail, orThrow, throw, failIf,
    fail, send, ret. simpl.
  rewrite Hc. simpl.
  destruct (includes (Conversation.participants c) u); simpl.
  2: { repeat split; try discriminate. }
  fold m. rewrite Hi. simpl. rewrite forEach_emit. simpl.
  split; [tauto|]. split; [discriminate|]. intros _.
  repeat split. rewrite <- Hk.
  apply (findById_saveDoc Conversation._id
           (Conversation.setLastMessage mid c) c).
  simpl. now rewrite Hk.
Qed.

Lemma sendMessage_outcome_witness :
  status (fst (run (sendMessage bob conversation1 "hi" message2) dmWorld)) =
    201 /\
  snd (run (sendMessage carol conversation1 "hi" message2) dmWorld) = dmWorld.
Proof.
  destruct (sendMessage_outcome bob conversation1 "hi" message2 dmWorld
              (Conversation.mk conversation1 [alice; bob] alice (Some message1))
              eq_refl eq_refl) as (Hb & _).
  destruct (sendMessage_outcome carol conversation1 "hi" message2 dmWorld
              (Conversation.mk conversation1 [alice; bob] alice (Some message1))
              eq_refl eq_refl) as (_ & Hc & _).
  split; [apply (proj2 Hb); reflexivity | apply Hc; reflexivity].
Defined.

(** A conversation is found from either side: after a POST /conversations
    by [u] for [r] that answers 201, a POST /conversations by [r] for [u]
    answers 200 with that same conversation, creates nothing and notifies
    nobody. *)
Theorem createConversation_symmetric (u r id id' : ObjectId) (w : World) :
  status (fst (run (createConversation u r id) w)) = 201 ->
  findById User._id u (users (db w)) <> None ->
  let w1 := snd (run (createConversation u r id) w) in
  run (createConversation r u id') w1 =
    (mkResponse 200 (BConversation (Conversation.mk id [u; r] u None)), w1).
Proof.
  intros Hs Hu w1. subst w1. revert Hs. rewrite createConversation_run.
  destruct (findById User._id r (users (db w))); [|discriminate].
  destruct (find (hasBoth u r) (conversations (db w))) as [c|] eqn:Hf;
    [discriminate|].
  cbv zeta. unfold insertOne.
  destruct (existsb _ (conversations (db w))); [discriminate|].
  intros _. cbn [snd]. rewrite createConversation_run. simpl.
  destruct (findById User._id u (users (db w))); [|congruence].
  rewrite find_append.
  assert (Hf' : find (hasBoth r u) (conversations (db w)) = None).
  { destruct (find (hasBoth r u) (conversations (db w))) as [c|] eqn:Hc;
      [|reflexivity].
    apply find_some in Hc as [Hin Hb].
    apply (find_none _ _ Hf) in Hin. unfold hasBoth in *.
    rewrite andb_comm in Hb. congruence. }
  rewrite Hf'. simpl. unfold hasBoth, includes. simpl.
  rewrite !String.eqb_refl, ?orb_true_r. reflexivity.
Qed.

Lemma createConversation_symmetric_witness :
  run (createConversation bob alice message2)
      (snd (run (createConversation alice bob conversation1) emptyWorld)) =
    (mkResponse 200
       (BConversation (Conversation.mk conversation1 [alice; bob] alice None)),
     snd (run (createConversation alice bob conversation1) emptyWorld)).
Proof.
  apply (createConversation_symmetric alice bob conversation1 message2
           emptyWorld).
  - reflexivity.
  - discriminate.
Defined.

(** ** Editing and reading a message *)

(** PUT /messages/:id of a stored message succeeds for its author and for
    nobody else, guild owners and moderators included; a refusal changes
    nothing.  The author's edit replaces the content and keeps id, author
    and container; the stored message is the one answered, and one
    messageUpdate goes to the room of the container. *)
Theorem updateMessage_author_only (u mid : ObjectId) (content : string)
    (w : World) (m : Message.t) :
  findById Message._id mid (messages (db w)) = Some m ->
  let r := fst (run (updateMessage u mid content) w) in
  let w' := snd (run (updateMessage u mid content) w) in
  (status r = 200 <-> Message.author m = u) /\
  (Message.author m <> u ->
     r = mkResponse 403 (BMessage "You can only edit your own messages") /\
     w' = w) /\
  (Message.author m = u ->
     exists m',
       r = mkResponse 200 (BMsg m') /\
       findById Message._id mid (messages (db w')) = Some m' /\
       Message.content m' = content /\
       Message._id m' = Message._id m /\
       Message.author m' = Message.author m /\
       Message.channel m' = Message.channel m /\
       Message.conversationId m' = Message.conversationId m /\
       List.length (messages (db w')) = List.length (messages (db w)) /\
       io w' = io w ++
         match Message.channel m, Message.conversationId m with
         | Some ch, _ => [mkEmit ("channel:" ++ ch)%string "messageUpdate"
                                 (PMessage m')]
         | None, Some cv => [mkEmit ("conversation:" ++ cv)%string
                                    "messageUpdate" (PMessage m')]
         | None, None => []
         end).
Proof.
  intros Hm r w'. subst r w'. destruct w as [s o]. simpl in *.
  pose proof (findById_key _ _ _ _ Hm) as [Hk _].
  assert (Hf : findById Message._id mid
                 (updateOne (fun d => Message._id d =? mid)
                            (setContent content) (messages s)) =
               Some (setContent content m)).
  { unfold findById in *. apply find_updateOne; [exact Hm|].
    simpl. rewrite Hk. apply String.eqb_refl. }
  assert (Hlen : forall l : list Message.t,
             List.length (updateOne (fun d => Message._id d =? mid)
                                    (setContent content) l) = List.length l).
  { induction l as [|a l IH]; simpl; [reflexivity|].
    destruct (Message._id a =? mid); simpl; congruence. }
  unfold run, updateMessage, findByIdAndUpdate, emitToContainer, bind, getDb,
    putDb, orFail, orThrow, throw, failIf, fail, send, emit, ret. simpl.
  rewrite Hm. simpl.
  destruct (String.eqb_spec (Message.author m) u) as [E|E]; simpl.
  - unfold setContent at 1 2. simpl.
    destruct (Message.channel m) as [ch|] eqn:Hch; simpl;
      [|destruct (Message.conversationId m) eqn:Hcv; simpl;
        rewrite ?app_nil_r];
      (split; [tauto|]; split; [contradiction|]; intros _;
       exists (setContent content m); simpl; rewrite ?Hch, ?Hcv;
       repeat split; auto).
  - split; [split; [discriminate | contradiction]|].
    split; [auto | contradiction].
Qed.

Lemma updateMessage_author_only_witness :
  status (fst (run (updateMessage bob message1 "edited") postedWorld)) = 200 /\
  snd (run (updateMessage alice message1 "edited") postedWorld) = postedWorld.
Proof.
  destruct (updateMessage_author_only bob message1 "edited" postedWorld
              (Message.mk message1 "hi" bob (Some channel1) None) eq_refl)
    as (Hb & _).
  destruct (updateMessage_author_only alice message1 "edited" postedWorld
              (Message.mk message1 "hi" bob (Some channel1) None) eq_refl)
    as (_ & Ha & _).
  split; [apply (proj2 Hb); reflexivity | apply Ha; discriminate].
Defined.

(** GET /messages/:id shows a stored message of a stored channel to the
    members of the channel's guild and to nobody else, and a direct message
    of a stored conversation to its participants and to nobody else; the
    others get 403.  What it shows is the stored message, and the request
    changes nothing. *)
Theorem getMessage_access (u mid : ObjectId) (w : World) (m : Message.t) :
  findById Message._id mid (messages (db w)) = Some m ->
  let r := fst (run (getMessage u mid) w) in
  (forall ch c g,
     Message.channel m = Some ch ->
     findById Channel._id ch (channels (db w)) = Some c ->
     findById Guild._id (Channel.guild c) (guilds (db w)) = Some g ->
     (In u (Guild.members g) -> r = mkResponse 200 (BMsg m)) /\
     (~ In u (Guild.members g) ->
      r = mkResponse 403
            (BMessage "You do not have access to this message"))) /\
  (forall cv c,
     Message.channel m = None ->
     Message.conversationId m = Some cv ->
     findById Conversation._id cv (conversations (db w)) = Some c ->
     (In u (Conversation.participants c) -> r = mkResponse 200 (BMsg m)) /\
     (~ In u (Conversation.participants c) ->
      r = mkResponse 403
            (BMessage "You do not have access to this message"))) /\
  snd (run (getMessage u mid) w) = w.
Proof.
  intros Hm r. subst r. destruct w as [s o]. simpl in *.
  unfold run, getMessage, bind, getDb, orFail, orThrow, throw, failIf, fail,
    send, ret. simpl. rewrite Hm. simpl.
  repeat apply conj.
  - intros ch c g Hch Hc Hg. rewrite Hch, Hc. simpl. rewrite Hg. simpl.
    split; intros Hu.
    + apply includes_In in Hu. now rewrite Hu.
    + apply includes_false in Hu. now rewrite Hu.
  - intros cv c Hch Hcv Hc. rewrite Hch, Hcv. simpl. rewrite Hc. simpl.
    split; intros Hu.
    + apply includes_In in Hu. now rewrite Hu.
    + apply includes_false in Hu. now rewrite Hu.
  - destruct (match Message.channel m with
              | Some ch => findById Channel._id ch (channels s)
              | None => None
              end) as [c|]; simpl.
    + destruct (findById Guild._id (Channel.guild c) (guilds s)) as [g|];
        simpl; [|reflexivity].
      destruct (includes (Guild.members g) u); reflexivity.
    + destruct (Message.conversationId m) as [cv|]; simpl; [|reflexivity].
      destruct (findById Conversation._id cv (conversations s)) as [c|];
        simpl; [|reflexivity].
      destruct (includes (Conversation.participants c) u); reflexivity.
Qed.

Lemma getMessage_access_witness :
  fst (run (getMessage bob message1) dmWorld) =
    mkResponse 200
      (BMsg (Message.mk message1 "hello" alice None (Some conversation1))) /\
  fst (run (getMessage carol message1) dmWorld) =
    mkResponse 403 (BMessage "You do not have access to this message").
Proof.
  destruct (getMessage_access bob message1 dmWorld
              (Message.mk message1 "hello" alice None (Some conversation1))
              eq_refl) as (_ & Hb & _).
  destruct (getMessage_access carol message1 dmWorld
              (Message.mk message1 "hello" alice None (Some conversation1))
              eq_refl) as (_ & Hc & _).
  split.
  - apply (Hb conversation1
             (Conversation.mk conversation1 [alice; bob] alice (Some message1))
             eq_refl eq_refl eq_refl).
    right. left. reflexivity.
  - apply (Hc conversation1
             (Conversation.mk conversation1 [alice; bob] alice (Some message1))
             eq_refl eq_refl eq_refl).
    intros [H|[H|[]]]; discriminate H.
Defined.

(** ** Socket rooms *)

Lemma socketJoin_keeps (r r' : string) (rooms : list string) :
  includes rooms r' = true -> includes (socketJoin r rooms) r' = true.
Proof.
  intros H. unfold socketJoin. destruct (includes rooms r); [assumption|].
  rewrite includes_app, H. reflexivity.
Qed.

Lemma socketJoin_in (r : string) (rooms : list string) :
  includes (socketJoin r rooms) r = true.
Proof.
  unfold socketJoin. destruct (includes rooms r) eqn:H; [assumption|].
  rewrite includes_app. simpl. rewrite String.eqb_refl.
  now rewrite orb_true_r.
Qed.

Lemma socketLeave_keeps (r r' : string) (rooms : list string) :
  r' <> r -> includes rooms r' = true ->
  includes (socketLeave r rooms) r' = true.
Proof.
  intros Hne H. unfold socketLeave. now rewrite includes_filter_other.
Qed.

Lemma onEvent_keeps_user_room (uid : ObjectId) (ev : ClientEvent)
      (rooms : list string) :
  includes rooms ("user:" ++ uid)%string = true ->
  includes (onEvent rooms ev) ("user:" ++ uid)%string = true.
Proof.
  intros H.
  destruct ev; simpl onEvent;
    try (now apply socketJoin_keeps);
    (apply socketLeave_keeps; [discriminate | assumption]).
Qed.

Lemma fold_onEvent_keeps_user_room (uid : ObjectId) (evs : list ClientEvent)
      (rooms : list string) :
  includes rooms ("user:" ++ uid)%string = true ->
  includes (fold_left onEvent evs rooms) ("user:" ++ uid)%string = true.
Proof.
  revert rooms. induction evs as [|ev evs IH]; intros rooms H; simpl;
    [assumption|].
  apply IH. now apply onEvent_keeps_user_room.
Qed.

(** The user room survives every event, for use below. *)
Lemma socketRooms_user_room (uid : ObjectId) (evs : list ClientEvent) :
  includes (socketRooms uid evs) ("user:" ++ uid)%string = true.
Proof.
  unfold socketRooms. apply fold_onEvent_keeps_user_room.
  unfold onConnection. apply socketJoin_in.
Qed.

(** A connected socket never leaves its user's own room: whatever join
    and leave events the client sends, with whatever ids, the socket stays
    in 'user:<id>', since every event handler builds a guild, channel or
    conversation key. *)
Theorem socket_keeps_user_room (uid : ObjectId) (evs : list ClientEvent) :
  includes (socketRooms uid evs) ("user:" ++ uid)%string = true.
Proof. exact (socketRooms_user_room uid evs). Qed.

Lemma socketJoin_rooms (uid : ObjectId) (r : string) (rooms : list string) :
  socketRoom uid r ->
  (forall r', In r' rooms -> socketRoom uid r') ->
  forall r', In r' (socketJoin r rooms) -> socketRoom uid r'.
Proof.
  intros Hr H r'. unfold socketJoin. destruct (includes rooms r); [apply H|].
  intros Hin. apply in_app_or in Hin as [Hin|[<-|[]]]; [now apply H | exact Hr].
Qed.

Lemma socketLeave_rooms (uid : ObjectId) (r : string) (rooms : list string) :
  (forall r', In r' rooms -> socketRoom uid r') ->
  forall r', In r' (socketLeave r rooms) -> socketRoom uid r'.
Proof.
  intros H r' Hin. unfold socketLeave in Hin. apply filter_In in Hin as [Hin _].
  now apply H.
Qed.

Lemma fold_onEvent_rooms (uid : ObjectId) (evs : list ClientEvent)
      (rooms : list string) :
  (forall r, In r rooms -> socketRoom uid r) ->
  forall r, In r (fold_left onEvent evs rooms) -> socketRoom uid r.
Proof.
  revert rooms. induction evs as [|ev evs IH]; intros rooms H; simpl;
    [assumption|].
  apply IH.
  destruct ev as [x|x|x|x|x|x]; simpl onEvent;
    try (now apply socketLeave_rooms);
    (apply socketJoin_rooms; [right; exists x; tauto | assumption]).
Qed.

(** Every room of a socket is the user's own room or a guild, channel or
    conversation room. *)
Lemma socketRooms_rooms (uid : ObjectId) (evs : list ClientEvent)
      (r : string) :
  In r (socketRooms uid evs) -> socketRoom uid r.
Proof.
  unfold socketRooms. apply fold_onEvent_rooms.
  unfold onConnection. apply socketJoin_rooms; [now left|].
  intros r' [].
Qed.

(** Of the rooms 'user:<id>' a socket is in its own user's only. *)
Lemma socketRooms_user_only (uid x : ObjectId) (evs : list ClientEvent) :
  includes (socketRooms uid evs) ("user:" ++ x)%string = true <-> x = uid.
Proof.
  split.
  - intros H. apply includes_In in H. apply socketRooms_rooms in H.
    destruct H as [H|[y [H|[H|H]]]]; simpl in H; try discriminate H.
    now injection H.
  - intros ->. apply socketRooms_user_room.
Qed.

(** The notice of a kick goes to the room that the URL's id names: the
    kickedFromGuild that a kick answering 200 emits is addressed to
    'user:<id as the URL writes it>', and a socket of the user who was taken
    out of the guild receives it, whatever rooms the client has joined or
    left, exactly if the URL wrote that user's id as the id itself reads. *)
Theorem kicked_user_notified (cast : string -> option ObjectId)
    (a gid : ObjectId) (uid : string) (w : World) (evs : list ClientEvent) :
  status (fst (run (removeMember cast a gid uid) w)) = 200 ->
  exists member e,
    cast uid = Some member /\
    In e (io (snd (run (removeMember cast a gid uid) w))) /\
    event e = "kickedFromGuild" /\
    room e = ("user:" ++ uid)%string /\
    (receives (socketRooms member evs) e = true <-> uid = member).
Proof.
  intros Hs.
  destruct (removeMember_kicked cast a gid uid w Hs)
    as (g & m & _ & _ & _ & Hc & _ & _ & Hio).
  exists m, (mkEmit ("user:" ++ uid)%string "kickedFromGuild"
                    (PKicked gid (Guild.name g))).
  split; [exact Hc|]. split; [|split; [reflexivity|split; [reflexivity|]]].
  - rewrite Hio. apply in_or_app. right. right. left. reflexivity.
  - unfold receives. simpl room. apply socketRooms_user_only.
Qed.

Lemma kicked_user_notified_witness :
  (exists member e,
     castHex24 bob = Some member /\
     In e (io (snd (run (removeMember castHex24 alice guild1 bob)
                        joinedWorld))) /\
     event e = "kickedFromGuild" /\
     room e = ("user:" ++ bob)%string /\
     (receives (socketRooms member
                  [joinGuildRoom guild1; leaveGuildRoom guild1]) e = true <->
      bob = member)) /\
  (exists member e,
     castHex24 aliceUpper = Some member /\
     In e (io (snd (run (removeMember castHex24 alice guild1 aliceUpper)
                        joinedWorld))) /\
     event e = "kickedFromGuild" /\
     room e = ("user:" ++ aliceUpper)%string /\
     (receives (socketRooms member
                  [joinGuildRoom guild1; leaveGuildRoom guild1]) e = true <->
      aliceUpper = member)).
Proof.
  split.
  - exact (kicked_user_notified castHex24 alice guild1 bob joinedWorld
             [joinGuildRoom guild1; leaveGuildRoom guild1] eq_refl).
  - exact (kicked_user_notified castHex24 alice guild1 aliceUpper joinedWorld
             [joinGuildRoom guild1; leaveGuildRoom guild1] eq_refl).
Defined.

(** ** Delivery to sockets *)

Lemma sendMessage_io (u cid : ObjectId) (content : string) (mid : ObjectId)
      (w : World) (c : Conversation.t) :
  findById Conversation._id cid (conversations (db w)) = Some c ->
  status (fst (run (sendMessage u cid content mid) w)) = 201 ->
  io (snd (run (sendMessage u cid content mid) w)) =
    io w ++
    map (fun p => mkEmit ("user:" ++ p)%string "newMessage"
                         (PMessage (Message.mk mid content u None (Some cid))))
        (Conversation.participants c) ++
    [mkEmit ("conversation:" ++ cid)%string "newMessage"
            (PMessage (Message.mk mid content u None (Some cid)))].
Proof.
  intros Hc. destruct w as [s o]. simpl in Hc.
  unfold run, sendMessage, bind, getDb, putDb, orFail, orThrow, throw, failIf,
    fail, send, ret. simpl. rewrite Hc. simpl.
  destruct (includes (Conversation.participants c) u); simpl; [|discriminate].
  destruct (insertOne Message._id _ (messages s)); simpl; [|discriminate].
  rewrite forEach_emit. simpl. intros _. now rewrite <- app_assoc.
Qed.

(** A direct message reaches every connected participant, whether or not
    the client has joined the conversation's room: of the emissions of a
    POST /conversations/:id/messages that answers 201, one newMessage
    carrying the message is received by each socket of each participant. *)
Theorem direct_message_reaches_participants (u cid : ObjectId)
    (content : string) (mid : ObjectId) (w : World) (c : Conversation.t)
    (p : ObjectId) (evs : list ClientEvent) :
  findById Conversation._id cid (conversations (db w)) = Some c ->
  status (fst (run (sendMessage u cid content mid) w)) = 201 ->
  In p (Conversation.participants c) ->
  exists e,
    In e (io (snd (run (sendMessage u cid content mid) w))) /\
    event e = "newMessage" /\
    payload e = PMessage (Message.mk mid content u None (Some cid)) /\
    receives (socketRooms p evs) e = true.
Proof.
  intros Hc Hs Hp.
  exists (mkEmit ("user:" ++ p)%string "newMessage"
                 (PMessage (Message.mk mid content u None (Some cid)))).
  repeat split.
  - rewrite (sendMessage_io u cid content mid w c Hc Hs).
    apply in_or_app. right. apply in_or_app. left.
    apply in_map_iff. exists p. split; [reflexivity | assumption].
  - unfold receives. simpl room. apply socketRooms_user_room.
Qed.

Lemma direct_message_reaches_participants_witness :
  exists e,
    In e (io (snd (run (sendMessage bob conversation1 "hi" message2) dmWorld)))
    /\ event e = "newMessage" /\
    payload e = PMessage (Message.mk message2 "hi" bob None (Some conversation1))
    /\ receives (socketRooms alice []) e = true.
Proof.
  apply (direct_message_reaches_participants bob conversation1 "hi" message2
           dmWorld
           (Conversation.mk conversation1 [alice; bob] alice (Some message1))
           alice []).
  - reflexivity.
  - reflexivity.
  - left. reflexivity.
Defined.

Lemma createMessage_io (isValid : string -> bool) (u cid : ObjectId)
      (content : string) (mid : ObjectId) (w : World) :
  status (fst (run (createMessage isValid u cid content mid) w)) = 201 ->
  io (snd (run (createMessage isValid u cid content mid) w)) =
    io w ++ [mkEmit ("channel:" ++ cid)%string "newMessage"
                    (PMessage (Message.mk mid content u (Some cid) None))].
Proof.
  destruct w as [s o].
  unfold run, createMessage, bind, getDb, putDb, orFail, orThrow, throw,
    failIf, fail, send, emit, ret.
  destruct (isValid cid); simpl; [|discriminate].
  destruct (findById Channel._id cid (channels s)) as [c|]; simpl;
    [|discriminate].
  destruct (findById Guild._id (Channel.guild c) (guilds s)) as [g|]; simpl;
    [|discriminate].
  destruct (includes (Guild.members g) u); simpl; [|discriminate].
  destruct (canSendMessages g u); simpl; [|discriminate].
  destruct (insertOne Message._id _ (messages s)); simpl; [|discriminate].
  reflexivity.
Qed.

(** Joining a room is not guarded: the socket of any user, member of the
    guild or not, that has sent joinChannel for a channel id receives the
    newMessage of every post to that channel that answers 201. *)
Theorem channel_room_unguarded (isValid : string -> bool) (u cid : ObjectId)
    (content : string) (mid : ObjectId) (w : World) (v : ObjectId)
    (evs : list ClientEvent) :
  status (fst (run (createMessage isValid u cid content mid) w)) = 201 ->
  exists e,
    In e (io (snd (run (createMessage isValid u cid content mid) w))) /\
    event e = "newMessage" /\
    payload e = PMessage (Message.mk mid content u (Some cid) None) /\
    receives (socketRooms v (evs ++ [joinChannelRoom cid])) e = true.
Proof.
  intros Hs.
  exists (mkEmit ("channel:" ++ cid)%string "newMessage"
                 (PMessage (Message.mk mid content u (Some cid) None))).
  repeat split.
  - rewrite (createMessage_io isValid u cid content mid w Hs).
    apply in_or_app. right. left. reflexivity.
  - unfold receives, socketRooms. rewrite fold_left_app. simpl.
    apply socketJoin_in.
Qed.

Lemma channel_room_unguarded_witness :
  exists e,
    In e (io (snd (run (createMessage isHex24 bob channel1 "hi" message1)
                       joinedWorld))) /\
    event e = "newMessage" /\
    payload e = PMessage (Message.mk message1 "hi" bob (Some channel1) None) /\
    receives (socketRooms carol ([] ++ [joinChannelRoom channel1])) e = true.
Proof.
  exact (channel_room_unguarded isHex24 bob channel1 "hi" message1 joinedWorld
           carol [] eq_refl).
Defined.

(** ** Kicking someone who is not there *)

Lemma updateOne_id {D} (p : D -> bool) (f : D -> D) (l : list D) :
  (forall d, In d l -> p d = true -> f d = d) -> updateOne p f l = l.
Proof.
  induction l as [|a l IH]; intros H; simpl; [reflexivity|].
  destruct (p a) eqn:Ha.
  - now rewrite (H a (or_introl eq_refl) Ha).
  - rewrite IH; [reflexivity|]. intros d Hd. apply H. now right.
Qed.

Lemma updateMany_id {D} (p : D -> bool) (f : D -> D) (l : list D) :
  (forall d, In d l -> p d = false) -> updateMany p f l = l.
Proof.
  unfold updateMany. induction l as [|a l IH]; intros H; simpl; [reflexivity|].
  rewrite (H a (or_introl eq_refl)), IH; [reflexivity|].
  intros d Hd. apply H. now right.
Qed.

Lemma filter_out_absent (l : list ObjectId) (u : ObjectId) :
  includes l u = false -> filter (fun m => negb (m =? u)) l = l.
Proof.
  unfold includes. induction l as [|a l IH]; simpl; [reflexivity|].
  rewrite orb_false_iff. intros [Ha Hl].
  rewrite String.eqb_sym, Ha. simpl. now rewrite IH.
Qed.

(** The kick handler does not ask whether its target is a member: when
    the URL's id is cast to a user who is neither in the member list nor in
    any role of the guild documents under the guild id, and is not written
    as the owner's id, a kick by someone who may kick answers 200 and sends
    both notifications, under the id as the URL writes it, and leaves the
    store as it was. *)
Theorem removeMember_absent (cast : string -> option ObjectId)
    (a gid : ObjectId) (uid : string) (member : ObjectId) (w : World)
    (g : Guild.t) :
  findById Guild._id gid (guilds (db w)) = Some g ->
  canDo "KICK_MEMBERS" g a = true ->
  Guild.owner g <> uid ->
  cast uid = Some member ->
  (forall g0, In g0 (guilds (db w)) -> Guild._id g0 = gid ->
     includes (Guild.members g0) member = false /\ inNoRole member g0) ->
  run (removeMember cast a gid uid) w =
    (mkResponse 200 (BMessage "Member removed successfully"),
     mkWorld (db w)
       (io w ++ [mkEmit ("guild:" ++ gid)%string "memberRemove"
                        (PMember gid uid);
                 mkEmit ("user:" ++ uid)%string "kickedFromGuild"
                        (PKicked gid (Guild.name g))])).
Proof.
  intros Hg Hp Ho Hc Habs. rewrite removeMember_run, Hg, Hp, Hc.
  apply String.eqb_neq in Ho. rewrite Ho.
  rewrite (updateOne_id _ (pullMember member)).
  2: { intros d Hd Hid. apply String.eqb_eq in Hid.
       destruct (Habs d Hd Hid) as [Hm _]. unfold pullMember.
       rewrite (filter_out_absent _ _ Hm). now destruct d. }
  rewrite updateMany_id.
  2: { intros d Hd. destruct (String.eqb_spec (Guild._id d) gid) as [E|E];
         [|reflexivity].
       destruct (Habs d Hd E) as [_ Hr]. simpl.
       destruct (existsb _ (Guild.roles d)) eqn:He; [|reflexivity].
       apply existsb_exists in He as [r [Hin Hu]].
       rewrite (Hr r Hin) in Hu. discriminate. }
  destruct w as [s o]. now destruct s.
Qed.

Lemma removeMember_absent_witness :
  run (removeMember castHex24 alice guild1 carol) joinedWorld =
    (mkResponse 200 (BMessage "Member removed successfully"),
     mkWorld (db joinedWorld)
       (io joinedWorld ++
        [mkEmit ("guild:" ++ guild1)%string "memberRemove"
                (PMember guild1 carol);
         mkEmit ("user:" ++ carol)%string "kickedFromGuild"
                (PKicked guild1 "Guild")])).
Proof.
  apply (removeMember_absent castHex24 alice guild1 carol carol joinedWorld
           (addMember bob
              (Guild.preSave true
                 (Guild.mk guild1 "Guild" None alice [alice] [])))).
  - reflexivity.
  - reflexivity.
  - discriminate.
  - reflexivity.
  - intros g0 [<-|[]] _. split; [reflexivity|].
    intros r [<-|[<-|[]]]; reflexivity.
Defined.

(** * The gates in the guilds that requests produce *)

(** ** What the requests keep *)

Lemma NoDup_snoc {A} (l : list A) (x : A) :
  NoDup l -> ~ In x l -> NoDup (l ++ [x]).
Proof.
  induction 1 as [|a l Ha Hl IH]; intros Hx; simpl.
  - constructor; [intros []|constructor].
  - constructor.
    + intros Hin. apply in_app_or in Hin as [Hin|[<-|[]]]; [contradiction|].
      apply Hx. now left.
    + apply IH. intros Hin. apply Hx. now right.
Qed.

Lemma insertOne_inv {D} (key : D -> ObjectId) (d : D) (l l' : list D) :
  insertOne key d l = Some l' -> l' = l ++ [d] /\ ~ In (key d) (map key l).
Proof.
  unfold insertOne. destruct (existsb _ l) eqn:He; [discriminate|].
  intros [= <-]. split; [reflexivity|]. intros Hin.
  apply in_map_iff in Hin as [d' [Hk Hd']].
  assert (existsb (fun d' => key d' =? key d) l = true).
  { apply existsb_exists. exists d'. split; [assumption|].
    now apply String.eqb_eq. }
  congruence.
Qed.

Lemma map_updateOne_key {D} (key : D -> ObjectId) (p : D -> bool)
      (f : D -> D) (l : list D) :
  (forall d, p d = true -> key (f d) = key d) ->
  map key (updateOne p f l) = map key l.
Proof.
  intros H. induction l as [|a l IH]; simpl; [reflexivity|].
  destruct (p a) eqn:Hp; simpl; [now rewrite H | now rewrite IH].
Qed.

Lemma map_updateMany_key {D} (key : D -> ObjectId) (p : D -> bool)
      (f : D -> D) (l : list D) :
  (forall d, key (f d) = key d) ->
  map key (updateMany p f l) = map key l.
Proof.
  intros H. unfold updateMany. rewrite map_map. apply map_ext.
  intros d. now destruct (p d).
Qed.

(** Under pairwise different ids the one document that [updateOne] with a
    filter on [_id] rewrites is the only one of that id. *)
Lemma updateOne_unique {D} (key : D -> ObjectId) (k : ObjectId) (f : D -> D)
      (l : list D) :
  NoDup (map key l) ->
  updateOne (fun d => key d =? k) f l =
  map (fun d => if key d =? k then f d else d) l.
Proof.
  induction l as [|a l IH]; simpl; [reflexivity|].
  intros Hnd. inversion Hnd as [|x xs Hx Hxs]; subst.
  destruct (String.eqb_spec (key a) k) as [E|E]; [|now rewrite IH].
  f_equal. symmetry. rewrite <- (map_id l) at 2. apply map_ext_in.
  intros d Hd. destruct (String.eqb_spec (key d) k) as [E'|E']; [|reflexivity].
  exfalso. apply Hx. rewrite E, <- E'. now apply in_map.
Qed.


Lemma EveryoneFirst_preSave (gid : ObjectId) (n : string)
      (ic : option string) (u : ObjectId) :
  EveryoneFirst (Guild.preSave true (Guild.mk gid n ic u [u] [])).
Proof.
  exists (Role.mk "@everyone" "#99AAB5"
            ["VIEW_CHANNELS"; "SEND_MESSAGES"; "READ_MESSAGE_HISTORY"] 0 [u]),
         [Role.mk "Admin" "#F04747" ["ADMINISTRATOR"] 1 [u]].
  repeat split. intros x Hx. exact Hx.
Qed.

Lemma EveryoneFirst_addMember (u : ObjectId) (g : Guild.t) :
  EveryoneFirst g -> EveryoneFirst (addMember u g).
Proof.
  intros (r0 & rest & Hr & He & Hp & Hm).
  exists (Role.pushMember u r0), rest. unfold addMember.
  cbn [Guild.roles Guild.members Guild.setRoles Guild.setMembers].
  rewrite Hr. cbn [updateOne]. rewrite He.
  split; [reflexivity|]. split; [exact He|]. split; [exact Hp|].
  simpl. intros x Hx. apply in_app_or in Hx as [Hx|Hx]; apply in_or_app;
    [left; now apply Hm | now right].
Qed.

Lemma EveryoneFirst_kicked (m : ObjectId) (g : Guild.t) :
  EveryoneFirst g -> EveryoneFirst (kicked m g).
Proof.
  intros (r0 & rest & Hr & He & Hp & Hm). unfold kicked.
  destruct (existsb _ (Guild.roles g)).
  - exists (Role.pullMember m r0), (map (Role.pullMember m) rest).
    unfold pullFromRoles, pullMember.
    cbn [Guild.roles Guild.members Guild.setRoles Guild.setMembers].
    rewrite Hr. split; [reflexivity|]. split; [exact He|].
    split; [exact Hp|]. simpl. intros x Hx.
    apply In_filter_out in Hx as [Hx Hne]. apply In_filter_out.
    split; [now apply Hm | assumption].
  - exists r0, rest. split; [exact Hr|]. split; [exact He|].
    split; [exact Hp|]. intros x Hx.
    apply In_filter_out in Hx as [Hx _]. now apply Hm.
Qed.

Lemma EveryoneFirst_newRole (r : Role.t) (g : Guild.t) :
  EveryoneFirst g ->
  EveryoneFirst (Guild.setRoles (Guild.roles g ++ [r]) g).
Proof.
  intros (r0 & rest & Hr & He & Hp & Hm).
  exists r0, (rest ++ [r]). simpl. rewrite Hr.
  split; [reflexivity|]. split; [exact He|]. split; [exact Hp | exact Hm].
Qed.

(** Every guild-changing request keeps the ids of the stored guilds
    pairwise different and, in each of them, a first role '@everyone' that
    grants SEND_MESSAGES and has every member. *)
Lemma guildOp_EveryoneFirst (cast : string -> option ObjectId) (op : GuildOp)
      (w : World) :
  uniqueIds (guilds (db w)) /\ Forall EveryoneFirst (guilds (db w)) ->
  uniqueIds (guilds (db (snd (run (guildOp cast op) w)))) /\
  Forall EveryoneFirst (guilds (db (snd (run (guildOp cast op) w)))).
Proof.
  intros [Hu H].
  destruct op as [u n f gid cid | now u c | a gid uid | a gid n c p
                 | u gid iid c now]; simpl guildOp.
  - destruct w as [s o]. simpl in Hu, H.
    unfold run, createGuild, bind, getDb, putDb, orThrow, throw, fail, send,
      ret. simpl.
    destruct (insertOne Guild._id _ (guilds s)) as [gs|] eqn:Hgs; simpl;
      [|now split].
    assert (Hnew : uniqueIds gs /\ Forall EveryoneFirst gs).
    { apply insertOne_inv in Hgs as [-> Hfresh]. split.
      - unfold uniqueIds. rewrite map_app. now apply NoDup_snoc.
      - apply Forall_app. split; [assumption|].
        constructor; [apply EveryoneFirst_preSave | constructor]. }
    destruct (insertOne Channel._id _ (channels s)); simpl; assumption.
  - rewrite joinGuild_run.
    destruct (inviteOf c (db w)) as [i|]; [|now split].
    destruct (Invite.isExpired now i); [now split|].
    destruct (Invite.isMaxUsesReached i); [now split|].
    destruct (findById Guild._id (Invite.guild i) (guilds (db w))) as [g|]
      eqn:Hg; [|now split].
    destruct (includes (Guild.members g) u); [now split|]. simpl.
    apply findById_key in Hg as [_ Hg]. split.
    + unfold uniqueIds, saveDoc. rewrite map_updateOne_key; [assumption|].
      intros d Hd. apply String.eqb_eq in Hd. now rewrite Hd.
    + apply (Forall_updateOne EveryoneFirst EveryoneFirst); auto.
      intros d _ _. apply EveryoneFirst_addMember.
      rewrite Forall_forall in H. now apply H.
  - rewrite removeMember_run.
    destruct (findById Guild._id gid (guilds (db w))) as [g|]; [|now split].
    destruct (canDo "KICK_MEMBERS" g a); [|now split].
    destruct (Guild.owner g =? uid); [now split|].
    destruct (cast uid) as [m|]; [|now split]. simpl. split.
    + unfold uniqueIds.
      rewrite map_updateMany_key, map_updateOne_key; auto.
    + rewrite (updateOne_unique Guild._id gid (pullMember m) _ Hu).
      unfold updateMany. rewrite map_map. apply Forall_map.
      eapply Forall_impl; [|exact H].
      intros d Hd. simpl.
      destruct (String.eqb_spec (Guild._id d) gid) as [E|E].
      * simpl. apply String.eqb_eq in E. rewrite E. simpl.
        now apply (EveryoneFirst_kicked m d).
      * apply String.eqb_neq in E. rewrite E. exact Hd.
  - rewrite createRole_run.
    destruct (findById Guild._id gid (guilds (db w))) as [g|] eqn:Hg;
      [|now split].
    destruct (canDo "MANAGE_ROLES" g a); [|now split]. simpl.
    apply findById_key in Hg as [_ Hg]. split.
    + unfold uniqueIds, saveDoc. rewrite map_updateOne_key; [assumption|].
      intros d Hd. apply String.eqb_eq in Hd. now rewrite Hd.
    + apply (Forall_updateOne EveryoneFirst EveryoneFirst); auto.
      intros d _ _. apply EveryoneFirst_newRole.
      rewrite Forall_forall in H. now apply H.
  - rewrite createInvite_run.
    destruct (findById Guild._id gid (guilds (db w))) as [g|]; [|now split].
    destruct (includes (Guild.members g) u); [|now split].
    destruct (canDo "CREATE_INVITE" g u); [|now split].
    destruct (existsb _ (invites (db w))); [now split|].
    destruct (insertOne Invite._id _ (invites (db w))); now split.
Qed.

Lemma guildReachable_EveryoneFirst (cast : string -> option ObjectId)
      (w : World) :
  guildReachable cast w ->
  uniqueIds (guilds (db w)) /\ Forall EveryoneFirst (guilds (db w)).
Proof.
  induction 1 as [w Hw | w op Hw IH].
  - rewrite Hw. split; constructor.
  - now apply guildOp_EveryoneFirst.
Qed.






(** ** The owner *)





(** ** The capability check *)




(** ** Invite redemption, all or nothing *)

(** C3: after a POST /invites/join that answers 200, the stored invite
    has [uses] one higher and every other field as before; the guild's
    member list is the former one with the user appended; and the guild's
    '@everyone' role (the one [roles.find] returns) has its former members
    with the user appended, the roles being as they were when there is no
    role of that name.  A redemption that does not answer 200 leaves the
    whole world, invite and guild included, as it was.  In a world reached
    from one without guilds by guild creation, invite creation and
    redemption, member kick and role creation, the guild has a role
    '@everyone', so that after a 200 the user is in the member list and in
    that role. *)
Theorem joinGuild_atomic (cast : string -> option ObjectId) (now : Z)
    (u : ObjectId) (c : string) (w : World) :
  let r := fst (run (joinGuild now u c) w) in
  let w' := snd (run (joinGuild now u c) w) in
  (status r = 200 ->
   exists i g i' g',
     inviteOf c (db w) = Some i /\
     findById Guild._id (Invite.guild i) (guilds (db w)) = Some g /\
     findById Invite._id (Invite._id i) (invites (db w')) = Some i' /\
     Invite.uses i' = (Invite.uses i + 1)%Z /\
     (Invite._id i' = Invite._id i /\ Invite.code i' = Invite.code i /\
      Invite.guild i' = Invite.guild i /\
      Invite.creator i' = Invite.creator i /\
      Invite.maxUses i' = Invite.maxUses i /\
      Invite.expiresAt i' = Invite.expiresAt i) /\
     findById Guild._id (Invite.guild i) (guilds (db w')) = Some g' /\
     Guild.members g' = Guild.members g ++ [u] /\
     includes (Guild.members g') u = true /\
     (Guild._id g' = Guild._id g /\ Guild.name g' = Guild.name g /\
      Guild.icon g' = Guild.icon g /\ Guild.owner g' = Guild.owner g) /\
     match find isEveryone (Guild.roles g) with
     | Some r0 =>
         exists r1,
           find isEveryone (Guild.roles g') = Some r1 /\
           Role.members r1 = Role.members r0 ++ [u] /\
           includes (Role.members r1) u = true /\
           Role.name r1 = "@everyone" /\
           Role.permissions r1 = Role.permissions r0
     | None => Guild.roles g' = Guild.roles g
     end) /\
  (status r <> 200 -> w' = w) /\
  (guildReachable cast w -> status r = 200 ->
   exists i g' r1,
     inviteOf c (db w) = Some i /\
     findById Guild._id (Invite.guild i) (guilds (db w')) = Some g' /\
     includes (Guild.members g') u = true /\
     find isEveryone (Guild.roles g') = Some r1 /\
     includes (Role.members r1) u = true).
Proof.
  intros r w'. subst r w'.
  destruct (joinGuild_effect now u c w) as [Hok Hfail].
  split; [exact Hok|]. split; [exact Hfail|].
  intros Hw Hs.
  destruct (Hok Hs)
    as (i & g & i' & g' & Hi & Hg & _ & _ & _ & Hg' & _ & Hu & _ & He).
  destruct (guildReachable_EveryoneFirst cast w Hw) as [_ Hall].
  rewrite Forall_forall in Hall.
  destruct (Hall g (proj2 (findById_key _ _ _ _ Hg)))
    as (r0 & rest & Hr & Hn & _).
  rewrite Hr in He. simpl in He. rewrite Hn in He.
  destruct He as (r1 & Hr1 & _ & Hm1 & _).
  exists i, g', r1. repeat split; assumption.
Qed.

Lemma joinGuild_atomic_witness :
  let w := runOps castHex24
             [OpCreateGuild alice "Guild" None guild1 channel1;
              OpCreateInvite alice guild1 invite1 "abc123" 0] emptyWorld in
  (exists i' g' r1,
     findById Invite._id invite1
       (invites (db (snd (run (joinGuild 500 bob "abc123") inviteWorld)))) =
       Some i' /\
     Invite.uses i' = 1%Z /\
     findById Guild._id guild1
       (guilds (db (snd (run (joinGuild 500 bob "abc123") inviteWorld)))) =
       Some g' /\
     Guild.members g' = [alice; bob] /\
     find isEveryone (Guild.roles g') = Some r1 /\
     Role.members r1 = [alice; bob]) /\
  snd (run (joinGuild 2000 bob "abc123") inviteWorld) = inviteWorld /\
  (exists i g' r1,
     inviteOf "abc123" (db w) = Some i /\
     findById Guild._id (Invite.guild i)
       (guilds (db (snd (run (joinGuild 500 bob "abc123") w)))) = Some g' /\
     includes (Guild.members g') bob = true /\
     find isEveryone (Guild.roles g') = Some r1 /\
     includes (Role.members r1) bob = true).
Proof.
  intros w. split; [|split].
  - destruct (proj1 (joinGuild_atomic castHex24 500 bob "abc123" inviteWorld)
                eq_refl)
      as (i & g & i' & g' & Hi & Hg & Hi' & Hu & _ & Hg' & Hm & _ & _ & He).
    assert (Ei : i = Invite.mk invite1 "abc123" guild1 alice 0 1 (Some 1000%Z))
      by (vm_compute in Hi; vm_compute; congruence).
    subst i.
    assert (Eg : g = Guild.preSave true
                       (Guild.mk guild1 "Guild" None alice [alice] []))
      by (vm_compute in Hg; vm_compute; congruence).
    subst g.
    change (find isEveryone
              (Guild.roles
                 (Guild.preSave true
                    (Guild.mk guild1 "Guild" None alice [alice] []))))
      with (Some (Role.mk "@everyone" "#99AAB5"
                    ["VIEW_CHANNELS"; "SEND_MESSAGES"; "READ_MESSAGE_HISTORY"]
                    0 [alice])) in He.
    destruct He as (r1 & Hr1 & Hm1 & _).
    exists i', g', r1. repeat split; assumption.
  - apply (proj1 (proj2 (joinGuild_atomic castHex24 2000 bob "abc123"
                           inviteWorld))).
    vm_compute. discriminate.
  - apply (proj2 (proj2 (joinGuild_atomic castHex24 500 bob "abc123" w))).
    + apply guildReachable_runOps. apply guildReachable_init. reflexivity.
    + reflexivity.
Defined.
